(** * JiraMCP: a shallow embedding of the Jira MCP server

    The development follows the three TypeScript modules of the repository:

    - [jira-client.ts]: class [JiraClient], one method per REST endpoint, all
      of them going through the private method [request];
    - [index.ts]: the zod input schemas, the tool registry and the handlers
      of tool calls and of resource enumeration;
    - [types.ts]: the wire types (only [JiraConfig] is needed at run time).

    Modelling conventions.

    - JavaScript values that cross the wire are JSON values ([json]); a
      possibly-undefined value is an [option json].  Objects are association
      lists in insertion order with unique keys (the engine's reordering of
      integer-like keys is not modelled).
    - A JavaScript string is represented by the bytes of its WTF-8 encoding:
      UTF-8, in which an unpaired surrogate code unit is the three-byte
      sequence [ED A0..BF 80..BF].  Equality of strings is equality of the
      bytes.  Concatenation is concatenation of the bytes: in every template
      of the source two interpolated strings are separated by ASCII text,
      or one of them is empty or begins with ASCII text, so that no
      surrogate pair is formed by a concatenation.
    - A JSON number is an integer ([Z]) and stands for a number of the safe
      range, of magnitude at most [2^53 - 1], where every integer is a
      number of JavaScript and is printed in decimal notation.  Statements
      about numbers that come from outside say so ([isSafeInteger]).
    - [String.prototype.toLowerCase] follows the case tables of Unicode; it
      is taken from the [Engine], over which every definition and theorem
      that depends on it is generic.  [ascii_engine] is the instance used in
      examples: it agrees with the built-in on strings of ASCII characters.
    - [async] code runs in the monad [M]: a computation reads the remote
      tracker (an oracle answering each request from the history of the
      requests made so far), may throw a JavaScript exception, and emits the
      list of HTTP requests it issued.
    - The two libraries the code calls, [JSON.stringify] and zod (v3), are
      modelled by [JSON_stringify] and [ZodType]/[ZodObject]. *)

From Stdlib Require Import ZArith List String Ascii Bool Lia DecimalString.
Import ListNotations.
Open Scope string_scope.
Open Scope Z_scope.
Set Warnings "-register-all".

(* ================================================================== *)
(** * JavaScript values *)
(* ================================================================== *)

Module JS.

(** JSON values, as produced by [JSON.parse] and consumed by
    [JSON.stringify].  A number is an integer of the safe range; a string
    is the sequence of the bytes of its WTF-8 encoding. *)
Inductive json : Type :=
| JNull
| JBool (b : bool)
| JNum (n : Z)
| JStr (s : string)
| JArr (items : list json)
| JObj (props : list (string * json)).

(** [o[k]] on a plain object: [None] is [undefined]. *)
Fixpoint obj_get {V : Type} (k : string) (o : list (string * V)) : option V :=
  match o with
  | [] => None
  | (k', v) :: rest => if String.eqb k k' then Some v else obj_get k rest
  end.

(** [o[k] = v]: an existing key keeps its position, a new key goes last. *)
Fixpoint obj_set {V : Type} (k : string) (v : V) (o : list (string * V))
  : list (string * V) :=
  match o with
  | [] => [(k, v)]
  | (k', v') :: rest =>
      if String.eqb k k' then (k', v) :: rest else (k', v') :: obj_set k v rest
  end.

(** [Object.assign(target, source)]: every own property of [source] is set
    on [target], in the order of [source]. *)
Definition Object_assign {V : Type} (target source : list (string * V))
  : list (string * V) :=
  fold_left (fun acc kv => obj_set (fst kv) (snd kv) acc) source target.

(** The object literal [{ ...a, ...b }] spreads its parts left to right. *)
Definition spread {V : Type} (parts : list (list (string * V)))
  : list (string * V) :=
  fold_left Object_assign parts [].

(** [Object.keys(o)]. *)
Definition keys {V : Type} (o : list (string * V)) : list string := map fst o.

(** ToBoolean. *)
Definition truthy (v : json) : bool :=
  match v with
  | JNull => false
  | JBool b => b
  | JNum n => negb (n =? 0)
  | JStr s => negb (String.eqb s "")
  | JArr _ => true
  | JObj _ => true
  end.

(** Truthiness of a string ([if (s)], [s && ...], [s ? ... : ...]). *)
Definition truthy_string (s : string) : bool := negb (String.eqb s "").

(** Truthiness of a possibly-undefined string. *)
Definition truthy_opt_string (s : option string) : bool :=
  match s with
  | None => false
  | Some s => truthy_string s
  end.

(** Truthiness of a possibly-undefined value. *)
Definition truthy_opt (v : option json) : bool :=
  match v with
  | None => false
  | Some v => truthy v
  end.

(** [Number.isSafeInteger] on an integer. *)
Definition isSafeInteger (n : Z) : bool := Z.abs n <=? 9007199254740991.

(** Number::toString of a number of the safe range: its decimal notation. *)
Definition Z_to_string (x : Z) : string := NilZero.string_of_int (Z.to_int x).

(** [xs.join(sep)] on an array of strings. *)
Definition join (sep : string) (xs : list string) : string := String.concat sep xs.

(** ** Strings

    The number of UTF-16 code units of a string ([s.length]), read off its
    bytes: a continuation byte adds nothing, the first byte of a four-byte
    sequence stands for a surrogate pair. *)
Fixpoint utf16_length (s : string) : nat :=
  match s with
  | EmptyString => 0
  | String c rest =>
      let n := nat_of_ascii c in
      ((if ((128 <=? n) && (n <=? 191))%bool then 0
        else if 240 <=? n then 2 else 1) + utf16_length rest)%nat
  end.

(** The first two bytes of an unpaired surrogate. *)
Definition surrogate_start (c1 c2 : ascii) : bool :=
  ((nat_of_ascii c1 =? 237) && (160 <=? nat_of_ascii c2)
   && (nat_of_ascii c2 <=? 191))%nat%bool.

(** Whether a string holds an unpaired surrogate. *)
Fixpoint has_lone_surrogate (s : string) : bool :=
  match s with
  | EmptyString => false
  | String c1 rest =>
      match rest with
      | String c2 _ => surrogate_start c1 c2 || has_lone_surrogate rest
      | EmptyString => false
      end
  end.

(** ** The built-ins that are not modelled: [String.prototype.toLowerCase]

    The case mapping of the engine is a parameter of the development. *)
Class Engine : Type := {
  toLowerCase : string -> string
}.

(** The case mapping on ASCII letters. *)
Definition lower_char (c : ascii) : ascii :=
  let n := nat_of_ascii c in
  if ((65 <=? n)%nat && (n <=? 90)%nat)%bool then ascii_of_nat (n + 32) else c.

Fixpoint ascii_toLowerCase (s : string) : string :=
  match s with
  | EmptyString => EmptyString
  | String c rest => String (lower_char c) (ascii_toLowerCase rest)
  end.

(** An engine for the examples: on a string of ASCII characters its
    [toLowerCase] is the built-in's. *)
Definition ascii_engine : Engine := {| toLowerCase := ascii_toLowerCase |}.

(** ** [JSON.stringify] *)

Definition dquote : string := String (ascii_of_nat 34) EmptyString.
Definition backslash : string := String (ascii_of_nat 92) EmptyString.
Definition newline : string := String (ascii_of_nat 10) EmptyString.

Definition hex_digit (n : nat) : string :=
  String (ascii_of_nat (if (n <? 10)%nat then 48 + n else 87 + n)) EmptyString.

Definition HEX_digit (n : nat) : string :=
  String (ascii_of_nat (if (n <? 10)%nat then 48 + n else 55 + n)) EmptyString.

(** One code point below U+0080 of QuoteJSONString. *)
Definition quote_char (c : ascii) : string :=
  let n := nat_of_ascii c in
  if (n =? 34)%nat then backslash ++ dquote
  else if (n =? 92)%nat then backslash ++ backslash
  else if (n =? 8)%nat then backslash ++ "b"
  else if (n =? 9)%nat then backslash ++ "t"
  else if (n =? 10)%nat then backslash ++ "n"
  else if (n =? 12)%nat then backslash ++ "f"
  else if (n =? 13)%nat then backslash ++ "r"
  else if (n <? 32)%nat then
    backslash ++ "u00" ++ hex_digit (n / 16) ++ hex_digit (n mod 16)
  else String c EmptyString.

(** UnicodeEscape of the unpaired surrogate whose bytes are [ED c2 c3]. *)
Definition surrogate_escape (c2 c3 : ascii) : string :=
  let unit := ((nat_of_ascii c2 - 128) * 64 + (nat_of_ascii c3 - 128))%nat in
  backslash ++ "ud" ++ hex_digit (unit / 256) ++ hex_digit ((unit / 16) mod 16)
            ++ hex_digit (unit mod 16).

(** The code points of a string, each quoted: an unpaired surrogate is
    escaped, the bytes of every other code point from U+0080 on are kept. *)
Fixpoint quote_chars (s : string) : string :=
  match s with
  | EmptyString => EmptyString
  | String c rest =>
      match rest with
      | String c2 (String c3 rest') =>
          if surrogate_start c c2 then surrogate_escape c2 c3 ++ quote_chars rest'
          else quote_char c ++ quote_chars rest
      | _ => quote_char c ++ quote_chars rest
      end
  end.

Definition QuoteJSONString (s : string) : string :=
  dquote ++ quote_chars s ++ dquote.

(** The closing step shared by SerializeJSONObject and SerializeJSONArray. *)
Definition wrap_partial (open close gap indent stepback : string)
  (partial : list string) : string :=
  match partial with
  | [] => open ++ close
  | _ =>
      if String.eqb gap "" then open ++ join "," partial ++ close
      else
        let separator := "," ++ newline ++ indent in
        open ++ newline ++ indent ++ join separator partial
             ++ newline ++ stepback ++ close
  end.

(** SerializeJSONProperty, with the state's [gap] and current [indent]. *)
Fixpoint SerializeJSONProperty (gap indent : string) (v : json) : string :=
  match v with
  | JNull => "null"
  | JBool true => "true"
  | JBool false => "false"
  | JNum n => Z_to_string n
  | JStr s => QuoteJSONString s
  | JArr items =>
      let stepback := indent in
      let indent := indent ++ gap in
      wrap_partial "[" "]" gap indent stepback
        (map (fun x => SerializeJSONProperty gap indent x) items)
  | JObj props =>
      let stepback := indent in
      let indent := indent ++ gap in
      wrap_partial "{" "}" gap indent stepback
        ((fix members (l : list (string * json)) : list string :=
            match l with
            | [] => []
            | (k, x) :: rest =>
                (QuoteJSONString k ++ ":"
                   ++ (if String.eqb gap "" then "" else " ")
                   ++ SerializeJSONProperty gap indent x) :: members rest
            end) props)
  end.

(** [JSON.stringify(value)]. *)
Definition JSON_stringify (v : json) : string := SerializeJSONProperty "" "" v.

(** [JSON.stringify(value, null, 2)]. *)
Definition JSON_stringify_pretty (v : json) : string :=
  SerializeJSONProperty "  " "" v.

(** ** [encodeURIComponent]

    [percent_encode] is Encode on a well-formed string: the unreserved
    characters stay, every other byte of the UTF-8 encoding is escaped.
    The exception for an unpaired surrogate is added in [Dyn]. *)

Definition uri_unreserved (c : ascii) : bool :=
  let n := nat_of_ascii c in
  (((65 <=? n) && (n <=? 90)) || ((97 <=? n) && (n <=? 122))
   || ((48 <=? n) && (n <=? 57))
   || existsb (Nat.eqb n) [45; 95; 46; 33; 126; 42; 39; 40; 41])%nat%bool.

Fixpoint percent_encode (s : string) : string :=
  match s with
  | EmptyString => EmptyString
  | String c rest =>
      (if uri_unreserved c then String c EmptyString
       else
         let n := nat_of_ascii c in
         "%" ++ HEX_digit (n / 16) ++ HEX_digit (n mod 16))
        ++ percent_encode rest
  end.

End JS.
Export JS.

(* ================================================================== *)
(** * The zod schema library (v3), as far as the server uses it *)
(* ================================================================== *)

Module Zod.

(** One entry of [ZodError.errors]; the server reads only [message]. *)
Record ZodIssue : Type := { message : string }.

(** [getParsedType]. *)
Definition parsed_type (v : json) : string :=
  match v with
  | JNull => "null"
  | JBool _ => "boolean"
  | JNum _ => "number"
  | JStr _ => "string"
  | JArr _ => "array"
  | JObj _ => "object"
  end.

(** The default error map for an [invalid_type] issue. *)
Definition invalid_type (expected : string) (received : option json) : ZodIssue :=
  match received with
  | None => {| message := "Required" |}
  | Some v =>
      {| message := "Expected " ++ expected ++ ", received " ++ parsed_type v |}
  end.

(** The outcome of a parse: the issues found, or the parsed value. *)
Definition ParseResult (A : Type) : Type := (list ZodIssue + A)%type.

(** Both parts are always parsed; the issues of both are kept, in order. *)
Definition merge2 {A B : Type} (a : ParseResult A) (b : ParseResult B)
  : ParseResult (A * B) :=
  match a, b with
  | inr x, inr y => inr (x, y)
  | inl i, inr _ => inl i
  | inr _, inl j => inl j
  | inl i, inl j => inl (i ++ j)%list
  end.

(** [ParseStatus.mergeArray]. *)
Fixpoint mergeArray {A : Type} (rs : list (ParseResult A)) : ParseResult (list A) :=
  match rs with
  | [] => inr []
  | r :: rest =>
      match merge2 r (mergeArray rest) with
      | inl i => inl i
      | inr (x, xs) => inr (x :: xs)
      end
  end.

(** The schema constructors used in [index.ts], indexed by the type of the
    parsed value.  [None] stands for [undefined] under [z_optional] and for
    [null] under [z_nullable]. *)
Inductive ZodType : Type -> Type :=
| z_string : ZodType string
| z_number : ZodType Z
| z_array {A : Type} (element : ZodType A) : ZodType (list A)
| z_record_unknown : ZodType (list (string * json))
| z_optional {A : Type} (inner : ZodType A) : ZodType (option A)
| z_nullable {A : Type} (inner : ZodType A) : ZodType (option A)
| z_default {A : Type} (inner : ZodType A) (defaultValue : json) : ZodType A.

(** [ZodRecord] with [z.unknown()] values: the result object is rebuilt key
    by key, and [mergeObjectSync] drops the key [__proto__]. *)
Definition record_entries (props : list (string * json)) : list (string * json) :=
  fold_left
    (fun acc kv =>
       if String.eqb (fst kv) "__proto__" then acc
       else obj_set (fst kv) (snd kv) acc)
    props [].

Fixpoint _parse {A : Type} (t : ZodType A) (input : option json) : ParseResult A :=
  match t in ZodType T return ParseResult T with
  | z_string =>
      match input with
      | Some (JStr s) => inr s
      | _ => inl [invalid_type "string" input]
      end
  | z_number =>
      match input with
      | Some (JNum n) => inr n
      | _ => inl [invalid_type "number" input]
      end
  | z_array element =>
      match input with
      | Some (JArr items) =>
          mergeArray (map (fun item => _parse element (Some item)) items)
      | _ => inl [invalid_type "array" input]
      end
  | z_record_unknown =>
      match input with
      | Some (JObj props) => inr (record_entries props)
      | _ => inl [invalid_type "object" input]
      end
  | z_optional inner =>
      match input with
      | None => inr None
      | _ =>
          match _parse inner input with
          | inl i => inl i
          | inr x => inr (Some x)
          end
      end
  | z_nullable inner =>
      match input with
      | Some JNull => inr None
      | _ =>
          match _parse inner input with
          | inl i => inl i
          | inr x => inr (Some x)
          end
      end
  | z_default inner defaultValue =>
      match input with
      | None => _parse inner (Some defaultValue)
      | _ => _parse inner input
      end
  end.

(** The shape of a [z.object({...})], in declaration order. *)
Inductive ZodObject : Type -> Type :=
| shape_end : ZodObject unit
| shape_key {A B : Type} (key : string) (t : ZodType A) (rest : ZodObject B)
  : ZodObject (A * B).

(** Every key of the shape is parsed (unknown keys are stripped), and the
    issues of all keys are collected. *)
Fixpoint parse_shape {A : Type} (shape : ZodObject A) (data : list (string * json))
  : ParseResult A :=
  match shape in ZodObject T return ParseResult T with
  | shape_end => inr tt
  | shape_key key t rest =>
      merge2 (_parse t (obj_get key data)) (parse_shape rest data)
  end.

(** [schema.safeParse(args)]. *)
Definition safeParse {A : Type} (schema : ZodObject A) (args : option json)
  : ParseResult A :=
  match args with
  | Some (JObj data) => parse_shape schema data
  | _ => inl [invalid_type "object" args]
  end.

End Zod.
Export Zod.

Notation "k ':::' t ';;;' r" := (shape_key k t r)
  (at level 60, t at next level, right associativity).

(* ================================================================== *)
(** * Exceptions, HTTP and the monad of asynchronous code *)
(* ================================================================== *)

Module Effects.

(** The error codes of the protocol SDK that the server uses. *)
Inductive ErrorCode : Type :=
| InvalidRequest
| MethodNotFound
| InvalidParams
| InternalError.

(** What the code throws and catches: a [ZodError], an [McpError] (with
    the code and the message given to its constructor), or any other
    [Error] (the client's own, a [TypeError], a [SyntaxError], a rejected
    [fetch]), of which only the message is read. *)
Inductive exn : Type :=
| ZodError (errors : list ZodIssue)
| McpError (code : ErrorCode) (msg : string)
| JsError (msg : string).

(** Synchronous code that may throw. *)
Definition Sync (A : Type) : Type := (exn + A)%type.

Definition sbind {A B : Type} (m : Sync A) (f : A -> Sync B) : Sync B :=
  match m with
  | inl e => inl e
  | inr a => f a
  end.

(** The request [fetch(url, init)] puts on the wire. *)
Record HttpRequest : Type := {
  req_url : string;
  req_method : option string;
  req_headers : list (string * string);
  req_body : option string
}.

(** The [Response] of a settled [fetch]: [resp_json] is what
    [response.json()] yields, the message of its [SyntaxError] when the
    body is not JSON. *)
Record Response : Type := {
  resp_status : Z;
  resp_text : string;
  resp_json : string + json
}.

Definition resp_ok (r : Response) : bool :=
  (200 <=? resp_status r) && (resp_status r <=? 299).

(** A [fetch] either rejects (network failure) or resolves to a response. *)
Inductive FetchOutcome : Type :=
| Rejected (msg : string)
| Resolved (response : Response).

(** The remote tracker: it answers a request knowing the requests that
    came before. *)
Definition Remote : Type := list HttpRequest -> HttpRequest -> FetchOutcome.

(** An asynchronous computation: given the remote and the requests made so
    far, its outcome and the requests it issued, in order. *)
Definition M (A : Type) : Type :=
  Remote -> list HttpRequest -> (exn + A) * list HttpRequest.

Definition ret {A : Type} (a : A) : M A := fun _ _ => (inr a, []).

Definition throw {A : Type} (e : exn) : M A := fun _ _ => (inl e, []).

Definition bind {A B : Type} (m : M A) (f : A -> M B) : M B :=
  fun remote history =>
    let (x, sent1) := m remote history in
    match x with
    | inl e => (inl e, sent1)
    | inr a =>
        let (y, sent2) := f a remote (history ++ sent1)%list in
        (y, (sent1 ++ sent2)%list)
    end.

(** [try { m } catch (error) { handler error }]. *)
Definition try_catch {A : Type} (m : M A) (handler : exn -> M A) : M A :=
  fun remote history =>
    let (x, sent1) := m remote history in
    match x with
    | inr a => (inr a, sent1)
    | inl e =>
        let (y, sent2) := handler e remote (history ++ sent1)%list in
        (y, (sent1 ++ sent2)%list)
    end.

Definition lift {A : Type} (s : Sync A) : M A :=
  match s with
  | inl e => throw e
  | inr a => ret a
  end.

(** The global [fetch]. *)
Definition fetch (req : HttpRequest) : M Response :=
  fun remote history =>
    (match remote history req with
     | Rejected msg => inl (JsError msg)
     | Resolved response => inr response
     end, [req]).

(** [Promise.all(ps)] over promises created in list order: every one of
    them runs (its requests are issued whatever happens to the others),
    and the result is the list of values, or a rejection.  The promises
    are run one after the other, so that of several rejections the first
    in list order is the one reported; in the engine it is the first to
    settle, which the timing of the responses decides.  The statements
    about code that calls [Promise_all] are about its requests, or hold
    whichever rejection is reported. *)
Fixpoint Promise_all {A : Type} (ps : list (M A)) : M (list A) :=
  match ps with
  | [] => ret []
  | p :: rest =>
      fun remote history =>
        let (x, sent1) := p remote history in
        let (xs, sent2) := Promise_all rest remote (history ++ sent1)%list in
        (match x, xs with
         | inl e, _ => inl e
         | inr _, inl e => inl e
         | inr a, inr l => inr (a :: l)
         end, (sent1 ++ sent2)%list)
  end.

(** The outcome and the requests of a computation run from a history. *)
Definition outcome {A : Type} (m : M A) (remote : Remote)
  (history : list HttpRequest) : exn + A := fst (m remote history).

Definition sent {A : Type} (m : M A) (remote : Remote)
  (history : list HttpRequest) : list HttpRequest := snd (m remote history).

End Effects.
Export Effects.

Notation "x <- m ;; k" := (bind m (fun x => k))
  (at level 61, m at next level, right associativity).
Notation "' p <- m ;; k" := (bind m (fun x => match x with p => k end))
  (at level 61, p pattern, m at next level, right associativity).
Notation "m ;; k" := (bind m (fun _ => k))
  (at level 61, right associativity).
Notation "x <~ m ;; k" := (sbind m (fun x => k))
  (at level 61, m at next level, right associativity).

(** ** Property access on values of unknown shape

    The client casts every response to its declared type without checking
    it; its property reads are therefore those of JavaScript on whatever
    JSON the remote sent. *)

Module Dyn.

Definition cannot_read (what key : string) : exn :=
  JsError ("Cannot read properties of " ++ what ++ " (reading '" ++ key ++ "')").

Definition not_a_function (callee : string) : exn :=
  JsError (callee ++ " is not a function").

(** ToString of a value, as performed by a template literal and by
    [Array.prototype.join].  A plain object answers with
    [Object.prototype.toString], unless a member of its own named
    [toString] hides that method: no member of a JSON object is callable,
    [Object.prototype.valueOf] returns the object itself, and
    OrdinaryToPrimitive ends in a [TypeError].  An array answers with
    [join], which renders [null] as the empty string. *)
Fixpoint ToString (v : json) : Sync string :=
  match v with
  | JNull => inr "null"
  | JBool true => inr "true"
  | JBool false => inr "false"
  | JNum n => inr (Z_to_string n)
  | JStr s => inr s
  | JArr items =>
      match
        (fix elements (l : list json) : Sync (list string) :=
           match l with
           | [] => inr []
           | x :: rest =>
               match (match x with JNull => inr "" | _ => ToString x end) with
               | inl e => inl e
               | inr part =>
                   match elements rest with
                   | inl e => inl e
                   | inr parts => inr (part :: parts)
                   end
               end
           end) items
      with
      | inl e => inl e
      | inr parts => inr (join "," parts)
      end
  | JObj props =>
      match obj_get "toString" props with
      | Some _ => inl (JsError "Cannot convert object to primitive value")
      | None => inr "[object Object]"
      end
  end.

Definition ToString_opt (v : option json) : Sync string :=
  match v with
  | None => inr "undefined"
  | Some v => ToString v
  end.

(** [encodeURIComponent(s)]: a [URIError] on an unpaired surrogate. *)
Definition encodeURIComponent (s : string) : Sync string :=
  if has_lone_surrogate s then inl (JsError "URI malformed")
  else inr (percent_encode s).

(** [v.key] for the keys the code reads.  On an array or a string [length]
    is the own length; on an array [values] is the inherited method
    [Array.prototype.values], a function object, which is rendered as a
    plain (non-array) object: the code only ever goes on to call an array
    method on it. *)
Definition get_prop (v : json) (key : string) : Sync (option json) :=
  match v with
  | JNull => inl (cannot_read "null" key)
  | JObj o => inr (obj_get key o)
  | JArr items =>
      if String.eqb key "length" then inr (Some (JNum (Z.of_nat (List.length items))))
      else if String.eqb key "values" then inr (Some (JObj []))
      else inr None
  | JStr s =>
      if String.eqb key "length" then inr (Some (JNum (Z.of_nat (utf16_length s))))
      else inr None
  | _ => inr None
  end.

(** The receiver of [recv.method(...)] for an array method ([filter], [map],
    [slice] followed by [map]): the elements of [recv] when it is an array,
    a [TypeError] otherwise. *)
Definition array_receiver (expr method : string) (recv : option json)
  : Sync (list json) :=
  match recv with
  | None => inl (cannot_read "undefined" method)
  | Some JNull => inl (cannot_read "null" method)
  | Some (JArr items) => inr items
  | Some _ => inl (not_a_function (expr ++ "." ++ method))
  end.

(** [recv.toLowerCase()]. *)
Definition call_toLowerCase {engine : Engine} (expr : string) (recv : option json)
  : Sync string :=
  match recv with
  | None => inl (cannot_read "undefined" "toLowerCase")
  | Some JNull => inl (cannot_read "null" "toLowerCase")
  | Some (JStr s) => inr (toLowerCase s)
  | Some _ => inl (not_a_function (expr ++ ".toLowerCase"))
  end.

(** [xs.filter(pred)] with a callback that may throw. *)
Fixpoint filter_sync (pred : json -> Sync bool) (xs : list json) : Sync (list json) :=
  match xs with
  | [] => inr []
  | x :: rest =>
      keep <~ pred x ;;
      rest' <~ filter_sync pred rest ;;
      inr (if keep then x :: rest' else rest')
  end.

(** [xs.map(f)] with a callback that may throw. *)
Fixpoint map_sync {B : Type} (f : json -> Sync B) (xs : list json) : Sync (list B) :=
  match xs with
  | [] => inr []
  | x :: rest =>
      y <~ f x ;;
      rest' <~ map_sync f rest ;;
      inr (y :: rest')
  end.

(** [a === b] between a value and a string. *)
Definition strict_eq_string (a : option json) (b : string) : bool :=
  match a with
  | Some (JStr s) => String.eqb s b
  | _ => false
  end.

(** [v.key] where [v] itself may be [undefined]. *)
Definition get_prop_of (v : option json) (key : string) : Sync (option json) :=
  match v with
  | None => inl (cannot_read "undefined" key)
  | Some v => get_prop v key
  end.

(** [v?.key]: [undefined] when [v] is [null] or [undefined]. *)
Definition get_prop_optional (v : option json) (key : string) : Sync (option json) :=
  match v with
  | None => inr None
  | Some JNull => inr None
  | Some v => get_prop v key
  end.

End Dyn.
Export Dyn.

(* ================================================================== *)
(** * types.ts *)
(* ================================================================== *)

Module JiraTypes.

Record JiraConfig : Type := {
  baseUrl : string;
  pat : string
}.

End JiraTypes.

(* ================================================================== *)
(** * jira-client.ts *)
(* ================================================================== *)

Module Client.

(** [s.replace(/\/$/, EMPTY)]: the pattern is tried at each position from
    the left; it matches a slash that is followed by the end of the input,
    and the first match is replaced by the empty string. *)
Fixpoint replace_slash_at_end (s : string) : string :=
  match s with
  | EmptyString => EmptyString
  | String c rest =>
      if (Ascii.eqb c "/" && String.eqb rest "")%bool then rest
      else String c (replace_slash_at_end rest)
  end.

(** The two private fields of [class JiraClient]. *)
Record JiraClient : Type := {
  baseUrl : string;
  headers : list (string * string)
}.

(** [constructor(config)]. *)
Definition constructor (config : JiraTypes.JiraConfig) : JiraClient :=
  {| baseUrl := replace_slash_at_end (JiraTypes.baseUrl config);
     headers := [ ("Authorization", "Bearer " ++ JiraTypes.pat config);
                  ("Content-Type", "application/json");
                  ("Accept", "application/json") ] |}.

(** The [RequestInit] options the methods pass to [request]; absent
    [headers] are the empty list. *)
Record RequestInit : Type := {
  init_method : option string;
  init_body : option string;
  init_headers : list (string * string)
}.

(** [options = {}]. *)
Definition no_options : RequestInit :=
  {| init_method := None; init_body := None; init_headers := [] |}.

Definition with_method (method : string) : RequestInit :=
  {| init_method := Some method; init_body := None; init_headers := [] |}.

Definition with_body (method body : string) : RequestInit :=
  {| init_method := Some method; init_body := Some body; init_headers := [] |}.

(** [private async request<T>(endpoint, options)]. *)
Definition request (self : JiraClient) (endpoint : string) (options : RequestInit)
  : M json :=
  let url := baseUrl self ++ "/rest/api/2" ++ endpoint in
  response <- fetch {| req_url := url;
                       req_method := init_method options;
                       req_headers := spread [headers self; init_headers options];
                       req_body := init_body options |} ;;
  if negb (resp_ok response) then
    let errorText := resp_text response in
    throw (JsError ("Jira API error (" ++ Z_to_string (resp_status response)
                      ++ "): " ++ errorText))
  else if resp_status response =? 204 then ret (JObj [])
  else
    match resp_json response with
    | inl syntaxError => throw (JsError syntaxError)
    | inr value => ret value
    end.

(** A call whose result is discarded ([Promise<void>]). *)
Definition request_void (self : JiraClient) (endpoint : string)
  (options : RequestInit) : M unit :=
  request self endpoint options ;; ret tt.

(** ** Issue operations *)

Definition getIssue (self : JiraClient) (issueKey : string)
  (expand : option (list string)) : M json :=
  let params :=
    match expand with
    | Some expand => "?expand=" ++ join "," expand
    | None => ""
    end in
  request self ("/issue/" ++ issueKey ++ params) no_options.

Definition createIssue (self : JiraClient) (data : json) : M json :=
  request self "/issue" (with_body "POST" (JSON_stringify data)).

Definition updateIssue (self : JiraClient) (issueKey : string) (data : json)
  : M unit :=
  request_void self ("/issue/" ++ issueKey) (with_body "PUT" (JSON_stringify data)).

Definition deleteIssue (self : JiraClient) (issueKey : string) : M unit :=
  request_void self ("/issue/" ++ issueKey) (with_method "DELETE").

(** [username : string | null]: [None] is [null]. *)
Definition assignIssue (self : JiraClient) (issueKey : string)
  (username : option string) : M unit :=
  request_void self ("/issue/" ++ issueKey ++ "/assignee")
    (with_body "PUT"
       (JSON_stringify
          (JObj [("name", match username with
                          | Some u => JStr u
                          | None => JNull
                          end)]))).

(** ** Search *)

Definition default_search_fields : list string :=
  [ "summary"; "status"; "assignee"; "reporter"; "priority"; "created";
    "updated"; "issuetype"; "project"; "description"; "labels"; "components" ].

(** [searchIssues(jql, startAt = 0, maxResults = 50, fields?)]: an absent
    argument is [None]. *)
Definition searchIssues (self : JiraClient) (jql : string)
  (startAt maxResults : option Z) (fields : option (list string)) : M json :=
  let startAt := match startAt with Some n => n | None => 0 end in
  let maxResults := match maxResults with Some n => n | None => 50 end in
  request self "/search"
    (with_body "POST"
       (JSON_stringify
          (JObj [ ("jql", JStr jql);
                  ("startAt", JNum startAt);
                  ("maxResults", JNum maxResults);
                  ("fields",
                   JArr (map JStr (match fields with
                                   | Some fields => fields
                                   | None => default_search_fields
                                   end))) ]))).

(** ** Projects *)

Definition getProjects (self : JiraClient) : M json :=
  request self "/project" no_options.

Definition getProject (self : JiraClient) (projectKey : string) : M json :=
  request self ("/project/" ++ projectKey) no_options.

(** ** Comments *)

Definition getComments (self : JiraClient) (issueKey : string) : M json :=
  request self ("/issue/" ++ issueKey ++ "/comment") no_options.

Definition addComment (self : JiraClient) (issueKey body : string) : M json :=
  request self ("/issue/" ++ issueKey ++ "/comment")
    (with_body "POST" (JSON_stringify (JObj [("body", JStr body)]))).

Definition updateComment (self : JiraClient) (issueKey commentId body : string)
  : M json :=
  request self ("/issue/" ++ issueKey ++ "/comment/" ++ commentId)
    (with_body "PUT" (JSON_stringify (JObj [("body", JStr body)]))).

Definition deleteComment (self : JiraClient) (issueKey commentId : string)
  : M unit :=
  request_void self ("/issue/" ++ issueKey ++ "/comment/" ++ commentId)
    (with_method "DELETE").

(** ** Transitions *)

Definition getTransitions (self : JiraClient) (issueKey : string) : M json :=
  request self ("/issue/" ++ issueKey ++ "/transitions") no_options.

(** The [body] object that [transitionIssue] builds before sending it. *)
Definition transition_body (transitionId : string) (comment : option string)
  : list (string * json) :=
  let body := [("transition", JObj [("id", JStr transitionId)])] in
  match comment with
  | Some comment =>
      if truthy_string comment then
        obj_set "update"
          (JObj [("comment", JArr [JObj [("add", JObj [("body", JStr comment)])]])])
          body
      else body
  | None => body
  end.

Definition transitionIssue (self : JiraClient) (issueKey transitionId : string)
  (comment : option string) : M unit :=
  let body := transition_body transitionId comment in
  request_void self ("/issue/" ++ issueKey ++ "/transitions")
    (with_body "POST" (JSON_stringify (JObj body))).

(** ** Users *)

Definition searchUsers (self : JiraClient) (query : string) : M json :=
  encoded <- lift (encodeURIComponent query) ;;
  request self ("/user/search?username=" ++ encoded) no_options.

Definition getCurrentUser (self : JiraClient) : M json :=
  request self "/myself" no_options.

(** ** Watchers *)

Definition addWatcher (self : JiraClient) (issueKey username : string) : M unit :=
  request_void self ("/issue/" ++ issueKey ++ "/watchers")
    (with_body "POST" (JSON_stringify (JStr username))).

Definition removeWatcher (self : JiraClient) (issueKey username : string)
  : M unit :=
  encoded <- lift (encodeURIComponent username) ;;
  request_void self
    ("/issue/" ++ issueKey ++ "/watchers?username=" ++ encoded)
    (with_method "DELETE").

(** ** Links *)

Definition linkIssues (self : JiraClient) (inwardIssue outwardIssue linkType : string)
  : M unit :=
  request_void self "/issueLink"
    (with_body "POST"
       (JSON_stringify
          (JObj [ ("type", JObj [("name", JStr linkType)]);
                  ("inwardIssue", JObj [("key", JStr inwardIssue)]);
                  ("outwardIssue", JObj [("key", JStr outwardIssue)]) ]))).

(** ** Metadata *)

Definition getIssueTypesForProject (self : JiraClient) (projectKey : string)
  : M json :=
  project <- request self ("/project/" ++ projectKey) no_options ;;
  issueTypes <- lift (get_prop project "issueTypes") ;;
  ret (match issueTypes with
       | Some v => if truthy v then v else JArr []
       | None => JArr []
       end).

Definition getPriorities (self : JiraClient) : M json :=
  request self "/priority" no_options.

Definition getStatuses (self : JiraClient) : M json :=
  request self "/status" no_options.

Definition getCreateMetaIssueTypes (self : JiraClient) (projectKey : string)
  : M json :=
  request self ("/issue/createmeta/" ++ projectKey ++ "/issuetypes") no_options.

(** [issueTypeId] is a string by its declared type and whatever the remote
    sent at run time; the template literal converts it. *)
Definition getCreateMetaFields (self : JiraClient) (projectKey : string)
  (issueTypeId : option json) : M json :=
  issueTypeId <- lift (ToString_opt issueTypeId) ;;
  request self
    ("/issue/createmeta/" ++ projectKey ++ "/issuetypes/"
       ++ issueTypeId ++ "?maxResults=100")
    no_options.

Definition getEditMeta (self : JiraClient) (issueKey : string) : M json :=
  request self ("/issue/" ++ issueKey ++ "/editmeta") no_options.

Definition getProjectVersions (self : JiraClient) (projectKey : string) : M json :=
  request self ("/project/" ++ projectKey ++ "/versions") no_options.

Definition getProjectComponents (self : JiraClient) (projectKey : string)
  : M json :=
  request self ("/project/" ++ projectKey ++ "/components") no_options.

Definition getFields (self : JiraClient) : M json :=
  request self "/field" no_options.

Definition getIssueLinkTypes (self : JiraClient) : M json :=
  request self "/issueLinkType" no_options.

Definition createIssueRaw (self : JiraClient) (fields : list (string * json))
  : M json :=
  request self "/issue"
    (with_body "POST" (JSON_stringify (JObj [("fields", JObj fields)]))).

Definition updateIssueRaw (self : JiraClient) (issueKey : string)
  (fields : list (string * json)) : M unit :=
  request_void self ("/issue/" ++ issueKey)
    (with_body "PUT" (JSON_stringify (JObj [("fields", JObj fields)]))).

(** ** Create metadata *)

(** One entry of the [fields] array that [getCreateMeta] builds; a [None]
    is an [undefined] property. *)
Record MetaField : Type := {
  fieldId : option json;
  field_name : option json;
  required : option json;
  hasAllowedValues : bool;
  allowedValues : option json
}.

(** One entry of the [issueTypes] array that [getCreateMeta] builds. *)
Record MetaIssueType : Type := {
  id : option json;
  name : option json;
  fields : list MetaField
}.

Record CreateMeta : Type := {
  projectKey : string;
  issueTypes : list MetaIssueType
}.

(** The callback [(f) => ({ fieldId: f.fieldId, ... })]. *)
Definition meta_field_of (f : json) : Sync MetaField :=
  fieldId <~ get_prop f "fieldId" ;;
  name <~ get_prop f "name" ;;
  required <~ get_prop f "required" ;;
  allowedValues <~ get_prop f "allowedValues" ;;
  inr {| fieldId := fieldId;
         field_name := name;
         required := required;
         hasAllowedValues := truthy_opt allowedValues;
         allowedValues := allowedValues |}.

(** The callback [async (issueType) => { ... }] of [getCreateMeta]. *)
Definition meta_issue_type_of (self : JiraClient) (projectKey : string)
  (issueType : json) : M MetaIssueType :=
  issueTypeId <- lift (get_prop issueType "id") ;;
  fieldsResult <- getCreateMetaFields self projectKey issueTypeId ;;
  lift (id <~ get_prop issueType "id" ;;
        name <~ get_prop issueType "name" ;;
        values <~ get_prop fieldsResult "values" ;;
        values <~ array_receiver "fieldsResult.values" "map" values ;;
        fields <~ map_sync meta_field_of values ;;
        inr {| id := id; name := name; fields := fields |}).

(** The callback [(t) => t.name.toLowerCase() === issueTypeName.toLowerCase()]. *)
Definition issue_type_named {engine : Engine} (issueTypeName : string) (t : json)
  : Sync bool :=
  name <~ get_prop t "name" ;;
  lowered <~ call_toLowerCase "t.name" name ;;
  inr (String.eqb lowered (toLowerCase issueTypeName)).

(** [getCreateMeta(projectKey, issueTypeName?)]. *)
Definition getCreateMeta {engine : Engine} (self : JiraClient) (projectKey : string)
  (issueTypeName : option string) : M CreateMeta :=
  issueTypesResult <- getCreateMetaIssueTypes self projectKey ;;
  issueTypes <- lift (get_prop issueTypesResult "values") ;;
  filteredTypes <-
    lift (match issueTypeName with
          | Some issueTypeName =>
              if truthy_string issueTypeName then
                items <~ array_receiver "issueTypes" "filter" issueTypes ;;
                kept <~ filter_sync (issue_type_named issueTypeName) items ;;
                inr (Some (JArr kept))
              else inr issueTypes
          | None => inr issueTypes
          end) ;;
  items <- lift (array_receiver "filteredTypes" "map" filteredTypes) ;;
  issueTypes <- Promise_all (map (meta_issue_type_of self projectKey) items) ;;
  ret {| projectKey := projectKey; issueTypes := issueTypes |}.

(** [getFieldOptions(projectKey, issueTypeName, fieldKey)].  The [fields]
    of an entry of [meta.issueTypes] is always an array, hence truthy:
    [!issueType?.fields] holds exactly when there is no first entry. *)
Definition getFieldOptions {engine : Engine} (self : JiraClient)
  (projectKey issueTypeName fieldKey : string) : M json :=
  meta <- getCreateMeta self projectKey (Some issueTypeName) ;;
  match issueTypes meta with
  | [] => ret (JArr [])
  | issueType :: _ =>
      let field :=
        find (fun f => strict_eq_string (fieldId f) fieldKey) (fields issueType) in
      ret (match field with
           | Some f =>
               match allowedValues f with
               | Some v => if truthy v then v else JArr []
               | None => JArr []
               end
           | None => JArr []
           end)
  end.

(** What [JSON.stringify] sees of a [CreateMeta]: [undefined] properties
    are left out. *)
Definition defined_props (props : list (string * option json))
  : list (string * json) :=
  flat_map (fun kv => match snd kv with
                      | Some v => [(fst kv, v)]
                      | None => []
                      end) props.

Definition MetaField_json (f : MetaField) : json :=
  JObj (defined_props
          [ ("fieldId", fieldId f);
            ("name", field_name f);
            ("required", required f);
            ("hasAllowedValues", Some (JBool (hasAllowedValues f)));
            ("allowedValues", allowedValues f) ]).

Definition MetaIssueType_json (t : MetaIssueType) : json :=
  JObj (defined_props
          [ ("id", id t);
            ("name", name t);
            ("fields", Some (JArr (map MetaField_json (fields t)))) ]).

Definition CreateMeta_json (m : CreateMeta) : json :=
  JObj [ ("projectKey", JStr (projectKey m));
         ("issueTypes", JArr (map MetaIssueType_json (issueTypes m))) ].

End Client.

(* ================================================================== *)
(** * index.ts *)
(* ================================================================== *)

Module Server.
Import Client.

(** ** Tool input schemas *)

Definition GetIssueSchema :=
  "issueKey" ::: z_string ;;;
  "expand" ::: z_optional (z_array z_string) ;;; shape_end.

Definition SearchIssuesSchema :=
  "jql" ::: z_string ;;;
  "startAt" ::: z_default (z_optional z_number) (JNum 0) ;;;
  "maxResults" ::: z_default (z_optional z_number) (JNum 50) ;;;
  "fields" ::: z_optional (z_array z_string) ;;; shape_end.

Definition CreateIssueSchema :=
  "projectKey" ::: z_string ;;;
  "summary" ::: z_string ;;;
  "issueType" ::: z_string ;;;
  "description" ::: z_optional z_string ;;;
  "priority" ::: z_optional z_string ;;;
  "assignee" ::: z_optional z_string ;;;
  "labels" ::: z_optional (z_array z_string) ;;; shape_end.

Definition UpdateIssueSchema :=
  "issueKey" ::: z_string ;;;
  "summary" ::: z_optional z_string ;;;
  "description" ::: z_optional z_string ;;;
  "priority" ::: z_optional z_string ;;;
  "assignee" ::: z_optional z_string ;;;
  "labels" ::: z_optional (z_array z_string) ;;; shape_end.

Definition AddCommentSchema :=
  "issueKey" ::: z_string ;;; "body" ::: z_string ;;; shape_end.

Definition TransitionIssueSchema :=
  "issueKey" ::: z_string ;;;
  "transitionId" ::: z_string ;;;
  "comment" ::: z_optional z_string ;;; shape_end.

Definition AssignIssueSchema :=
  "issueKey" ::: z_string ;;;
  "assignee" ::: z_nullable z_string ;;; shape_end.

Definition GetCommentsSchema := "issueKey" ::: z_string ;;; shape_end.

Definition GetTransitionsSchema := "issueKey" ::: z_string ;;; shape_end.

Definition DeleteIssueSchema := "issueKey" ::: z_string ;;; shape_end.

Definition GetProjectSchema := "projectKey" ::: z_string ;;; shape_end.

Definition SearchUsersSchema := "query" ::: z_string ;;; shape_end.

Definition LinkIssuesSchema :=
  "inwardIssue" ::: z_string ;;;
  "outwardIssue" ::: z_string ;;;
  "linkType" ::: z_string ;;; shape_end.

Definition AddWatcherSchema :=
  "issueKey" ::: z_string ;;; "username" ::: z_string ;;; shape_end.

Definition GetCreateMetaSchema :=
  "projectKey" ::: z_string ;;;
  "issueType" ::: z_optional z_string ;;; shape_end.

Definition GetEditMetaSchema := "issueKey" ::: z_string ;;; shape_end.

Definition GetProjectVersionsSchema := "projectKey" ::: z_string ;;; shape_end.

Definition GetProjectComponentsSchema := "projectKey" ::: z_string ;;; shape_end.

Definition CreateIssueAdvancedSchema :=
  "projectKey" ::: z_string ;;;
  "summary" ::: z_string ;;;
  "issueType" ::: z_string ;;;
  "description" ::: z_optional z_string ;;;
  "priority" ::: z_optional z_string ;;;
  "assignee" ::: z_optional z_string ;;;
  "reporter" ::: z_optional z_string ;;;
  "labels" ::: z_optional (z_array z_string) ;;;
  "components" ::: z_optional (z_array z_string) ;;;
  "fixVersions" ::: z_optional (z_array z_string) ;;;
  "affectsVersions" ::: z_optional (z_array z_string) ;;;
  "customFields" ::: z_optional z_record_unknown ;;; shape_end.

Definition UpdateIssueAdvancedSchema :=
  "issueKey" ::: z_string ;;;
  "summary" ::: z_optional z_string ;;;
  "description" ::: z_optional z_string ;;;
  "priority" ::: z_optional z_string ;;;
  "assignee" ::: z_optional z_string ;;;
  "labels" ::: z_optional (z_array z_string) ;;;
  "components" ::: z_optional (z_array z_string) ;;;
  "fixVersions" ::: z_optional (z_array z_string) ;;;
  "affectsVersions" ::: z_optional (z_array z_string) ;;;
  "customFields" ::: z_optional z_record_unknown ;;; shape_end.

Definition GetFieldOptionsSchema :=
  "projectKey" ::: z_string ;;;
  "issueType" ::: z_string ;;;
  "fieldKey" ::: z_string ;;; shape_end.

(** [Schema.parse(args)]: the parsed value, or a thrown [ZodError]. *)
Definition parse {A : Type} (schema : ZodObject A) (args : option json) : M A :=
  match safeParse schema args with
  | inl issues => throw (ZodError issues)
  | inr a => ret a
  end.

(** ** The tool registry ([ListToolsRequestSchema] handler): the names. *)

Definition tool_names : list string :=
  [ "jira_get_issue"; "jira_search_issues"; "jira_create_issue";
    "jira_update_issue"; "jira_delete_issue"; "jira_assign_issue";
    "jira_get_comments"; "jira_add_comment"; "jira_get_transitions";
    "jira_transition_issue"; "jira_get_projects"; "jira_get_project";
    "jira_search_users"; "jira_get_current_user"; "jira_link_issues";
    "jira_add_watcher"; "jira_get_priorities"; "jira_get_statuses";
    "jira_get_create_meta"; "jira_get_edit_meta"; "jira_get_project_versions";
    "jira_get_project_components"; "jira_get_fields"; "jira_get_field_options";
    "jira_get_issue_link_types"; "jira_create_issue_advanced";
    "jira_update_issue_advanced" ].

(** ** Replies *)

Record TextContent : Type := { type : string; text : string }.

Record CallToolResult : Type := { content : list TextContent }.

Definition text_content (text : string) : CallToolResult :=
  {| content := [ {| type := "text"; text := text |} ] |}.

(** [{ content: [{ type: "text", text: JSON.stringify(value, null, 2) }] }]. *)
Definition json_content (value : json) : CallToolResult :=
  text_content (JSON_stringify_pretty value).

(** ** Building field maps *)

Definition name_ref (name : string) : json := JObj [("name", JStr name)].

Definition strings (xs : list string) : json := JArr (map JStr xs).

(** [...(value && { key: wrap(value) })] for an optional string: an
    [undefined] or empty [value] spreads nothing. *)
Definition string_part (key : string) (wrap : string -> json) (value : option string)
  : list (string * json) :=
  match value with
  | Some v => if truthy_string v then [(key, wrap v)] else []
  | None => []
  end.

(** [...(value && { key: wrap(value) })] for an optional array, which is
    truthy whenever it is defined. *)
Definition array_part (key : string) (wrap : list string -> json)
  (value : option (list string)) : list (string * json) :=
  match value with
  | Some v => [(key, wrap v)]
  | None => []
  end.

(** [if (value) fields[key] = wrap(value)] for an optional string. *)
Definition set_string (key : string) (wrap : string -> json) (value : option string)
  (fields : list (string * json)) : list (string * json) :=
  match value with
  | Some v => if truthy_string v then obj_set key (wrap v) fields else fields
  | None => fields
  end.

(** [if (value) fields[key] = wrap(value)] for an optional array. *)
Definition set_array (key : string) (wrap : list string -> json)
  (value : option (list string)) (fields : list (string * json))
  : list (string * json) :=
  match value with
  | Some v => obj_set key (wrap v) fields
  | None => fields
  end.

(** [if (customFields) Object.assign(fields, customFields)]. *)
Definition merge_custom (customFields : option (list (string * json)))
  (fields : list (string * json)) : list (string * json) :=
  match customFields with
  | Some customFields => Object_assign fields customFields
  | None => fields
  end.

(** The [fields] object of [jira_create_issue]. *)
Definition create_fields (projectKey summary issueType : string)
  (description priority assignee : option string) (labels : option (list string))
  : list (string * json) :=
  spread [ [ ("project", JObj [("key", JStr projectKey)]);
             ("summary", JStr summary);
             ("issuetype", name_ref issueType) ];
           string_part "description" JStr description;
           string_part "priority" name_ref priority;
           string_part "assignee" name_ref assignee;
           array_part "labels" strings labels ].

(** The [fields] object of [jira_update_issue]. *)
Definition update_fields (summary description priority assignee : option string)
  (labels : option (list string)) : list (string * json) :=
  spread [ string_part "summary" JStr summary;
           string_part "description" JStr description;
           string_part "priority" name_ref priority;
           string_part "assignee" name_ref assignee;
           array_part "labels" strings labels ].

(** The named and structured part of the [fields] record of
    [jira_create_issue_advanced], before the custom fields are merged. *)
Definition create_advanced_named (projectKey summary issueType : string)
  (description priority assignee reporter : option string)
  (labels components fixVersions affectsVersions : option (list string))
  : list (string * json) :=
  let fields := [ ("project", JObj [("key", JStr projectKey)]);
                  ("summary", JStr summary);
                  ("issuetype", name_ref issueType) ] in
  let fields := set_string "description" JStr description fields in
  let fields := set_string "priority" name_ref priority fields in
  let fields := set_string "assignee" name_ref assignee fields in
  let fields := set_string "reporter" name_ref reporter fields in
  let fields := set_array "labels" strings labels fields in
  let fields := set_array "components" (fun l => JArr (map name_ref l)) components fields in
  let fields := set_array "fixVersions" (fun l => JArr (map name_ref l)) fixVersions fields in
  let fields := set_array "versions" (fun l => JArr (map name_ref l)) affectsVersions fields in
  fields.

(** The [fields] record that [jira_create_issue_advanced] hands to
    [createIssueRaw]. *)
Definition create_advanced_fields (projectKey summary issueType : string)
  (description priority assignee reporter : option string)
  (labels components fixVersions affectsVersions : option (list string))
  (customFields : option (list (string * json))) : list (string * json) :=
  merge_custom customFields
    (create_advanced_named projectKey summary issueType description priority
       assignee reporter labels components fixVersions affectsVersions).

(** The named and structured part of the [fields] record of
    [jira_update_issue_advanced]. *)
Definition update_advanced_named (summary description priority assignee : option string)
  (labels components fixVersions affectsVersions : option (list string))
  : list (string * json) :=
  let fields := [] in
  let fields := set_string "summary" JStr summary fields in
  let fields := set_string "description" JStr description fields in
  let fields := set_string "priority" name_ref priority fields in
  let fields := set_string "assignee" name_ref assignee fields in
  let fields := set_array "labels" strings labels fields in
  let fields := set_array "components" (fun l => JArr (map name_ref l)) components fields in
  let fields := set_array "fixVersions" (fun l => JArr (map name_ref l)) fixVersions fields in
  let fields := set_array "versions" (fun l => JArr (map name_ref l)) affectsVersions fields in
  fields.

(** The [fields] record that [jira_update_issue_advanced] hands to
    [updateIssueRaw]. *)
Definition update_advanced_fields (summary description priority assignee : option string)
  (labels components fixVersions affectsVersions : option (list string))
  (customFields : option (list (string * json))) : list (string * json) :=
  merge_custom customFields
    (update_advanced_named summary description priority assignee labels
       components fixVersions affectsVersions).

(** ** Tool calls ([CallToolRequestSchema] handler) *)

(** One [case] of the [switch]: most cases parse [args] against their
    schema before anything else; a few never look at [args]. *)
Inductive ToolCase : Type :=
| parse_then {A : Type} (schema : ZodObject A) (body : A -> M CallToolResult)
| no_parse (body : M CallToolResult).

Definition run_case (c : ToolCase) (args : option json) : M CallToolResult :=
  match c with
  | parse_then schema body => parsed <- parse schema args ;; body parsed
  | no_parse body => body
  end.

Section Handlers.

Context {engine : Engine}.

(** [const jiraClient = new JiraClient({ baseUrl: JIRA_BASE_URL, pat: PAT })]. *)
Variable jiraClient : JiraClient.

Definition case_jira_get_issue : ToolCase :=
  parse_then GetIssueSchema
    (fun '(issueKey, (expand, tt)) =>
       issue <- getIssue jiraClient issueKey expand ;;
       ret (json_content issue)).

Definition case_jira_search_issues : ToolCase :=
  parse_then SearchIssuesSchema
    (fun '(jql, (startAt, (maxResults, (fields, tt)))) =>
       results <- searchIssues jiraClient jql startAt maxResults fields ;;
       ret (json_content results)).

Definition case_jira_create_issue : ToolCase :=
  parse_then CreateIssueSchema
    (fun '(projectKey, (summary, (issueType, (description, (priority,
            (assignee, (labels, tt))))))) =>
       issue <- createIssue jiraClient
                  (JObj [("fields",
                          JObj (create_fields projectKey summary issueType
                                  description priority assignee labels))]) ;;
       ret (json_content issue)).

Definition case_jira_update_issue : ToolCase :=
  parse_then UpdateIssueSchema
    (fun '(issueKey, (summary, (description, (priority, (assignee, (labels, tt)))))) =>
       updateIssue jiraClient issueKey
         (JObj [("fields",
                 JObj (update_fields summary description priority assignee labels))]) ;;
       ret (text_content ("Issue " ++ issueKey ++ " updated successfully"))).

Definition case_jira_delete_issue : ToolCase :=
  parse_then DeleteIssueSchema
    (fun '(issueKey, tt) =>
       deleteIssue jiraClient issueKey ;;
       ret (text_content ("Issue " ++ issueKey ++ " deleted successfully"))).

Definition case_jira_assign_issue : ToolCase :=
  parse_then AssignIssueSchema
    (fun '(issueKey, (assignee, tt)) =>
       assignIssue jiraClient issueKey assignee ;;
       ret (text_content
              (match assignee with
               | Some a =>
                   if truthy_string a
                   then "Issue " ++ issueKey ++ " assigned to " ++ a
                   else "Issue " ++ issueKey ++ " unassigned"
               | None => "Issue " ++ issueKey ++ " unassigned"
               end))).

Definition case_jira_get_comments : ToolCase :=
  parse_then GetCommentsSchema
    (fun '(issueKey, tt) =>
       comments <- getComments jiraClient issueKey ;;
       ret (json_content comments)).

Definition case_jira_add_comment : ToolCase :=
  parse_then AddCommentSchema
    (fun '(issueKey, (body, tt)) =>
       comment <- addComment jiraClient issueKey body ;;
       ret (json_content comment)).

Definition case_jira_get_transitions : ToolCase :=
  parse_then GetTransitionsSchema
    (fun '(issueKey, tt) =>
       transitions <- getTransitions jiraClient issueKey ;;
       ret (json_content transitions)).

Definition case_jira_transition_issue : ToolCase :=
  parse_then TransitionIssueSchema
    (fun '(issueKey, (transitionId, (comment, tt))) =>
       transitionIssue jiraClient issueKey transitionId comment ;;
       ret (text_content ("Issue " ++ issueKey ++ " transitioned successfully"))).

Definition case_jira_get_projects : ToolCase :=
  no_parse (projects <- getProjects jiraClient ;; ret (json_content projects)).

Definition case_jira_get_project : ToolCase :=
  parse_then GetProjectSchema
    (fun '(projectKey, tt) =>
       project <- getProject jiraClient projectKey ;;
       ret (json_content project)).

Definition case_jira_search_users : ToolCase :=
  parse_then SearchUsersSchema
    (fun '(query, tt) =>
       users <- searchUsers jiraClient query ;;
       ret (json_content users)).

Definition case_jira_get_current_user : ToolCase :=
  no_parse (user <- getCurrentUser jiraClient ;; ret (json_content user)).

Definition case_jira_link_issues : ToolCase :=
  parse_then LinkIssuesSchema
    (fun '(inwardIssue, (outwardIssue, (linkType, tt))) =>
       linkIssues jiraClient inwardIssue outwardIssue linkType ;;
       ret (text_content
              ("Issues " ++ inwardIssue ++ " and " ++ outwardIssue
                 ++ " linked with type " ++ dquote ++ linkType ++ dquote))).

Definition case_jira_add_watcher : ToolCase :=
  parse_then AddWatcherSchema
    (fun '(issueKey, (username, tt)) =>
       addWatcher jiraClient issueKey username ;;
       ret (text_content ("Added " ++ username ++ " as watcher to " ++ issueKey))).

Definition case_jira_get_priorities : ToolCase :=
  no_parse (priorities <- getPriorities jiraClient ;; ret (json_content priorities)).

Definition case_jira_get_statuses : ToolCase :=
  no_parse (statuses <- getStatuses jiraClient ;; ret (json_content statuses)).

Definition case_jira_get_create_meta : ToolCase :=
  parse_then GetCreateMetaSchema
    (fun '(projectKey, (issueType, tt)) =>
       meta <- getCreateMeta jiraClient projectKey issueType ;;
       ret (json_content (CreateMeta_json meta))).

Definition case_jira_get_edit_meta : ToolCase :=
  parse_then GetEditMetaSchema
    (fun '(issueKey, tt) =>
       meta <- getEditMeta jiraClient issueKey ;;
       ret (json_content meta)).

Definition case_jira_get_project_versions : ToolCase :=
  parse_then GetProjectVersionsSchema
    (fun '(projectKey, tt) =>
       versions <- getProjectVersions jiraClient projectKey ;;
       ret (json_content versions)).

Definition case_jira_get_project_components : ToolCase :=
  parse_then GetProjectComponentsSchema
    (fun '(projectKey, tt) =>
       components <- getProjectComponents jiraClient projectKey ;;
       ret (json_content components)).

Definition case_jira_get_fields : ToolCase :=
  no_parse (fields <- getFields jiraClient ;; ret (json_content fields)).

Definition case_jira_get_field_options : ToolCase :=
  parse_then GetFieldOptionsSchema
    (fun '(projectKey, (issueType, (fieldKey, tt))) =>
       options <- getFieldOptions jiraClient projectKey issueType fieldKey ;;
       ret (json_content options)).

Definition case_jira_get_issue_link_types : ToolCase :=
  no_parse (linkTypes <- getIssueLinkTypes jiraClient ;; ret (json_content linkTypes)).

Definition case_jira_create_issue_advanced : ToolCase :=
  parse_then CreateIssueAdvancedSchema
    (fun '(projectKey, (summary, (issueType, (description, (priority, (assignee,
            (reporter, (labels, (components, (fixVersions, (affectsVersions,
            (customFields, tt)))))))))))) =>
       let fields :=
         create_advanced_fields projectKey summary issueType description priority
           assignee reporter labels components fixVersions affectsVersions
           customFields in
       issue <- createIssueRaw jiraClient fields ;;
       ret (json_content issue)).

Definition case_jira_update_issue_advanced : ToolCase :=
  parse_then UpdateIssueAdvancedSchema
    (fun '(issueKey, (summary, (description, (priority, (assignee, (labels,
            (components, (fixVersions, (affectsVersions, (customFields, tt)))))))))) =>
       let fields :=
         update_advanced_fields summary description priority assignee labels
           components fixVersions affectsVersions customFields in
       updateIssueRaw jiraClient issueKey fields ;;
       ret (text_content ("Issue " ++ issueKey ++ " updated successfully"))).

(** [switch (name)]: the case a name selects, [None] for [default]. *)
Definition switch (name : string) : option ToolCase :=
  if String.eqb name "jira_get_issue" then Some case_jira_get_issue
  else if String.eqb name "jira_search_issues" then Some case_jira_search_issues
  else if String.eqb name "jira_create_issue" then Some case_jira_create_issue
  else if String.eqb name "jira_update_issue" then Some case_jira_update_issue
  else if String.eqb name "jira_delete_issue" then Some case_jira_delete_issue
  else if String.eqb name "jira_assign_issue" then Some case_jira_assign_issue
  else if String.eqb name "jira_get_comments" then Some case_jira_get_comments
  else if String.eqb name "jira_add_comment" then Some case_jira_add_comment
  else if String.eqb name "jira_get_transitions" then Some case_jira_get_transitions
  else if String.eqb name "jira_transition_issue" then Some case_jira_transition_issue
  else if String.eqb name "jira_get_projects" then Some case_jira_get_projects
  else if String.eqb name "jira_get_project" then Some case_jira_get_project
  else if String.eqb name "jira_search_users" then Some case_jira_search_users
  else if String.eqb name "jira_get_current_user" then Some case_jira_get_current_user
  else if String.eqb name "jira_link_issues" then Some case_jira_link_issues
  else if String.eqb name "jira_add_watcher" then Some case_jira_add_watcher
  else if String.eqb name "jira_get_priorities" then Some case_jira_get_priorities
  else if String.eqb name "jira_get_statuses" then Some case_jira_get_statuses
  else if String.eqb name "jira_get_create_meta" then Some case_jira_get_create_meta
  else if String.eqb name "jira_get_edit_meta" then Some case_jira_get_edit_meta
  else if String.eqb name "jira_get_project_versions"
       then Some case_jira_get_project_versions
  else if String.eqb name "jira_get_project_components"
       then Some case_jira_get_project_components
  else if String.eqb name "jira_get_fields" then Some case_jira_get_fields
  else if String.eqb name "jira_get_field_options"
       then Some case_jira_get_field_options
  else if String.eqb name "jira_get_issue_link_types"
       then Some case_jira_get_issue_link_types
  else if String.eqb name "jira_create_issue_advanced"
       then Some case_jira_create_issue_advanced
  else if String.eqb name "jira_update_issue_advanced"
       then Some case_jira_update_issue_advanced
  else None.

(** The [catch] clause of the handler. *)
Definition on_tool_error (name : string) (error : exn) : M CallToolResult :=
  match error with
  | ZodError errors =>
      throw (McpError InvalidParams
               ("Invalid parameters: " ++ join ", " (map message errors)))
  | McpError _ _ => throw error
  | JsError msg =>
      throw (McpError InternalError ("Error executing " ++ name ++ ": " ++ msg))
  end.

(** [server.setRequestHandler(CallToolRequestSchema, ...)]. *)
Definition CallTool_handler (name : string) (args : option json)
  : M CallToolResult :=
  try_catch
    (match switch name with
     | Some c => run_case c args
     | None => throw (McpError MethodNotFound ("Unknown tool: " ++ name))
     end)
    (on_tool_error name).

(** ** Resource enumeration ([ListResourcesRequestSchema] handler) *)

Record Resource : Type := {
  uri : string;
  name : string;
  description : string;
  mimeType : string
}.

Record ListResourcesResult : Type := { resources : list Resource }.

Definition json_resource (uri name description : string) : Resource :=
  {| uri := uri; name := name; description := description;
     mimeType := "application/json" |}.

(** The one resource listed when the live lookups fail. *)
Definition fallback_resources : list Resource :=
  [ json_resource "jira://config" "Jira Configuration"
      "Current Jira server configuration" ].

(** The callback [(project) => ({ uri: ..., ... })]. *)
Definition project_resource (project : json) : Sync Resource :=
  key <~ get_prop project "key" ;;
  key <~ ToString_opt key ;;
  name <~ get_prop project "name" ;;
  name <~ ToString_opt name ;;
  inr (json_resource ("jira://project/" ++ key)
         ("Project: " ++ key)
         (name ++ " - versions, components, and issue types")).

(** [projects.slice(0, 20).map]: the receiver of [map]. *)
Definition first_20 (projects : json) : Sync (list json) :=
  match projects with
  | JArr items => inr (firstn 20 items)
  | JStr _ => inl (not_a_function "projects.slice(...).map")
  | JNull => inl (cannot_read "null" "slice")
  | _ => inl (not_a_function "projects.slice")
  end.

(** The array literal [resources] of the [try] block. *)
Definition live_resources (projects currentUser : json) : Sync (list Resource) :=
  length <~ get_prop projects "length" ;;
  length <~ ToString_opt length ;;
  top <~ first_20 projects ;;
  dynamic <~ map_sync project_resource top ;;
  displayName <~ get_prop currentUser "displayName" ;;
  displayName <~ ToString_opt displayName ;;
  inr ([ json_resource "jira://config" "Jira Configuration"
           "Current Jira server configuration and connection info";
         json_resource "jira://current-user" "Current User"
           "Currently authenticated Jira user";
         json_resource "jira://priorities" "Priorities"
           "All available issue priorities";
         json_resource "jira://statuses" "Statuses" "All available issue statuses";
         json_resource "jira://fields" "Fields"
           "All available fields including custom fields";
         json_resource "jira://link-types" "Issue Link Types"
           "All available issue link types";
         json_resource "jira://projects" "All Projects"
           ("List of all " ++ length ++ " Jira projects") ]
         ++ dynamic
         ++ [ json_resource "jira://my-issues" "My Issues"
                ("Issues assigned to " ++ displayName) ])%list.

(** [server.setRequestHandler(ListResourcesRequestSchema, ...)]. *)
Definition ListResources_handler : M ListResourcesResult :=
  try_catch
    (projects <- getProjects jiraClient ;;
     currentUser <- getCurrentUser jiraClient ;;
     resources <- lift (live_resources projects currentUser) ;;
     ret {| resources := resources |})
    (fun error => ret {| resources := fallback_resources |}).

End Handlers.

(** ** Reading a resource ([ReadResourceRequestSchema] handler) *)

Module Reading.

Record ResourceContents : Type := {
  uri : string;
  mimeType : string;
  text : string
}.

Record ReadResourceResult : Type := { contents : list ResourceContents }.

(** [{ contents: [{ uri, mimeType: "application/json",
                    text: JSON.stringify(value, null, 2) }] }]. *)
Definition json_contents (uri : string) (value : json) : ReadResourceResult :=
  {| contents := [ {| uri := uri; mimeType := "application/json";
                      text := JSON_stringify_pretty value |} ] |}.

(** [Promise.all([p, q])]: both promises have been created, so both run;
    the first rejection in order wins. *)
Definition Promise_all2 {A B : Type} (p : M A) (q : M B) : M (A * B) :=
  fun remote history =>
    let (x, sent1) := p remote history in
    let (y, sent2) := q remote (history ++ sent1)%list in
    (match x, y with
     | inl e, _ => inl e
     | inr _, inl e => inl e
     | inr a, inr b => inr (a, b)
     end, (sent1 ++ sent2)%list).

(** [Promise.all([p1, p2, p3, p4])], destructured. *)
Definition Promise_all4 {A B C D : Type} (p1 : M A) (p2 : M B) (p3 : M C) (p4 : M D)
  : M (A * (B * (C * D))) :=
  Promise_all2 p1 (Promise_all2 p2 (Promise_all2 p3 p4)).

(** The character class [[A-Z0-9]]. *)
Definition upper_or_digit (c : ascii) : bool :=
  let n := nat_of_ascii c in
  (((65 <=? n) && (n <=? 90)) || ((48 <=? n) && (n <=? 57)))%nat%bool.

Fixpoint all_chars (p : ascii -> bool) (s : string) : bool :=
  match s with
  | EmptyString => true
  | String c rest => (p c && all_chars p rest)%bool
  end.

(** The rest of [s] after the prefix [p], if [s] starts with [p]. *)
Fixpoint after_prefix (p s : string) : option string :=
  match p, s with
  | EmptyString, _ => Some s
  | String a p', String b s' => if Ascii.eqb a b then after_prefix p' s' else None
  | String _ _, EmptyString => None
  end.

(** [uri.match(/^jira:\/\/project\/([A-Z0-9]+)$/)]: the captured key. *)
Definition match_project_uri (uri : string) : option string :=
  match after_prefix "jira://project/" uri with
  | Some key =>
      if (negb (String.eqb key "") && all_chars upper_or_digit key)%bool
      then Some key else None
  | None => None
  end.

(** The callback [(p) => ({ key: p.key, name: p.name, projectTypeKey: ... })]. *)
Definition project_summary (p : json) : Sync json :=
  key <~ get_prop p "key" ;;
  name <~ get_prop p "name" ;;
  projectTypeKey <~ get_prop p "projectTypeKey" ;;
  inr (JObj (defined_props [ ("key", key); ("name", name);
                             ("projectTypeKey", projectTypeKey) ])).

(** The callback [(i) => ({ key: i.key, summary: i.fields.summary, ... })]. *)
Definition issue_summary (i : json) : Sync json :=
  key <~ get_prop i "key" ;;
  fields <~ get_prop i "fields" ;;
  summary <~ get_prop_of fields "summary" ;;
  status <~ get_prop_of fields "status" ;;
  statusName <~ get_prop_of status "name" ;;
  priority <~ get_prop_of fields "priority" ;;
  priorityName <~ get_prop_optional priority "name" ;;
  updated <~ get_prop_of fields "updated" ;;
  inr (JObj (defined_props [ ("key", key); ("summary", summary);
                             ("status", statusName); ("priority", priorityName);
                             ("updated", updated) ])).

(** The callback [(v) => ({ name: v.name, released: ..., archived: ... })]. *)
Definition version_summary (v : json) : Sync json :=
  name <~ get_prop v "name" ;;
  released <~ get_prop v "released" ;;
  archived <~ get_prop v "archived" ;;
  inr (JObj (defined_props [ ("name", name); ("released", released);
                             ("archived", archived) ])).

(** The callback [(c) => ({ name: c.name, description: c.description })]. *)
Definition component_summary (c : json) : Sync json :=
  name <~ get_prop c "name" ;;
  description <~ get_prop c "description" ;;
  inr (JObj (defined_props [ ("name", name); ("description", description) ])).

(** The callback [(t) => ({ id: t.id, name: t.name, subtask: t.subtask })]. *)
Definition issue_type_summary (t : json) : Sync json :=
  id <~ get_prop t "id" ;;
  name <~ get_prop t "name" ;;
  subtask <~ get_prop t "subtask" ;;
  inr (JObj (defined_props [ ("id", id); ("name", name); ("subtask", subtask) ])).

(** [{ system: fields.filter((f) => !f.custom),
       custom: fields.filter((f) => f.custom) }]. *)
Definition grouped_fields (fields : json) : Sync json :=
  items <~ array_receiver "fields" "filter" (Some fields) ;;
  system <~ filter_sync (fun f => custom <~ get_prop f "custom" ;;
                                  inr (negb (truthy_opt custom))) items ;;
  custom <~ filter_sync (fun f => custom <~ get_prop f "custom" ;;
                                  inr (truthy_opt custom)) items ;;
  inr (JObj [ ("system", JArr system); ("custom", JArr custom) ]).

(** The [summary] object of the my-issues view. *)
Definition my_issues_summary (results : json) : Sync json :=
  total <~ get_prop results "total" ;;
  issues <~ get_prop results "issues" ;;
  items <~ array_receiver "results.issues" "map" issues ;;
  mapped <~ map_sync issue_summary items ;;
  inr (JObj (defined_props [ ("total", total); ("issues", Some (JArr mapped)) ])).

(** The [projectInfo] object of a project resource. *)
Definition project_info (project versions components issueTypes : json) : Sync json :=
  key <~ get_prop project "key" ;;
  name <~ get_prop project "name" ;;
  lead <~ get_prop project "lead" ;;
  versionItems <~ array_receiver "versions" "map" (Some versions) ;;
  versions <~ map_sync version_summary versionItems ;;
  componentItems <~ array_receiver "components" "map" (Some components) ;;
  components <~ map_sync component_summary componentItems ;;
  values <~ get_prop issueTypes "values" ;;
  typeItems <~ array_receiver "issueTypes.values" "map" values ;;
  issueTypes <~ map_sync issue_type_summary typeItems ;;
  inr (JObj (defined_props [ ("key", key); ("name", name); ("lead", lead);
                             ("versions", Some (JArr versions));
                             ("components", Some (JArr components));
                             ("issueTypes", Some (JArr issueTypes)) ])).

Section Reader.

(** [const JIRA_BASE_URL = process.env.JIRA_BASE_URL]. *)
Variable JIRA_BASE_URL : string.

Variable jiraClient : JiraClient.

(** The [try] block. *)
Definition read_resource (uri : string) : M ReadResourceResult :=
  if String.eqb uri "jira://config" then
    let config := JObj [ ("baseUrl", JStr JIRA_BASE_URL);
                         ("serverInfo", JStr "Self-hosted Jira Server");
                         ("authenticated", JBool true) ] in
    ret (json_contents uri config)
  else if String.eqb uri "jira://current-user" then
    user <- getCurrentUser jiraClient ;;
    ret (json_contents uri user)
  else if String.eqb uri "jira://priorities" then
    priorities <- getPriorities jiraClient ;;
    ret (json_contents uri priorities)
  else if String.eqb uri "jira://statuses" then
    statuses <- getStatuses jiraClient ;;
    ret (json_contents uri statuses)
  else if String.eqb uri "jira://fields" then
    fields <- getFields jiraClient ;;
    grouped <- lift (grouped_fields fields) ;;
    ret (json_contents uri grouped)
  else if String.eqb uri "jira://link-types" then
    linkTypes <- getIssueLinkTypes jiraClient ;;
    ret (json_contents uri linkTypes)
  else if String.eqb uri "jira://projects" then
    projects <- getProjects jiraClient ;;
    summary <- lift (items <~ array_receiver "projects" "map" (Some projects) ;;
                     mapped <~ map_sync project_summary items ;;
                     inr (JArr mapped)) ;;
    ret (json_contents uri summary)
  else if String.eqb uri "jira://my-issues" then
    results <- searchIssues jiraClient
                 "assignee = currentUser() ORDER BY updated DESC"
                 (Some 0) (Some 50) None ;;
    summary <- lift (my_issues_summary results) ;;
    ret (json_contents uri summary)
  else
    match match_project_uri uri with
    | Some projectKey =>
        '(project, (versions, (components, issueTypes))) <-
          Promise_all4 (getProject jiraClient projectKey)
                       (getProjectVersions jiraClient projectKey)
                       (getProjectComponents jiraClient projectKey)
                       (getCreateMetaIssueTypes jiraClient projectKey) ;;
        projectInfo <- lift (project_info project versions components issueTypes) ;;
        ret (json_contents uri projectInfo)
    | None => throw (McpError InvalidRequest ("Unknown resource: " ++ uri))
    end.

(** The [catch] clause.  Nothing is parsed in the [try] block, so no
    [ZodError] reaches it; the message of one, its serialised issue list,
    is rendered here from the messages of the issues alone. *)
Definition on_read_error (uri : string) (error : exn) : M ReadResourceResult :=
  match error with
  | McpError _ _ => throw error
  | ZodError errors =>
      throw (McpError InternalError
               ("Error reading resource " ++ uri ++ ": "
                  ++ JSON_stringify_pretty
                       (JArr (map (fun e => JObj [("message", JStr (message e))])
                                errors))))
  | JsError msg =>
      throw (McpError InternalError ("Error reading resource " ++ uri ++ ": " ++ msg))
  end.

(** [server.setRequestHandler(ReadResourceRequestSchema, ...)]. *)
Definition ReadResource_handler (uri : string) : M ReadResourceResult :=
  try_catch (read_resource uri) (on_read_error uri).

End Reader.

End Reading.

End Server.

(* ================================================================== *)
(** * Vocabulary of the statements *)
(* ================================================================== *)

Import Client Server.

Section Vocabulary.

Context {engine : Engine}.

(** The request that [request] puts on the wire, and what it makes of the
    outcome of [fetch]. *)
Definition request_of (self : JiraClient) (endpoint : string) (options : RequestInit)
  : HttpRequest :=
  {| req_url := baseUrl self ++ "/rest/api/2" ++ endpoint;
     req_method := init_method options;
     req_headers := spread [headers self; init_headers options];
     req_body := init_body options |}.

Definition request_result (o : FetchOutcome) : exn + json :=
  match o with
  | Rejected msg => inl (JsError msg)
  | Resolved response =>
      if negb (resp_ok response) then
        inl (JsError ("Jira API error (" ++ Z_to_string (resp_status response)
                        ++ "): " ++ resp_text response))
      else if resp_status response =? 204 then inr (JObj [])
      else
        match resp_json response with
        | inl syntaxError => inl (JsError syntaxError)
        | inr value => inr value
        end
  end.

Definition void_result (r : exn + json) : exn + unit :=
  match r with
  | inl e => inl e
  | inr _ => inr tt
  end.

(** The error a tool call reports for an exception of its [try] block. *)
Definition tool_error (name : string) (error : exn) : exn :=
  match error with
  | ZodError errors =>
      McpError InvalidParams ("Invalid parameters: " ++ join ", " (map message errors))
  | McpError _ _ => error
  | JsError msg => McpError InternalError ("Error executing " ++ name ++ ": " ++ msg)
  end.

(** The value an optional scalar argument contributes to a field map:
    none when the argument is absent or empty. *)
Definition scalar_value (wrap : string -> json) (value : option string)
  : option json :=
  match value with
  | Some v => if truthy_string v then Some (wrap v) else None
  | None => None
  end.

(** A list of names as the array of the objects [{"name": n}]. *)
Definition name_refs (names : option (list string)) : option json :=
  option_map (fun l => JArr (map (fun n => JObj [("name", JStr n)]) l)) names.

(** What the named and structured arguments of the advanced create tool
    put in the field map, as a table from keys to values: the project as
    [{"key": k}]; the issue type, priority, assignee and reporter as
    [{"name": n}]; the labels as an array of strings; components, fix
    versions and affected versions (under [versions]) as arrays of
    [{"name": n}]. *)
Definition create_named_value (projectKey summary issueType : string)
  (description priority assignee reporter : option string)
  (labels components fixVersions affectsVersions : option (list string))
  (k : string) : option json :=
  if String.eqb k "project" then Some (JObj [("key", JStr projectKey)])
  else if String.eqb k "summary" then Some (JStr summary)
  else if String.eqb k "issuetype" then Some (JObj [("name", JStr issueType)])
  else if String.eqb k "description" then scalar_value JStr description
  else if String.eqb k "priority" then
    scalar_value (fun n => JObj [("name", JStr n)]) priority
  else if String.eqb k "assignee" then
    scalar_value (fun n => JObj [("name", JStr n)]) assignee
  else if String.eqb k "reporter" then
    scalar_value (fun n => JObj [("name", JStr n)]) reporter
  else if String.eqb k "labels" then option_map (fun l => JArr (map JStr l)) labels
  else if String.eqb k "components" then name_refs components
  else if String.eqb k "fixVersions" then name_refs fixVersions
  else if String.eqb k "versions" then name_refs affectsVersions
  else None.

(** The same table for the advanced update tool. *)
Definition update_named_value (summary description priority assignee : option string)
  (labels components fixVersions affectsVersions : option (list string))
  (k : string) : option json :=
  if String.eqb k "summary" then scalar_value JStr summary
  else if String.eqb k "description" then scalar_value JStr description
  else if String.eqb k "priority" then
    scalar_value (fun n => JObj [("name", JStr n)]) priority
  else if String.eqb k "assignee" then
    scalar_value (fun n => JObj [("name", JStr n)]) assignee
  else if String.eqb k "labels" then option_map (fun l => JArr (map JStr l)) labels
  else if String.eqb k "components" then name_refs components
  else if String.eqb k "fixVersions" then name_refs fixVersions
  else if String.eqb k "versions" then name_refs affectsVersions
  else None.

(** The value the caller's [customFields] gives a key, if any. *)
Definition custom_value (customFields : option (list (string * json))) (k : string)
  : option json :=
  match customFields with
  | Some customFields => obj_get k customFields
  | None => None
  end.

(** Overlay of two tables: the first wins wherever it is defined. *)
Definition overlay (top base : option json) : option json :=
  match top with
  | Some v => Some v
  | None => base
  end.

(** The exceptions of the client and of the JavaScript runtime. *)
Definition is_js_error (e : exn) : Prop := exists msg, e = JsError msg.

(** What the [try] block of a tool call may throw. *)
Definition is_zod_or_js_error (e : exn) : Prop :=
  (exists issues, e = ZodError issues) \/ is_js_error e.

(** A request to the REST namespace of the client's tracker. *)
Definition under_api (self : JiraClient) (req : HttpRequest) : Prop :=
  exists path, req_url req = baseUrl self ++ "/rest/api/2" ++ path.

(** Synchronous code that throws nothing but exceptions in [E]. *)
Definition sync_raises {A : Type} (E : exn -> Prop) (s : Sync A) : Prop :=
  forall e, s = inl e -> E e.

(** Asynchronous code that, from any history and against any remote,
    throws nothing but exceptions in [E] and sends nothing but requests
    in [Q]. *)
Definition behaves {A : Type} (E : exn -> Prop) (Q : HttpRequest -> Prop)
  (m : M A) : Prop :=
  forall remote history,
    (forall e, fst (m remote history) = inl e -> E e)
    /\ Forall Q (snd (m remote history)).

(** The violations that the schema of tool [name] finds in [args]: [None]
    when the schema accepts them, and for the tools that parse nothing. *)
Definition schema_violations (jiraClient : JiraClient) (name : string)
  (args : option json) : option (list ZodIssue) :=
  match switch jiraClient name with
  | Some (parse_then schema _) =>
      match safeParse schema args with
      | inl issues => Some issues
      | inr _ => None
      end
  | _ => None
  end.

(** None of the issue types [items] passes the filter of [getCreateMeta]
    for [issueTypeName]. *)
Definition no_issue_type_matches (issueTypeName : string) (items : list json) : Prop :=
  forall t, In t items -> issue_type_named issueTypeName t <> inr true.

(** The statement on [getFieldOptions] with no condition on the name: when
    the remote lists issue types none of which matches [issueTypeName] and
    [getCreateMeta] succeeds, the result is the empty list. *)
Definition field_options_empty_when_none_matches : Prop :=
  forall self projectKey issueTypeName fieldKey remote history issueTypesResult
         items meta,
    outcome (getCreateMetaIssueTypes self projectKey) remote history =
      inr issueTypesResult ->
    get_prop issueTypesResult "values" = inr (Some (JArr items)) ->
    no_issue_type_matches issueTypeName items ->
    outcome (getCreateMeta self projectKey (Some issueTypeName)) remote history =
      inr meta ->
    outcome (getFieldOptions self projectKey issueTypeName fieldKey) remote history =
      inr (JArr []).

(** A client and a remote to run examples against: project [P] has the one
    issue type [Bug], whose field [priority] allows the value [High]. *)
Definition example_client : JiraClient :=
  constructor {| JiraTypes.baseUrl := "https://jira.example.com/";
                 JiraTypes.pat := "secret" |}.

Definition ok_json (value : json) : FetchOutcome :=
  Resolved {| resp_status := 200; resp_text := JSON_stringify value;
              resp_json := inr value |}.

Definition example_remote : Remote :=
  fun _ req =>
    if String.eqb (req_url req)
         "https://jira.example.com/rest/api/2/issue/createmeta/P/issuetypes"
    then ok_json (JObj [("values",
                         JArr [JObj [("id", JStr "1"); ("name", JStr "Bug")]])])
    else if String.eqb (req_url req)
         "https://jira.example.com/rest/api/2/issue/createmeta/P/issuetypes/1?maxResults=100"
    then ok_json
           (JObj [("values",
                   JArr [JObj [ ("fieldId", JStr "priority");
                                ("name", JStr "Priority");
                                ("required", JBool false);
                                ("allowedValues",
                                 JArr [JObj [("id", JStr "1");
                                             ("name", JStr "High")]]) ]])])
    else Resolved {| resp_status := 404; resp_text := "Not Found";
                     resp_json := inl "Unexpected token N in JSON at position 0" |}.

(** The keys a schema reads, in declaration order. *)
Fixpoint shape_keys {A : Type} (schema : ZodObject A) : list string :=
  match schema with
  | shape_end => []
  | shape_key key _ rest => key :: shape_keys rest
  end.

(** The argument keys the case of tool [name] reads: none for the tools
    that parse nothing and for unknown names. *)
Definition tool_keys (jiraClient : JiraClient) (name : string) : list string :=
  match switch jiraClient name with
  | Some (parse_then schema _) => shape_keys schema
  | _ => []
  end.

(** A request as [request] builds it from a call that passes no headers
    of its own. *)
Definition from_request (self : JiraClient) (req : HttpRequest) : Prop :=
  exists endpoint method body,
    req = request_of self endpoint
            {| init_method := method; init_body := body; init_headers := [] |}.

(** Asynchronous code whose results, when it returns, all satisfy [P]. *)
Definition yields {A : Type} (P : A -> Prop) (m : M A) : Prop :=
  forall remote history a, fst (m remote history) = inr a -> P a.

(** A tool reply made of a single text block. *)
Definition single_text (r : CallToolResult) : Prop :=
  exists t, content r = [ {| type := "text"; text := t |} ].

(** A fetch that does not deliver: it rejects, or resolves to a status
    outside 200..299. *)
Definition fetch_fails (o : FetchOutcome) : Prop :=
  match o with
  | Rejected _ => True
  | Resolved response => resp_ok response = false
  end.

(** The message of the error that [request] throws for such a fetch. *)
Definition failure_message (o : FetchOutcome) : string :=
  match o with
  | Rejected msg => msg
  | Resolved response =>
      "Jira API error (" ++ Z_to_string (resp_status response) ++ "): "
        ++ resp_text response
  end.

(** A remote none of whose answers delivers. *)
Definition unavailable (remote : Remote) : Prop :=
  forall history req, fetch_fails (remote history req).

(** Code that, run from [history], stops at its first request: the one
    request is all it sends and the failure of that request is what it
    throws. *)
Definition stops_at_first_request {A : Type} (m : M A) (remote : Remote)
  (history : list HttpRequest) : Prop :=
  exists req,
    m remote history = (inl (JsError (failure_message (remote history req))), [req]).

(** The error a resource read reports for an exception of its [try]
    block. *)
Definition read_error (uri : string) (error : exn) : exn :=
  match error with
  | McpError _ _ => error
  | ZodError errors =>
      McpError InternalError
        ("Error reading resource " ++ uri ++ ": "
           ++ JSON_stringify_pretty
                (JArr (map (fun e => JObj [("message", JStr (message e))]) errors)))
  | JsError msg =>
      McpError InternalError ("Error reading resource " ++ uri ++ ": " ++ msg)
  end.

(** The resource identifiers that the reader compares its argument with. *)
Definition fixed_resource_uris : list string :=
  [ "jira://config"; "jira://current-user"; "jira://priorities"; "jira://statuses";
    "jira://fields"; "jira://link-types"; "jira://projects"; "jira://my-issues" ].

(** The three headers of a client built from a configuration. *)
Definition configured_headers (config : JiraTypes.JiraConfig) : list (string * string) :=
  [ ("Authorization", "Bearer " ++ JiraTypes.pat config);
    ("Content-Type", "application/json");
    ("Accept", "application/json") ].

(** The body of a case stops at its first request, whatever it parsed. *)
Definition case_stops_at_first_request (c : ToolCase) (remote : Remote)
  (history : list HttpRequest) : Prop :=
  match c with
  | parse_then _ body => forall a, stops_at_first_request (body a) remote history
  | no_parse body => stops_at_first_request body remote history
  end.

(** The issue types [getCreateMeta] goes on with: those passing the name
    filter when a non-empty name is given, all of them otherwise. *)
Definition selected_issue_types (issueTypeName : option string) (items : list json)
  : Sync (list json) :=
  match issueTypeName with
  | Some n => if truthy_string n then filter_sync (issue_type_named n) items
              else inr items
  | None => inr items
  end.

(** The request for the fields of the issue type of identifier [id]. *)
Definition fields_request (self : JiraClient) (projectKey id : string)
  : HttpRequest :=
  request_of self
    ("/issue/createmeta/" ++ projectKey ++ "/issuetypes/" ++ id ++ "?maxResults=100")
    no_options.

(** A name between double quotes: the JSON text of a string in which
    nothing needs an escape. *)
Definition quoted (s : string) : string := dquote ++ s ++ dquote.

(** The string made of the unpaired surrogate U+D800. *)
Definition lone_surrogate : string :=
  String (ascii_of_nat 237) (String (ascii_of_nat 160)
    (String (ascii_of_nat 128) EmptyString)).

(** An object whose member [key] is the string [value]. *)
Definition has_string (key : string) (o : list (string * json)) (value : string)
  : Prop :=
  obj_get key o = Some (JStr value).

End Vocabulary.

(* ================================================================== *)
(** * Properties *)
(* ================================================================== *)

Section Properties.

Context {engine : Engine}.

(** ** Objects as finite maps *)

Section Objects.

Context {V : Type}.
Implicit Types (o : list (string * V)) (k : string) (v : V).

Lemma obj_get_set_same k v o : obj_get k (obj_set k v o) = Some v.
Proof.
  induction o as [|[k' v'] rest IH]; simpl.
  - now rewrite String.eqb_refl.
  - destruct (String.eqb_spec k k') as [->|Hne]; simpl.
    + now rewrite String.eqb_refl.
    + destruct (String.eqb_spec k k'); [contradiction | exact IH].
Qed.

Lemma obj_get_set_other k k' v o :
  k <> k' -> obj_get k (obj_set k' v o) = obj_get k o.
Proof.
  intros Hne.
  induction o as [|[k2 v2] rest IH]; simpl.
  - destruct (String.eqb_spec k k'); [contradiction | reflexivity].
  - destruct (String.eqb_spec k' k2) as [->|Hne2]; simpl.
    + destruct (String.eqb_spec k k2); [contradiction | reflexivity].
    + destruct (String.eqb_spec k k2); [reflexivity | exact IH].
Qed.

Lemma obj_get_None_keys k o : obj_get k o = None <-> ~ In k (keys o).
Proof.
  induction o as [|[k' v'] rest IH]; simpl.
  - tauto.
  - destruct (String.eqb_spec k k') as [->|Hne].
    + split; [discriminate | intros H; exfalso; apply H; now left].
    + rewrite IH. split.
      * intros H [Heq|Hin]; [now apply Hne | now apply H].
      * intros H Hin. apply H. now right.
Qed.

Lemma obj_get_Some_keys k v o : obj_get k o = Some v -> In k (keys o).
Proof.
  intros H. destruct (in_dec string_dec k (keys o)) as [Hin|Hout]; [exact Hin|].
  apply obj_get_None_keys in Hout. congruence.
Qed.

Lemma keys_obj_set k k' v o :
  In k (keys (obj_set k' v o)) <-> k = k' \/ In k (keys o).
Proof.
  induction o as [|[k2 v2] rest IH]; simpl.
  - intuition congruence.
  - destruct (String.eqb_spec k' k2) as [->|Hne]; simpl.
    + intuition congruence.
    + rewrite IH. intuition congruence.
Qed.

Lemma NoDup_keys_obj_set k v o : NoDup (keys o) -> NoDup (keys (obj_set k v o)).
Proof.
  induction o as [|[k2 v2] rest IH]; simpl; intros Hnd.
  - constructor; [intros [] | constructor].
  - inversion Hnd as [|? ? Hout Hrest]; subst.
    destruct (String.eqb_spec k k2) as [->|Hne]; simpl.
    + now constructor.
    + constructor; [|now apply IH].
      intros Hin. apply keys_obj_set in Hin as [Heq|Hin]; [congruence | contradiction].
Qed.

(** After [Object.assign(target, source)], a key of [source] carries the
    value of [source], and any other key the value it had in [target]. *)
Lemma obj_get_Object_assign k (target source : list (string * V)) :
  NoDup (keys source) ->
  obj_get k (Object_assign target source) =
    match obj_get k source with
    | Some v => Some v
    | None => obj_get k target
    end.
Proof.
  unfold Object_assign. revert target.
  induction source as [|[k1 v1] rest IH]; intros target Hnd; simpl.
  - reflexivity.
  - inversion Hnd as [|? ? Hout Hrest]; subst.
    rewrite IH by assumption.
    destruct (String.eqb_spec k k1) as [->|Hne].
    + apply obj_get_None_keys in Hout. rewrite Hout.
      apply obj_get_set_same.
    + destruct (obj_get k rest); [reflexivity|].
      now apply obj_get_set_other.
Qed.

Lemma Object_assign_nil (target : list (string * V)) : Object_assign target [] = target.
Proof. reflexivity. Qed.

End Objects.

Lemma NoDup_record_entries props : NoDup (keys (record_entries props)).
Proof.
  unfold record_entries.
  assert (H : forall acc, NoDup (keys acc) ->
            NoDup (keys (fold_left
              (fun acc kv =>
                 if String.eqb (fst kv) "__proto__" then acc
                 else obj_set (fst kv) (snd kv) acc) props acc))).
  { induction props as [|[k v] rest IH]; intros acc Hacc; simpl; [exact Hacc|].
    apply IH. destruct (String.eqb k "__proto__"); [exact Hacc|].
    now apply NoDup_keys_obj_set. }
  apply H. constructor.
Qed.

(** A record parsed by zod holds, for every key but [__proto__], the value
    the caller gave it. *)
Lemma obj_get_record_entries k props :
  NoDup (keys props) ->
  k <> "__proto__" ->
  obj_get k (record_entries props) = obj_get k props.
Proof.
  intros Hnd Hk. unfold record_entries.
  assert (H : forall acc,
            obj_get k (fold_left
              (fun acc kv =>
                 if String.eqb (fst kv) "__proto__" then acc
                 else obj_set (fst kv) (snd kv) acc) props acc) =
            match obj_get k props with
            | Some v => Some v
            | None => obj_get k acc
            end).
  { induction props as [|[k1 v1] rest IH]; intros acc; simpl; [reflexivity|].
    inversion Hnd as [|? ? Hout Hrest]; subst.
    rewrite IH by assumption.
    destruct (String.eqb_spec k k1) as [->|Hne].
    - apply obj_get_None_keys in Hout. rewrite Hout.
      destruct (String.eqb_spec k1 "__proto__"); [contradiction|].
      apply obj_get_set_same.
    - destruct (obj_get k rest); [reflexivity|].
      destruct (String.eqb k1 "__proto__"); [reflexivity|].
      now apply obj_get_set_other. }
  rewrite H. now destruct (obj_get k props).
Qed.

(** ** Parsing *)

Lemma merge2_inr {A B : Type} (a : ParseResult A) (b : ParseResult B) x y :
  merge2 a b = inr (x, y) <-> a = inr x /\ b = inr y.
Proof.
  destruct a, b; simpl; split; intros H; try discriminate;
    try (destruct H; discriminate).
  - inversion H; subst; auto.
  - destruct H as [H1 H2]. inversion H1; inversion H2; subst; reflexivity.
Qed.

Lemma parse_string_inr input s :
  _parse z_string input = inr s <-> input = Some (JStr s).
Proof.
  simpl. destruct input as [[]|]; split; intros H; try discriminate;
    inversion H; subst; reflexivity.
Qed.

Lemma parse_optional_None {A : Type} (t : ZodType A) :
  _parse (z_optional t) None = inr None.
Proof. reflexivity. Qed.

(** ** Running asynchronous code *)

Lemma bind_ret_l {A B : Type} (a : A) (f : A -> M B) remote history :
  bind (ret a) f remote history = f a remote history.
Proof.
  unfold bind, ret. rewrite app_nil_r. now destruct (f a remote history).
Qed.

Lemma bind_throw_l {A B : Type} (e : exn) (f : A -> M B) remote history :
  bind (throw e) f remote history = (inl e, []).
Proof. reflexivity. Qed.

Lemma request_run self endpoint options remote history :
  request self endpoint options remote history =
    (request_result (remote history (request_of self endpoint options)),
     [request_of self endpoint options]).
Proof.
  unfold request, bind, fetch, request_of, request_result. simpl.
  destruct (remote history _) as [msg|response]; [reflexivity|].
  destruct (negb (resp_ok response)); [reflexivity|].
  destruct (resp_status response =? 204); [reflexivity|].
  destruct (resp_json response); reflexivity.
Qed.

Lemma request_void_run self endpoint options remote history :
  request_void self endpoint options remote history =
    (void_result (request_result (remote history (request_of self endpoint options))),
     [request_of self endpoint options]).
Proof.
  unfold request_void, bind. rewrite request_run.
  destruct (request_result _); reflexivity.
Qed.

Lemma on_tool_error_run name error remote history :
  on_tool_error name error remote history = (inl (tool_error name error), []).
Proof. destruct error; reflexivity. Qed.

Lemma try_catch_tool_error_run name (m : M CallToolResult) remote history :
  try_catch m (on_tool_error name) remote history =
    (match fst (m remote history) with
     | inl e => inl (tool_error name e)
     | inr a => inr a
     end, snd (m remote history)).
Proof.
  unfold try_catch. destruct (m remote history) as [[e|a] sent1]; simpl.
  - rewrite on_tool_error_run. now rewrite app_nil_r.
  - reflexivity.
Qed.

Lemma run_case_parsed {A : Type} (schema : ZodObject A) body args a remote history :
  safeParse schema args = inr a ->
  run_case (parse_then schema body) args remote history = body a remote history.
Proof.
  intros H. unfold run_case, parse. rewrite H. apply bind_ret_l.
Qed.

Lemma run_case_invalid {A : Type} (schema : ZodObject A) body args issues remote history :
  safeParse schema args = inl issues ->
  run_case (parse_then schema body) args remote history = (inl (ZodError issues), []).
Proof.
  intros H. unfold run_case, parse. now rewrite H.
Qed.

Lemma CallTool_parsed {A : Type} jiraClient name (schema : ZodObject A) body args a
  remote history :
  switch jiraClient name = Some (parse_then schema body) ->
  safeParse schema args = inr a ->
  CallTool_handler jiraClient name args remote history =
    (match fst (body a remote history) with
     | inl e => inl (tool_error name e)
     | inr r => inr r
     end, snd (body a remote history)).
Proof.
  intros Hcase Hparse. unfold CallTool_handler.
  rewrite try_catch_tool_error_run, Hcase.
  now rewrite (run_case_parsed schema body args a remote history Hparse).
Qed.

Lemma CallTool_invalid {A : Type} jiraClient name (schema : ZodObject A) body args
  issues remote history :
  switch jiraClient name = Some (parse_then schema body) ->
  safeParse schema args = inl issues ->
  CallTool_handler jiraClient name args remote history =
    (inl (tool_error name (ZodError issues)), []).
Proof.
  intros Hcase Hparse. unfold CallTool_handler.
  rewrite try_catch_tool_error_run, Hcase.
  now rewrite (run_case_invalid schema body args issues remote history Hparse).
Qed.

Lemma then_ret_run {A B : Type} (m : M A) (b : B) remote history :
  (m ;; ret b) remote history =
    (match fst (m remote history) with
     | inl e => inl e
     | inr _ => inr b
     end, snd (m remote history)).
Proof.
  unfold bind, ret. destruct (m remote history) as [[e|a] sent1]; simpl;
    [reflexivity | now rewrite app_nil_r].
Qed.

Lemma bind_ret_run {A B : Type} (m : M A) (f : A -> B) remote history :
  (x <- m ;; ret (f x)) remote history =
    (match fst (m remote history) with
     | inl e => inl e
     | inr a => inr (f a)
     end, snd (m remote history)).
Proof.
  unfold bind, ret. destruct (m remote history) as [[e|a] sent1]; simpl;
    [reflexivity | now rewrite app_nil_r].
Qed.

(** ** Assigning and unassigning *)

(** C2. A [jira_assign_issue] call whose [assignee] is [null] puts the
    null in the body: every request the call makes is a PUT whose body is
    the text of the object with the single member [name] bound to [null],
    and with a string [issueKey] the call makes exactly that one request,
    to the assignee sub-resource of the issue. *)
Theorem assign_null_sends_null jiraClient data remote history :
  obj_get "assignee" data = Some JNull ->
  let run := CallTool_handler jiraClient "jira_assign_issue" (Some (JObj data)) in
  Forall (fun req =>
            req_method req = Some "PUT" /\
            req_body req = Some (JSON_stringify (JObj [("name", JNull)])) /\
            req_body req = Some ("{" ++ dquote ++ "name" ++ dquote ++ ":null}"))
         (sent run remote history)
  /\ forall issueKey,
       obj_get "issueKey" data = Some (JStr issueKey) ->
       sent run remote history =
         [ request_of jiraClient ("/issue/" ++ issueKey ++ "/assignee")
             (with_body "PUT" (JSON_stringify (JObj [("name", JNull)]))) ].
Proof.
  intros Hassignee run.
  assert (Hvalid : forall issueKey,
             obj_get "issueKey" data = Some (JStr issueKey) ->
             sent run remote history =
               [ request_of jiraClient ("/issue/" ++ issueKey ++ "/assignee")
                   (with_body "PUT" (JSON_stringify (JObj [("name", JNull)]))) ]).
  { intros issueKey Hkey. unfold run, sent.
    erewrite CallTool_parsed with (a := (issueKey, (None, tt)));
      [ | reflexivity | simpl; now rewrite Hkey, Hassignee ].
    simpl snd. rewrite then_ret_run. unfold assignIssue.
    now rewrite request_void_run. }
  split; [|exact Hvalid].
  destruct (obj_get "issueKey" data) as [[| | |issueKey| |]|] eqn:Hkey;
    try (unfold run, sent;
         erewrite CallTool_invalid;
         [ constructor | reflexivity | simpl; rewrite Hkey, Hassignee; reflexivity ]).
  rewrite (Hvalid issueKey eq_refl).
  constructor; [|constructor]. repeat split; reflexivity.
Qed.

(** The reply and the request of a well-formed [jira_assign_issue] call:
    [assignee] is the parsed argument, [None] for [null]. *)
Lemma assign_issue_run jiraClient data issueKey assignee remote history :
  obj_get "issueKey" data = Some (JStr issueKey) ->
  obj_get "assignee" data =
    Some (match assignee with Some a => JStr a | None => JNull end) ->
  CallTool_handler jiraClient "jira_assign_issue" (Some (JObj data)) remote history =
    (match fst (assignIssue jiraClient issueKey assignee remote history) with
     | inl e => inl (tool_error "jira_assign_issue" e)
     | inr _ =>
         inr (text_content
                (if truthy_opt_string assignee
                 then "Issue " ++ issueKey ++ " assigned to "
                        ++ match assignee with Some a => a | None => "" end
                 else "Issue " ++ issueKey ++ " unassigned"))
     end,
     [ request_of jiraClient ("/issue/" ++ issueKey ++ "/assignee")
         (with_body "PUT"
            (JSON_stringify
               (JObj [("name", match assignee with
                               | Some a => JStr a
                               | None => JNull
                               end)]))) ]).
Proof.
  intros Hkey Hassignee.
  erewrite CallTool_parsed with (a := (issueKey, (assignee, tt)));
    [ | reflexivity | simpl; rewrite Hkey, Hassignee; now destruct assignee ].
  cbv beta iota. rewrite then_ret_run.
  assert (Hrun : assignIssue jiraClient issueKey assignee remote history =
                 (void_result
                    (request_result
                       (remote history
                          (request_of jiraClient ("/issue/" ++ issueKey ++ "/assignee")
                             (with_body "PUT"
                                (JSON_stringify
                                   (JObj [("name", match assignee with
                                                   | Some a => JStr a
                                                   | None => JNull
                                                   end)])))))),
                  [ request_of jiraClient ("/issue/" ++ issueKey ++ "/assignee")
                      (with_body "PUT"
                         (JSON_stringify
                            (JObj [("name", match assignee with
                                            | Some a => JStr a
                                            | None => JNull
                                            end)]))) ]))
    by (unfold assignIssue; apply request_void_run).
  rewrite Hrun. simpl fst; simpl snd. f_equal.
  destruct (void_result _); [reflexivity|].
  destruct assignee as [a|]; simpl; [|reflexivity].
  now destruct (truthy_string a).
Qed.

(** C10. With the empty string as [assignee], the client sends the body
    whose [name] member is the empty string, and when the request succeeds
    the reply reads [Issue KEY unassigned]; in general the wording of the
    reply follows the truthiness of the assignee, not its being [null]. *)
Theorem assign_empty_string_reports_unassigned jiraClient data issueKey remote history :
  obj_get "issueKey" data = Some (JStr issueKey) ->
  obj_get "assignee" data = Some (JStr "") ->
  outcome (assignIssue jiraClient issueKey (Some "")) remote history = inr tt ->
  let run := CallTool_handler jiraClient "jira_assign_issue" in
  sent (run (Some (JObj data))) remote history =
    [ request_of jiraClient ("/issue/" ++ issueKey ++ "/assignee")
        (with_body "PUT" ("{" ++ dquote ++ "name" ++ dquote ++ ":" ++ dquote ++ dquote ++ "}")) ]
  /\ outcome (run (Some (JObj data))) remote history =
       inr (text_content ("Issue " ++ issueKey ++ " unassigned"))
  /\ forall data' assignee remote' history',
       obj_get "issueKey" data' = Some (JStr issueKey) ->
       obj_get "assignee" data' =
         Some (match assignee with Some a => JStr a | None => JNull end) ->
       outcome (assignIssue jiraClient issueKey assignee) remote' history' = inr tt ->
       outcome (run (Some (JObj data'))) remote' history' =
         inr (text_content
                (if truthy_opt_string assignee
                 then "Issue " ++ issueKey ++ " assigned to "
                        ++ match assignee with Some a => a | None => "" end
                 else "Issue " ++ issueKey ++ " unassigned")).
Proof.
  intros Hkey Hassignee Hok run. unfold run, sent, outcome in *.
  rewrite (assign_issue_run jiraClient data issueKey (Some "") remote history Hkey Hassignee).
  simpl fst; simpl snd. rewrite Hok. repeat split.
  intros data' assignee remote' history' Hkey' Hassignee' Hok'.
  rewrite (assign_issue_run jiraClient data' issueKey assignee remote' history'
             Hkey' Hassignee').
  simpl fst. now rewrite Hok'.
Qed.

(** ** Transitions *)

(** C8. [transitionIssue] makes one request, a POST to the transitions
    of the issue, whose body is the text of an object that always carries
    the wrapper [transition: {id}].  Without a comment, and with the empty
    string for a comment, the wrapper is the only member: there is no
    [update] key.  With a non-empty comment the [update] member follows,
    holding the append-comment block of that comment.  An [update] member
    is there only when a comment was supplied. *)
Theorem transition_body_carries_comment_only_when_supplied
  jiraClient issueKey transitionId comment remote history :
  let wrapper := ("transition", JObj [("id", JStr transitionId)]) in
  let update c :=
    ("update", JObj [("comment", JArr [JObj [("add", JObj [("body", JStr c)])]])]) in
  exists req body,
    sent (transitionIssue jiraClient issueKey transitionId comment) remote history =
      [req]
    /\ req_url req =
         baseUrl jiraClient ++ "/rest/api/2/issue/" ++ issueKey ++ "/transitions"
    /\ req_method req = Some "POST"
    /\ req_body req = Some (JSON_stringify (JObj body))
    /\ obj_get "transition" body = Some (JObj [("id", JStr transitionId)])
    /\ (comment = None -> body = [wrapper])
    /\ (comment = Some "" -> body = [wrapper])
    /\ (forall c, comment = Some c -> c <> "" -> body = [wrapper; update c])
    /\ (forall u, obj_get "update" body = Some u ->
          exists c, comment = Some c /\ c <> "" /\ u = snd (update c)).
Proof.
  intros wrapper update.
  exists (request_of jiraClient ("/issue/" ++ issueKey ++ "/transitions")
            (with_body "POST"
               (JSON_stringify (JObj (transition_body transitionId comment))))),
         (transition_body transitionId comment).
  split; [unfold sent, transitionIssue; now rewrite request_void_run|].
  split; [reflexivity|]. split; [reflexivity|]. split; [reflexivity|].
  unfold transition_body, truthy_string, wrapper, update.
  destruct comment as [c|]; [destruct (String.eqb_spec c "") as [->|Hc]|];
    cbn [negb obj_set obj_get String.eqb Ascii.eqb Bool.eqb snd].
  - repeat split; try discriminate; try reflexivity.
    intros c Hc Hne. inversion Hc; subst. contradiction.
  - repeat split; try discriminate.
    + intros Hc'. inversion Hc'; subst. contradiction.
    + intros c' Hc' _. now inversion Hc'.
    + intros u Hu. inversion Hu; subst. exists c. repeat split. exact Hc.
  - repeat split; try discriminate; reflexivity.
Qed.

(** ** Partial update *)

Lemma keys_string_part key wrap value k :
  In k (keys (string_part key wrap value)) -> k = key.
Proof.
  unfold string_part. destruct value as [v|]; [destruct (truthy_string v)|];
    simpl; intuition.
Qed.

Lemma update_fields_summary_only summary :
  update_fields summary None None None None = string_part "summary" JStr summary.
Proof.
  unfold update_fields, string_part.
  destruct summary as [s|]; [destruct (truthy_string s)|]; reflexivity.
Qed.

(** What the schema of [jira_update_issue] makes of an argument bag that
    has none of [description], [priority], [assignee] and [labels]. *)
Lemma parse_update_summary_only data issueKey summary description priority assignee labels :
  obj_get "description" data = None ->
  obj_get "priority" data = None ->
  obj_get "assignee" data = None ->
  obj_get "labels" data = None ->
  safeParse UpdateIssueSchema (Some (JObj data)) =
    inr (issueKey, (summary, (description, (priority, (assignee, (labels, tt)))))) ->
  description = None /\ priority = None /\ assignee = None /\ labels = None.
Proof.
  intros Hd Hp Ha Hl H. simpl in H. rewrite Hd, Hp, Ha, Hl in H.
  apply merge2_inr in H as [_ H]. apply merge2_inr in H as [_ H].
  apply merge2_inr in H as [H1 H]. apply merge2_inr in H as [H2 H].
  apply merge2_inr in H as [H3 H]. apply merge2_inr in H as [H4 _].
  inversion H1; inversion H2; inversion H3; inversion H4. auto.
Qed.

(** C3. A [jira_update_issue] call whose arguments have none of
    [description], [priority], [assignee] and [labels] sends no field key
    other than [summary]: every request it makes carries a [fields] object
    whose keys are all [summary], and with a string [issueKey] and a string
    [summary] it makes exactly one PUT, whose [fields] hold the summary
    alone (nothing at all when the summary is the empty string). *)
Theorem update_with_summary_only_sends_summary_only jiraClient data remote history :
  obj_get "description" data = None ->
  obj_get "priority" data = None ->
  obj_get "assignee" data = None ->
  obj_get "labels" data = None ->
  let run := CallTool_handler jiraClient "jira_update_issue" (Some (JObj data)) in
  Forall (fun req =>
            exists fields,
              req_body req = Some (JSON_stringify (JObj [("fields", JObj fields)]))
              /\ forall k, In k (keys fields) -> k = "summary")
         (sent run remote history)
  /\ forall issueKey summary,
       obj_get "issueKey" data = Some (JStr issueKey) ->
       obj_get "summary" data = Some (JStr summary) ->
       sent run remote history =
         [ request_of jiraClient ("/issue/" ++ issueKey)
             (with_body "PUT"
                (JSON_stringify
                   (JObj [("fields",
                           JObj (if truthy_string summary
                                 then [("summary", JStr summary)]
                                 else []))]))) ].
Proof.
  intros Hd Hp Ha Hl run.
  assert (Hrun : forall issueKey summary description priority assignee labels,
             safeParse UpdateIssueSchema (Some (JObj data)) =
               inr (issueKey, (summary, (description, (priority,
                     (assignee, (labels, tt)))))) ->
             sent run remote history =
               [ request_of jiraClient ("/issue/" ++ issueKey)
                   (with_body "PUT"
                      (JSON_stringify
                         (JObj [("fields",
                                 JObj (string_part "summary" JStr summary))]))) ]).
  { intros issueKey summary description priority assignee labels Hparse.
    destruct (parse_update_summary_only _ _ _ _ _ _ _ Hd Hp Ha Hl Hparse)
      as (-> & -> & -> & ->).
    unfold run, sent.
    erewrite CallTool_parsed; [ | reflexivity | exact Hparse ].
    cbv beta iota. rewrite then_ret_run. simpl snd.
    unfold updateIssue. rewrite request_void_run. simpl snd.
    now rewrite update_fields_summary_only. }
  split.
  - destruct (safeParse UpdateIssueSchema (Some (JObj data)))
      as [issues|[issueKey [summary [description [priority [assignee [labels []]]]]]]]
      eqn:Hparse.
    + unfold run, sent.
      erewrite CallTool_invalid; [ constructor | reflexivity | exact Hparse ].
    + rewrite (Hrun _ _ _ _ _ _ eq_refl).
      constructor; [|constructor].
      exists (string_part "summary" JStr summary). split; [reflexivity|].
      apply keys_string_part.
  - intros issueKey summary Hkey Hsummary.
    apply (Hrun issueKey (Some summary) None None None None).
    simpl. now rewrite Hkey, Hsummary, Hd, Hp, Ha, Hl.
Qed.

(** ** Field assembly of the advanced tools *)

Lemma obj_get_set_string k key wrap value fields :
  obj_get k (set_string key wrap value fields) =
    if String.eqb k key then overlay (scalar_value wrap value) (obj_get k fields)
    else obj_get k fields.
Proof.
  unfold set_string, scalar_value.
  destruct (String.eqb_spec k key) as [->|Hne];
    destruct value as [v|]; try reflexivity;
    destruct (truthy_string v); try reflexivity.
  - apply obj_get_set_same.
  - now apply obj_get_set_other.
Qed.

Lemma obj_get_set_array k key wrap value fields :
  obj_get k (set_array key wrap value fields) =
    if String.eqb k key then overlay (option_map wrap value) (obj_get k fields)
    else obj_get k fields.
Proof.
  unfold set_array.
  destruct (String.eqb_spec k key) as [->|Hne];
    destruct value as [v|]; try reflexivity.
  - apply obj_get_set_same.
  - now apply obj_get_set_other.
Qed.

Lemma obj_get_set_string_other k key wrap value fields :
  k <> key -> obj_get k (set_string key wrap value fields) = obj_get k fields.
Proof.
  intros Hne. rewrite obj_get_set_string.
  destruct (String.eqb_spec k key); [contradiction | reflexivity].
Qed.

Lemma obj_get_set_string_same key wrap value fields :
  obj_get key (set_string key wrap value fields) =
    overlay (scalar_value wrap value) (obj_get key fields).
Proof. rewrite obj_get_set_string. now rewrite String.eqb_refl. Qed.

Lemma obj_get_set_array_other k key wrap value fields :
  k <> key -> obj_get k (set_array key wrap value fields) = obj_get k fields.
Proof.
  intros Hne. rewrite obj_get_set_array.
  destruct (String.eqb_spec k key); [contradiction | reflexivity].
Qed.

Lemma obj_get_set_array_same key wrap value fields :
  obj_get key (set_array key wrap value fields) =
    overlay (option_map wrap value) (obj_get key fields).
Proof. rewrite obj_get_set_array. now rewrite String.eqb_refl. Qed.

(** Looking a key up through a pile of conditional assignments. *)
Ltac peel_sets :=
  repeat first
    [ rewrite obj_get_set_array_same
    | rewrite obj_get_set_string_same
    | rewrite obj_get_set_array_other by (assumption || discriminate)
    | rewrite obj_get_set_string_other by (assumption || discriminate) ].

Ltac split_options :=
  repeat match goal with
         | |- context [match ?x with Some _ => _ | None => _ end] =>
             is_var x; destruct x
         | |- context [truthy_string ?v] => destruct (truthy_string v)
         end.

(** Either the key is [key], and both sides compute, or it is not. *)
Ltac by_key k key :=
  destruct (String.eqb_spec k key) as [->|?];
  [ peel_sets;
    unfold create_named_value, update_named_value, overlay, scalar_value,
      name_refs, option_map;
    cbn [String.eqb Ascii.eqb Bool.eqb obj_get];
    split_options; reflexivity
  | ].

Lemma obj_get_create_advanced_named projectKey summary issueType description
  priority assignee reporter labels components fixVersions affectsVersions k :
  obj_get k (create_advanced_named projectKey summary issueType description priority
               assignee reporter labels components fixVersions affectsVersions) =
  create_named_value projectKey summary issueType description priority assignee
    reporter labels components fixVersions affectsVersions k.
Proof.
  unfold create_advanced_named.
  by_key k "project". by_key k "summary". by_key k "issuetype".
  by_key k "description". by_key k "priority". by_key k "assignee".
  by_key k "reporter". by_key k "labels". by_key k "components".
  by_key k "fixVersions". by_key k "versions".
  peel_sets. unfold create_named_value. cbn [obj_get].
  repeat match goal with
         | |- context [String.eqb k ?key] =>
             destruct (String.eqb_spec k key); [contradiction|]
         end.
  reflexivity.
Qed.

Lemma obj_get_update_advanced_named summary description priority assignee labels
  components fixVersions affectsVersions k :
  obj_get k (update_advanced_named summary description priority assignee labels
               components fixVersions affectsVersions) =
  update_named_value summary description priority assignee labels components
    fixVersions affectsVersions k.
Proof.
  unfold update_advanced_named.
  by_key k "summary". by_key k "description". by_key k "priority".
  by_key k "assignee". by_key k "labels". by_key k "components".
  by_key k "fixVersions". by_key k "versions".
  peel_sets. unfold update_named_value. cbn [obj_get].
  repeat match goal with
         | |- context [String.eqb k ?key] =>
             destruct (String.eqb_spec k key); [contradiction|]
         end.
  reflexivity.
Qed.

Lemma obj_get_merge_custom customFields fields k :
  (forall cf, customFields = Some cf -> NoDup (keys cf)) ->
  obj_get k (merge_custom customFields fields) =
    overlay (custom_value customFields k) (obj_get k fields).
Proof.
  intros Hnd. destruct customFields as [cf|]; simpl; [|reflexivity].
  now apply obj_get_Object_assign, Hnd.
Qed.

Lemma parse_custom_fields_NoDup input customFields :
  _parse (z_optional z_record_unknown) input = inr customFields ->
  forall cf, customFields = Some cf -> NoDup (keys cf).
Proof.
  intros H cf ->. simpl in H.
  destruct input as [[| | | | |props]|]; try discriminate.
  inversion H. apply NoDup_record_entries.
Qed.

Lemma parse_create_advanced_custom args projectKey summary issueType description
  priority assignee reporter labels components fixVersions affectsVersions
  customFields :
  safeParse CreateIssueAdvancedSchema args =
    inr (projectKey, (summary, (issueType, (description, (priority, (assignee,
          (reporter, (labels, (components, (fixVersions, (affectsVersions,
          (customFields, tt)))))))))))) ->
  forall cf, customFields = Some cf -> NoDup (keys cf).
Proof.
  intros H. destruct args as [[| | | | |data]|]; try discriminate.
  unfold safeParse, CreateIssueAdvancedSchema in H. cbn [parse_shape] in H.
  do 11 (apply merge2_inr in H as [_ H]). apply merge2_inr in H as [H _].
  exact (parse_custom_fields_NoDup _ _ H).
Qed.

Lemma parse_update_advanced_custom args issueKey summary description priority
  assignee labels components fixVersions affectsVersions customFields :
  safeParse UpdateIssueAdvancedSchema args =
    inr (issueKey, (summary, (description, (priority, (assignee, (labels,
          (components, (fixVersions, (affectsVersions, (customFields, tt)))))))))) ->
  forall cf, customFields = Some cf -> NoDup (keys cf).
Proof.
  intros H. destruct args as [[| | | | |data]|]; try discriminate.
  unfold safeParse, UpdateIssueAdvancedSchema in H. cbn [parse_shape] in H.
  do 9 (apply merge2_inr in H as [_ H]). apply merge2_inr in H as [H _].
  exact (parse_custom_fields_NoDup _ _ H).
Qed.


(** ** What asynchronous code throws and sends *)

Section Behaviour.

Variable E : exn -> Prop.
Variable Q : HttpRequest -> Prop.

Lemma behaves_ret {A : Type} (a : A) : behaves E Q (ret a).
Proof. intros remote history. split; [discriminate | constructor]. Qed.

Lemma behaves_throw {A : Type} (e : exn) : E e -> behaves E Q (@throw A e).
Proof.
  intros He remote history. split; [|constructor].
  intros e' H. inversion H. now subst.
Qed.

Lemma behaves_bind {A B : Type} (m : M A) (f : A -> M B) :
  behaves E Q m -> (forall a, behaves E Q (f a)) -> behaves E Q (bind m f).
Proof.
  intros Hm Hf remote history. unfold bind.
  destruct (Hm remote history) as [Hm1 Hm2].
  destruct (m remote history) as [[e|a] sent1]; simpl in *.
  - split; [|exact Hm2]. intros e' He. inversion He; subst. now apply Hm1.
  - destruct (Hf a remote (history ++ sent1)%list) as [Hf1 Hf2].
    destruct (f a remote (history ++ sent1)%list) as [y sent2]; simpl in *.
    split; [exact Hf1 | apply Forall_app; now split].
Qed.

Lemma behaves_lift {A : Type} (s : Sync A) : sync_raises E s -> behaves E Q (lift s).
Proof.
  intros Hs. destruct s as [e|a]; simpl.
  - apply behaves_throw. now apply Hs.
  - apply behaves_ret.
Qed.

Lemma behaves_Promise_all {A : Type} (ps : list (M A)) :
  Forall (behaves E Q) ps -> behaves E Q (Promise_all ps).
Proof.
  induction 1 as [|p rest Hp Hrest IH]; simpl.
  - apply behaves_ret.
  - intros remote history.
    destruct (Hp remote history) as [Hp1 Hp2].
    destruct (p remote history) as [x sent1]; simpl in *.
    destruct (IH remote (history ++ sent1)%list) as [IH1 IH2].
    destruct (Promise_all rest remote (history ++ sent1)%list) as [xs sent2];
      simpl in *.
    split; [|apply Forall_app; now split].
    intros e He. destruct x as [e1|a].
    + inversion He; subst. now apply Hp1.
    + destruct xs as [e2|l]; [|discriminate].
      inversion He; subst. now apply IH1.
Qed.

Lemma behaves_Promise_all_map {A B : Type} (f : A -> M B) (xs : list A) :
  (forall x, behaves E Q (f x)) -> behaves E Q (Promise_all (map f xs)).
Proof.
  intros Hf. apply behaves_Promise_all, Forall_forall.
  intros p Hp. apply in_map_iff in Hp as (x & <- & _). apply Hf.
Qed.

Lemma sync_raises_inr {A : Type} (a : A) : sync_raises E (inr a).
Proof. intros e H. discriminate. Qed.

Lemma sync_raises_inl {A : Type} (e : exn) : E e -> sync_raises E (@inl exn A e).
Proof. intros He e' H. inversion H. now subst. Qed.

Lemma sync_raises_sbind {A B : Type} (s : Sync A) (f : A -> Sync B) :
  sync_raises E s -> (forall a, sync_raises E (f a)) -> sync_raises E (sbind s f).
Proof.
  intros Hs Hf. destruct s as [e|a]; simpl; [|apply Hf].
  intros e' He. inversion He; subst. now apply Hs.
Qed.

Lemma sync_raises_filter_sync (pred : json -> Sync bool) (xs : list json) :
  (forall x, sync_raises E (pred x)) -> sync_raises E (filter_sync pred xs).
Proof.
  intros Hp. induction xs as [|x rest IH]; simpl.
  - apply sync_raises_inr.
  - apply sync_raises_sbind; [apply Hp | intros keep].
    apply sync_raises_sbind; [exact IH | intros rest'; apply sync_raises_inr].
Qed.

Lemma sync_raises_map_sync {B : Type} (f : json -> Sync B) (xs : list json) :
  (forall x, sync_raises E (f x)) -> sync_raises E (map_sync f xs).
Proof.
  intros Hf. induction xs as [|x rest IH]; simpl.
  - apply sync_raises_inr.
  - apply sync_raises_sbind; [apply Hf | intros y].
    apply sync_raises_sbind; [exact IH | intros rest'; apply sync_raises_inr].
Qed.

End Behaviour.

Lemma behaves_weaken {A : Type} (E E' : exn -> Prop) (Q : HttpRequest -> Prop)
  (m : M A) :
  (forall e, E e -> E' e) -> behaves E Q m -> behaves E' Q m.
Proof.
  intros Hsub Hm remote history. destruct (Hm remote history) as [H1 H2].
  split; [|exact H2]. intros e He. now apply Hsub, H1.
Qed.

Lemma is_js_error_JsError msg : is_js_error (JsError msg).
Proof. now exists msg. Qed.

Lemma sync_raises_get_prop v key : sync_raises is_js_error (get_prop v key).
Proof.
  intros e H. destruct v; simpl in H;
    repeat match type of H with
           | (if ?c then _ else _) = _ => destruct c
           end;
    inversion H; apply is_js_error_JsError.
Qed.

Lemma sync_raises_array_receiver expr method recv :
  sync_raises is_js_error (array_receiver expr method recv).
Proof.
  intros e H. destruct recv as [[]|]; simpl in H; inversion H;
    apply is_js_error_JsError.
Qed.

Lemma sync_raises_call_toLowerCase expr recv :
  sync_raises is_js_error (call_toLowerCase expr recv).
Proof.
  intros e H. destruct recv as [[]|]; simpl in H; inversion H;
    apply is_js_error_JsError.
Qed.

Lemma sync_raises_ToString v : sync_raises is_js_error (ToString v).
Proof.
  revert v. fix IH 1. intros v e.
  destruct v as [| [|] | n | s | items | props]; simpl; try discriminate.
  - match goal with
    | |- match ?els items with _ => _ end = _ -> _ =>
        assert (Hel : forall e', els items = inl e' -> is_js_error e')
    end.
    { induction items as [|x rest IHrest]; intros e' He; [discriminate|].
      pose proof (IH x) as IHx. clear IH.
      assert (Hx : forall e0,
                 match x with JNull => inr "" | _ => ToString x end = inl e0 ->
                 is_js_error e0).
      { intros e0 H0. destruct x; try discriminate; exact (IHx e0 H0). }
      destruct (match x with JNull => inr "" | _ => ToString x end) as [e0|part].
      - inversion He; subst. now apply Hx.
      - match type of He with
        | match ?m with _ => _ end = _ => destruct m as [e1|parts] eqn:Hrest
        end; [|discriminate].
        inversion He; subst. now apply IHrest. }
    clear IH.
    match goal with
    | |- match ?m with _ => _ end = _ -> _ => destruct m as [e0|parts]
    end; intros H; inversion H; subst. now apply Hel.
  - clear IH. destruct (obj_get "toString" props); intros H; inversion H.
    apply is_js_error_JsError.
Qed.

Lemma sync_raises_ToString_opt v : sync_raises is_js_error (ToString_opt v).
Proof.
  destruct v as [v|]; [apply sync_raises_ToString | intros e H; discriminate].
Qed.

Lemma sync_raises_encodeURIComponent s :
  sync_raises is_js_error (encodeURIComponent s).
Proof.
  unfold encodeURIComponent. intros e H.
  destruct (has_lone_surrogate s); inversion H. apply is_js_error_JsError.
Qed.

Lemma behaves_request self endpoint options :
  behaves is_js_error (under_api self) (request self endpoint options).
Proof.
  intros remote history. rewrite request_run. simpl. split.
  - intros e He. destruct (remote history _) as [msg|response]; simpl in He.
    + inversion He. apply is_js_error_JsError.
    + destruct (negb (resp_ok response)); [inversion He; apply is_js_error_JsError|].
      destruct (resp_status response =? 204); [discriminate|].
      destruct (resp_json response); inversion He. apply is_js_error_JsError.
  - constructor; [|constructor]. now exists endpoint.
Qed.

Create HintDb behaviour.

#[local] Hint Resolve behaves_ret behaves_request behaves_lift
  behaves_Promise_all_map sync_raises_inr sync_raises_get_prop
  sync_raises_array_receiver sync_raises_call_toLowerCase
  sync_raises_ToString_opt sync_raises_encodeURIComponent
  sync_raises_filter_sync sync_raises_map_sync is_js_error_JsError : behaviour.

(** Goes through binds, one continuation at a time. *)
Ltac behaviour :=
  repeat match goal with
         | |- behaves _ _ (bind _ _) => apply behaves_bind; [|intros ?; cbv beta]
         | |- behaves _ _ (lift _) => apply behaves_lift
         | |- sync_raises _ (sbind _ _) =>
             apply sync_raises_sbind; [|intros ?; cbv beta]
         | |- _ => solve [auto with behaviour]
         end.

Lemma behaves_request_void self endpoint options :
  behaves is_js_error (under_api self) (request_void self endpoint options).
Proof. unfold request_void. behaviour. Qed.

#[local] Hint Resolve behaves_request_void : behaviour.

Lemma sync_raises_meta_field_of f : sync_raises is_js_error (meta_field_of f).
Proof. unfold meta_field_of. behaviour. Qed.

Lemma sync_raises_issue_type_named issueTypeName t :
  sync_raises is_js_error (issue_type_named issueTypeName t).
Proof. unfold issue_type_named. behaviour. Qed.

#[local] Hint Resolve sync_raises_meta_field_of sync_raises_issue_type_named
  : behaviour.

Lemma behaves_meta_issue_type_of self projectKey issueType :
  behaves is_js_error (under_api self) (meta_issue_type_of self projectKey issueType).
Proof. unfold meta_issue_type_of, getCreateMetaFields. behaviour. Qed.

#[local] Hint Resolve behaves_meta_issue_type_of : behaviour.

Lemma behaves_getCreateMeta self projectKey issueTypeName :
  behaves is_js_error (under_api self) (getCreateMeta self projectKey issueTypeName).
Proof.
  unfold getCreateMeta, getCreateMetaIssueTypes. behaviour.
  destruct issueTypeName as [n|]; [destruct (truthy_string n)|]; behaviour.
Qed.

#[local] Hint Resolve behaves_getCreateMeta : behaviour.

Lemma behaves_getFieldOptions self projectKey issueTypeName fieldKey :
  behaves is_js_error (under_api self)
    (getFieldOptions self projectKey issueTypeName fieldKey).
Proof.
  unfold getFieldOptions. behaviour.
  destruct (issueTypes _); behaviour.
Qed.

#[local] Hint Resolve behaves_getFieldOptions : behaviour.

(** ** The tool dispatcher *)

Lemma behaves_parse {A : Type} Q (schema : ZodObject A) args :
  behaves is_zod_or_js_error Q (parse schema args).
Proof.
  unfold parse. destruct (safeParse schema args) as [issues|a].
  - apply behaves_throw. left. now exists issues.
  - apply behaves_ret.
Qed.

Lemma is_js_error_zod_or_js e : is_js_error e -> is_zod_or_js_error e.
Proof. now right. Qed.

Lemma behaves_run_parse_then {A : Type} Q (schema : ZodObject A) body args :
  (forall a, behaves is_js_error Q (body a)) ->
  behaves is_zod_or_js_error Q (run_case (parse_then schema body) args).
Proof.
  intros Hbody. simpl. apply behaves_bind; [apply behaves_parse|].
  intros a. eapply behaves_weaken; [apply is_js_error_zod_or_js | apply Hbody].
Qed.

Lemma behaves_run_no_parse Q body args :
  behaves is_js_error Q body ->
  behaves is_zod_or_js_error Q (run_case (no_parse body) args).
Proof.
  intros Hbody. simpl.
  eapply behaves_weaken; [apply is_js_error_zod_or_js | apply Hbody].
Qed.

Ltac destruct_parsed :=
  repeat match goal with
         | p : (_ * _)%type |- _ => destruct p
         | u : unit |- _ => destruct u
         end.

Ltac unfold_client :=
  unfold getIssue, searchIssues, createIssue, updateIssue, deleteIssue,
    assignIssue, getComments, addComment, updateComment, deleteComment,
    getTransitions, transitionIssue, getProjects, getProject, searchUsers,
    getCurrentUser, linkIssues, addWatcher, removeWatcher, getPriorities,
    getStatuses, getCreateMetaIssueTypes, getCreateMetaFields, getEditMeta,
    getProjectVersions, getProjectComponents, getFields, getIssueLinkTypes,
    createIssueRaw, updateIssueRaw.

Ltac case_behaves :=
  first [ apply behaves_run_parse_then; intros ?; destruct_parsed; cbv beta iota zeta
        | apply behaves_run_no_parse ];
  unfold_client; behaviour.

(** Every case of the [switch] throws a [ZodError] or a run-time error,
    never an [McpError], and talks to the REST namespace only. *)
Lemma switch_case_behaves jiraClient name c args :
  switch jiraClient name = Some c ->
  behaves is_zod_or_js_error (under_api jiraClient) (run_case c args).
Proof.
  unfold switch.
  repeat match goal with
         | |- (if ?b then _ else _) = _ -> _ =>
             destruct b;
             [ let H := fresh "H" in
               intros H; inversion H; subst c; clear H;
               match goal with
               | |- behaves _ _ (run_case (?c _ _) _) => unfold c
               | |- behaves _ _ (run_case (?c _) _) => unfold c
               end;
               case_behaves
             | ]
         end.
  discriminate.
Qed.

Lemma switch_None jiraClient name :
  ~ In name tool_names -> switch jiraClient name = None.
Proof.
  intros Hout. unfold switch.
  repeat match goal with
         | |- context [String.eqb name ?s] =>
             destruct (String.eqb_spec name s) as [->|?];
             [ exfalso; apply Hout; unfold tool_names;
               repeat first [ left; reflexivity | right ]
             | ]
         end.
  reflexivity.
Qed.

Lemma switch_Some jiraClient name :
  In name tool_names -> exists c, switch jiraClient name = Some c.
Proof.
  unfold tool_names. intros H.
  repeat (destruct H as [<-|H]; [eexists; reflexivity|]).
  destruct H.
Qed.

(** A failed parse reports at least one issue. *)
Lemma merge2_issues {A B : Type} (a : ParseResult A) (b : ParseResult B) issues :
  merge2 a b = inl issues ->
  (forall i, a = inl i -> i <> []) ->
  (forall j, b = inl j -> j <> []) ->
  issues <> [].
Proof.
  intros H Ha Hb. destruct a as [i|x], b as [j|y]; simpl in H; inversion H; subst.
  - intros Hnil. apply app_eq_nil in Hnil as [Hi _]. now apply (Ha i).
  - now apply Ha.
  - now apply Hb.
Qed.

Lemma mergeArray_issues {A : Type} (rs : list (ParseResult A)) issues :
  mergeArray rs = inl issues ->
  Forall (fun r => forall i, r = inl i -> i <> []) rs ->
  issues <> [].
Proof.
  revert issues. induction rs as [|r rest IH]; simpl; intros issues H Hall.
  - discriminate.
  - inversion Hall as [|? ? Hr Hrest]; subst.
    destruct (merge2 r (mergeArray rest)) as [i|[x xs]] eqn:Hm; inversion H; subst.
    apply (merge2_issues _ _ _ Hm); [exact Hr|].
    intros j Hj. now apply (IH j).
Qed.

Lemma _parse_issues {A : Type} (t : ZodType A) input issues :
  _parse t input = inl issues -> issues <> [].
Proof.
  revert input issues.
  induction t as [| |A element IH| |A inner IH|A inner IH|A inner IH d];
    intros input issues H; simpl in H.
  - destruct input as [[]|]; inversion H; discriminate.
  - destruct input as [[]|]; inversion H; discriminate.
  - destruct input as [[| | | |items|]|]; try (inversion H; discriminate).
    apply (mergeArray_issues _ _ H), Forall_forall.
    intros r Hr i ->. apply in_map_iff in Hr as (item & Hitem & _).
    now apply (IH (Some item)).
  - destruct input as [[]|]; inversion H; discriminate.
  - destruct input as [v|]; [|discriminate].
    destruct (_parse inner (Some v)) as [i|x] eqn:Hi; inversion H; subst.
    now apply (IH (Some v)).
  - destruct input as [[]|];
      match type of H with
      | context [_parse inner ?v] =>
          destruct (_parse inner v) as [i|x] eqn:Hi; inversion H; subst;
          now apply (IH v)
      | _ => discriminate
      end.
  - destruct input as [v|]; [now apply (IH (Some v)) | now apply (IH (Some d))].
Qed.

Lemma parse_shape_issues {A : Type} (schema : ZodObject A) data issues :
  parse_shape schema data = inl issues -> issues <> [].
Proof.
  revert issues. induction schema as [|A B key t rest IH]; simpl; intros issues H.
  - discriminate.
  - apply (merge2_issues _ _ _ H); [|exact IH].
    intros i Hi. exact (_parse_issues _ _ _ Hi).
Qed.

Lemma safeParse_issues {A : Type} (schema : ZodObject A) args issues :
  safeParse schema args = inl issues -> issues <> [].
Proof.
  destruct args as [[| | | | |data]|]; simpl; intros H;
    try (inversion H; discriminate).
  exact (parse_shape_issues _ _ _ H).
Qed.

(** C4. When the schema of a tool rejects the argument bag, the handler
    throws one invalid-parameters error whose message joins the messages
    of all the violations found (there is at least one), and it sends no
    request at all. *)
Theorem invalid_arguments_reported_before_any_request
  jiraClient name args issues remote history :
  schema_violations jiraClient name args = Some issues ->
  CallTool_handler jiraClient name args remote history =
    (inl (McpError InvalidParams
            ("Invalid parameters: " ++ join ", " (map message issues))), [])
  /\ issues <> [].
Proof.
  unfold schema_violations. intros H.
  destruct (switch jiraClient name) as [[A schema body|body]|] eqn:Hcase;
    try discriminate.
  destruct (safeParse schema args) as [issues'|a] eqn:Hparse; inversion H; subst.
  split.
  - now rewrite (CallTool_invalid jiraClient name schema body args issues
                   remote history Hcase Hparse).
  - exact (safeParse_issues _ _ _ Hparse).
Qed.

(** C5. A name outside the registry yields the method-not-found error
    and no request; and a registered tool never yields that error: what it
    throws is an invalid-parameters error (validation) or an internal
    error (remote failures and anything else). *)
Theorem unknown_tool_is_method_not_found jiraClient name args remote history :
  ~ In name tool_names ->
  CallTool_handler jiraClient name args remote history =
    (inl (McpError MethodNotFound ("Unknown tool: " ++ name)), [])
  /\ forall name' args' remote' history' e,
       In name' tool_names ->
       outcome (CallTool_handler jiraClient name' args') remote' history' = inl e ->
       exists msg, e = McpError InvalidParams msg \/ e = McpError InternalError msg.
Proof.
  intros Hout. split.
  - unfold CallTool_handler. rewrite try_catch_tool_error_run.
    now rewrite (switch_None jiraClient name Hout).
  - intros name' args' remote' history' e Hin He.
    destruct (switch_Some jiraClient name' Hin) as [c Hc].
    unfold outcome, CallTool_handler in He.
    rewrite try_catch_tool_error_run, Hc in He. simpl in He.
    destruct (switch_case_behaves jiraClient name' c args' Hc remote' history')
      as [Hthrows _].
    destruct (fst (run_case c args' remote' history')) as [e0|r]; [|discriminate].
    inversion He; subst.
    destruct (Hthrows e0 eq_refl) as [[issues ->]|[msg ->]]; simpl; eauto.
Qed.

(** ** Resource enumeration *)

Lemma try_catch_ret_run {A : Type} (m : M A) (fallback : A) remote history :
  try_catch m (fun _ => ret fallback) remote history =
    (match fst (m remote history) with
     | inl _ => inr fallback
     | inr a => inr a
     end, snd (m remote history)).
Proof.
  unfold try_catch, ret. destruct (m remote history) as [[e|a] sent1]; simpl;
    [now rewrite app_nil_r | reflexivity].
Qed.

Lemma bind_run {A B : Type} (m : M A) (f : A -> M B) remote history :
  bind m f remote history =
    match fst (m remote history) with
    | inl e => (inl e, snd (m remote history))
    | inr a =>
        (fst (f a remote (history ++ snd (m remote history))%list),
         (snd (m remote history)
            ++ snd (f a remote (history ++ snd (m remote history))%list))%list)
    end.
Proof.
  unfold bind. destruct (m remote history) as [[e|a] sent1]; simpl; [reflexivity|].
  now destruct (f a remote (history ++ sent1)%list).
Qed.

(** C6. When the project lookup fails, or the current-user lookup that
    follows it fails, enumeration does not fail: it returns the list made
    of the single static configuration resource. *)
Theorem enumeration_degrades_to_config jiraClient remote history :
  (exists e, outcome (getProjects jiraClient) remote history = inl e) \/
  (exists e, outcome (getCurrentUser jiraClient) remote
               (history ++ sent (getProjects jiraClient) remote history)%list
             = inl e) ->
  outcome (ListResources_handler jiraClient) remote history =
    inr {| resources :=
             [ {| uri := "jira://config";
                  name := "Jira Configuration";
                  description := "Current Jira server configuration";
                  mimeType := "application/json" |} ] |}.
Proof.
  intros Hfail. unfold outcome, sent, ListResources_handler in *.
  rewrite try_catch_ret_run. simpl fst. rewrite bind_run.
  destruct (fst (getProjects jiraClient remote history)) as [e|projects];
    [reflexivity|].
  simpl fst. rewrite bind_run.
  destruct Hfail as [[e He]|[e He]]; [discriminate|].
  now rewrite He.
Qed.

(** Enumeration never throws, whatever the remote answers. *)
Lemma enumeration_never_fails jiraClient remote history :
  exists result, outcome (ListResources_handler jiraClient) remote history = inr result.
Proof.
  unfold outcome, ListResources_handler. rewrite try_catch_ret_run. simpl fst.
  destruct (fst _); eauto.
Qed.

(** ** Endpoint construction *)

Lemma append_slash_not_empty t : String.eqb (t ++ "/") "" = false.
Proof. destruct t; reflexivity. Qed.

Lemma replace_slash_at_end_stripped t : replace_slash_at_end (t ++ "/") = t.
Proof.
  induction t as [|c t IH]; simpl; [reflexivity|].
  rewrite append_slash_not_empty, Bool.andb_false_r. now rewrite IH.
Qed.

Lemma replace_slash_at_end_unchanged s :
  (forall t, s <> t ++ "/") -> replace_slash_at_end s = s.
Proof.
  induction s as [|c rest IH]; intros Hs; simpl; [reflexivity|].
  destruct (Ascii.eqb_spec c "/") as [->|Hc]; simpl.
  - destruct (String.eqb_spec rest "") as [->|Hrest].
    + exfalso. now apply (Hs "").
    + rewrite IH; [reflexivity|].
      intros t ->. now apply (Hs (String "/" t)).
  - rewrite IH; [reflexivity|].
    intros t ->. now apply (Hs (String c t)).
Qed.

Lemma CallTool_handler_under_api jiraClient name args remote history :
  Forall (under_api jiraClient)
    (sent (CallTool_handler jiraClient name args) remote history).
Proof.
  unfold sent, CallTool_handler. rewrite try_catch_tool_error_run. simpl snd.
  destruct (switch jiraClient name) as [c|] eqn:Hc; [|constructor].
  apply (switch_case_behaves jiraClient name c args Hc remote history).
Qed.

Lemma ListResources_handler_under_api jiraClient remote history :
  Forall (under_api jiraClient) (sent (ListResources_handler jiraClient) remote history).
Proof.
  unfold sent, ListResources_handler. rewrite try_catch_ret_run. simpl snd.
  assert (H : behaves (fun _ => True) (under_api jiraClient)
                (projects <- getProjects jiraClient ;;
                 currentUser <- getCurrentUser jiraClient ;;
                 resources <- lift (live_resources projects currentUser) ;;
                 ret {| resources := resources |})).
  { assert (Hreq : forall endpoint,
               behaves (fun _ => True) (under_api jiraClient)
                 (request jiraClient endpoint no_options))
      by (intros endpoint; eapply behaves_weaken;
          [|apply behaves_request]; now intros).
    unfold getProjects, getCurrentUser.
    apply behaves_bind; [apply Hreq | intros projects].
    apply behaves_bind; [apply Hreq | intros currentUser].
    apply behaves_bind; [|intros resources; apply behaves_ret].
    apply behaves_lift. now intros e _. }
  apply H.
Qed.

(** C9. The constructor stores the base URL with one trailing slash
    removed when there is one (whatever precedes that slash is kept, a
    further slash included) and unchanged otherwise; [request] fetches the
    stored base URL followed by [/rest/api/2] and the endpoint; and every
    request of the two handlers has that form. *)
Theorem endpoint_is_base_url_then_api_then_path :
  (forall config,
     (forall t, JiraTypes.baseUrl config = t ++ "/" ->
                baseUrl (constructor config) = t)
     /\ ((forall t, JiraTypes.baseUrl config <> t ++ "/") ->
         baseUrl (constructor config) = JiraTypes.baseUrl config))
  /\ (forall self endpoint options remote history,
        exists req,
          sent (request self endpoint options) remote history = [req]
          /\ req_url req = baseUrl self ++ "/rest/api/2" ++ endpoint)
  /\ (forall jiraClient name args remote history,
        Forall (fun req =>
                  exists path,
                    req_url req = baseUrl jiraClient ++ "/rest/api/2" ++ path)
               (sent (CallTool_handler jiraClient name args) remote history))
  /\ (forall jiraClient remote history,
        Forall (fun req =>
                  exists path,
                    req_url req = baseUrl jiraClient ++ "/rest/api/2" ++ path)
               (sent (ListResources_handler jiraClient) remote history)).
Proof.
  repeat split.
  - intros t Ht. simpl. rewrite Ht. apply replace_slash_at_end_stripped.
  - intros Ht. simpl. now apply replace_slash_at_end_unchanged.
  - intros self endpoint options remote history.
    exists (request_of self endpoint options). unfold sent.
    now rewrite request_run.
  - intros. apply CallTool_handler_under_api.
  - intros. apply ListResources_handler_under_api.
Qed.

Example base_url_loses_one_slash_only :
  baseUrl (constructor {| JiraTypes.baseUrl := "https://jira.example.com//";
                          JiraTypes.pat := "secret" |})
  = "https://jira.example.com/"
  /\ baseUrl (constructor {| JiraTypes.baseUrl := "https://jira.example.com";
                             JiraTypes.pat := "secret" |})
     = "https://jira.example.com".
Proof. split; reflexivity. Qed.

(** ** Field options *)

Lemma filter_sync_none_matches pred items kept :
  (forall t, In t items -> pred t <> inr true) ->
  filter_sync pred items = inr kept -> kept = [].
Proof.
  revert kept. induction items as [|t rest IH]; intros kept H Hf; simpl in Hf.
  - now inversion Hf.
  - pose proof (H t (or_introl eq_refl)) as Ht.
    destruct (pred t) as [e|[|]]; simpl in Hf; [discriminate|congruence|].
    destruct (filter_sync pred rest) as [e|rest'] eqn:Hrest; simpl in Hf;
      [discriminate|].
    inversion Hf; subst. apply IH; [|reflexivity].
    intros t' Ht'. apply H. now right.
Qed.

(** With a non-empty name that passes for no issue type, a [getCreateMeta]
    that succeeds has made the one request for the issue types and returns
    no issue type. *)
Lemma getCreateMeta_none_matches self projectKey issueTypeName remote history
  issueTypesResult items meta :
  issueTypeName <> "" ->
  outcome (getCreateMetaIssueTypes self projectKey) remote history =
    inr issueTypesResult ->
  get_prop issueTypesResult "values" = inr (Some (JArr items)) ->
  no_issue_type_matches issueTypeName items ->
  outcome (getCreateMeta self projectKey (Some issueTypeName)) remote history =
    inr meta ->
  getCreateMeta self projectKey (Some issueTypeName) remote history =
    (inr {| projectKey := projectKey; issueTypes := [] |},
     [ request_of self ("/issue/createmeta/" ++ projectKey ++ "/issuetypes")
         no_options ]).
Proof.
  intros Hname Htypes Hvalues Hnone Hmeta.
  unfold outcome, getCreateMetaIssueTypes in Htypes.
  rewrite request_run in Htypes. simpl in Htypes.
  unfold outcome in Hmeta. revert Hmeta.
  unfold getCreateMeta, getCreateMetaIssueTypes.
  rewrite bind_run, request_run. simpl fst. simpl snd. rewrite Htypes.
  rewrite Hvalues. simpl lift. rewrite bind_ret_l.
  unfold truthy_string. destruct (String.eqb_spec issueTypeName ""); [contradiction|].
  simpl negb. cbv iota. simpl array_receiver. simpl sbind.
  destruct (filter_sync (issue_type_named issueTypeName) items) as [e|kept] eqn:Hkept.
  - simpl. discriminate.
  - rewrite (filter_sync_none_matches _ _ _ Hnone Hkept). simpl. reflexivity.
Qed.

(** C7, as the code has it.  For a non-empty issue type name, when
    [getCreateMeta] succeeds and none of the issue types that the remote
    lists passes the filter on the name, [getFieldOptions] returns the
    empty list and does not throw; it has then made the one request for
    the issue types.  (An empty name applies no filter at all.)  The
    comparison of the names is the engine's: the statement holds for every
    [toLowerCase]. *)
Theorem field_options_empty_when_no_type_matches self projectKey issueTypeName
  fieldKey remote history issueTypesResult items meta :
  issueTypeName <> "" ->
  outcome (getCreateMetaIssueTypes self projectKey) remote history =
    inr issueTypesResult ->
  get_prop issueTypesResult "values" = inr (Some (JArr items)) ->
  no_issue_type_matches issueTypeName items ->
  outcome (getCreateMeta self projectKey (Some issueTypeName)) remote history =
    inr meta ->
  getFieldOptions self projectKey issueTypeName fieldKey remote history =
    (inr (JArr []),
     [ request_of self ("/issue/createmeta/" ++ projectKey ++ "/issuetypes")
         no_options ]).
Proof.
  intros Hname Htypes Hvalues Hnone Hmeta. unfold getFieldOptions.
  rewrite bind_run.
  rewrite (getCreateMeta_none_matches self projectKey issueTypeName remote history
             issueTypesResult items meta Hname Htypes Hvalues Hnone Hmeta).
  reflexivity.
Qed.

(* ================================================================== *)
(** * Further properties of the dispatcher *)
(* ================================================================== *)

(** ** The registry and the switch *)

(** X1. The tool list and the dispatcher agree: a name is advertised
    exactly when the [switch] has a case for it, and the 27 advertised
    names are pairwise distinct. *)
Theorem tool_registry_matches_dispatcher jiraClient :
  (forall name, In name tool_names <-> switch jiraClient name <> None)
  /\ NoDup tool_names
  /\ List.length tool_names = 27%nat.
Proof.
  split; [|split].
  - intros name. split.
    + intros Hin. destruct (switch_Some jiraClient name Hin) as [c ->]. discriminate.
    + intros Hcase. destruct (in_dec string_dec name tool_names) as [Hin|Hout];
        [exact Hin|].
      exfalso. apply Hcase. now apply switch_None.
  - unfold tool_names.
    repeat (constructor;
            [ simpl; intros H;
              repeat (destruct H as [H|H]; [discriminate H|]); exact H
            | ]).
    constructor.
  - reflexivity.
Qed.

(** ** Unknown argument keys *)

Lemma parse_shape_agree {A : Type} (schema : ZodObject A) data data' :
  (forall k, In k (shape_keys schema) -> obj_get k data = obj_get k data') ->
  parse_shape schema data = parse_shape schema data'.
Proof.
  induction schema as [|A B key t rest IH]; simpl; intros H; [reflexivity|].
  rewrite (H key (or_introl eq_refl)).
  rewrite IH by (intros k Hk; apply H; now right). reflexivity.
Qed.

(** X2. Argument keys that the schema of a tool does not name are
    ignored: setting such a key in the argument bag changes neither the
    outcome of the call nor the requests it makes. *)
Theorem unknown_argument_keys_are_ignored jiraClient name data k v remote history :
  ~ In k (tool_keys jiraClient name) ->
  CallTool_handler jiraClient name (Some (JObj (obj_set k v data))) remote history =
  CallTool_handler jiraClient name (Some (JObj data)) remote history.
Proof.
  unfold tool_keys, CallTool_handler. intros Hk.
  rewrite !try_catch_tool_error_run.
  destruct (switch jiraClient name) as [[A schema body|body]|]; try reflexivity.
  assert (Hparse : safeParse schema (Some (JObj (obj_set k v data))) =
                   safeParse schema (Some (JObj data))).
  { simpl. apply parse_shape_agree. intros k' Hk'.
    apply obj_get_set_other. intros ->. now apply Hk. }
  unfold run_case, parse. now rewrite Hparse.
Qed.

(** ** The form of every request *)

Lemma from_request_request_of self endpoint method body :
  from_request self
    (request_of self endpoint
       {| init_method := method; init_body := body; init_headers := [] |}).
Proof. now exists endpoint, method, body. Qed.

Lemma behaves_request_from self endpoint method body :
  behaves is_js_error (from_request self)
    (request self endpoint
       {| init_method := method; init_body := body; init_headers := [] |}).
Proof.
  intros remote history. split.
  - apply (behaves_request self endpoint _ remote history).
  - rewrite request_run. simpl. constructor; [|constructor].
    apply from_request_request_of.
Qed.

Lemma behaves_request_void_from self endpoint method body :
  behaves is_js_error (from_request self)
    (request_void self endpoint
       {| init_method := method; init_body := body; init_headers := [] |}).
Proof.
  unfold request_void. apply behaves_bind; [apply behaves_request_from|].
  intros a. apply behaves_ret.
Qed.

#[local] Hint Resolve behaves_request_from behaves_request_void_from : behaviour.

Lemma behaves_meta_issue_type_of_from self projectKey issueType :
  behaves is_js_error (from_request self)
    (meta_issue_type_of self projectKey issueType).
Proof.
  unfold meta_issue_type_of, getCreateMetaFields, no_options. behaviour.
Qed.

#[local] Hint Resolve behaves_meta_issue_type_of_from : behaviour.

Lemma behaves_getCreateMeta_from self projectKey issueTypeName :
  behaves is_js_error (from_request self)
    (getCreateMeta self projectKey issueTypeName).
Proof.
  unfold getCreateMeta, getCreateMetaIssueTypes, no_options. behaviour.
  destruct issueTypeName as [n|]; [destruct (truthy_string n)|]; behaviour.
Qed.

#[local] Hint Resolve behaves_getCreateMeta_from : behaviour.

Lemma behaves_getFieldOptions_from self projectKey issueTypeName fieldKey :
  behaves is_js_error (from_request self)
    (getFieldOptions self projectKey issueTypeName fieldKey).
Proof.
  unfold getFieldOptions. behaviour.
  destruct (issueTypes _); behaviour.
Qed.

#[local] Hint Resolve behaves_getFieldOptions_from : behaviour.

Ltac case_behaves_from :=
  first [ apply behaves_run_parse_then; intros ?; destruct_parsed; cbv beta iota zeta
        | apply behaves_run_no_parse ];
  unfold_client; unfold no_options, with_method, with_body; behaviour.

Lemma switch_case_from_request jiraClient name c args :
  switch jiraClient name = Some c ->
  behaves is_zod_or_js_error (from_request jiraClient) (run_case c args).
Proof.
  unfold switch.
  repeat match goal with
         | |- (if ?b then _ else _) = _ -> _ =>
             destruct b;
             [ let H := fresh "H" in
               intros H; inversion H; subst c; clear H;
               match goal with
               | |- behaves _ _ (run_case (?c _ _) _) => unfold c
               | |- behaves _ _ (run_case (?c _) _) => unfold c
               end;
               case_behaves_from
             | ]
         end.
  discriminate.
Qed.

Lemma CallTool_handler_from_request jiraClient name args remote history :
  Forall (from_request jiraClient)
    (sent (CallTool_handler jiraClient name args) remote history).
Proof.
  unfold sent, CallTool_handler. rewrite try_catch_tool_error_run. simpl snd.
  destruct (switch jiraClient name) as [c|] eqn:Hc; [|constructor].
  apply (switch_case_from_request jiraClient name c args Hc remote history).
Qed.

Lemma ListResources_handler_from_request jiraClient remote history :
  Forall (from_request jiraClient)
    (sent (ListResources_handler jiraClient) remote history).
Proof.
  unfold sent, ListResources_handler. rewrite try_catch_ret_run. simpl snd.
  assert (Hreq : forall endpoint,
             behaves (fun _ => True) (from_request jiraClient)
               (request jiraClient endpoint no_options))
    by (intros endpoint; eapply behaves_weaken;
        [|apply behaves_request_from]; now intros).
  assert (H : behaves (fun _ => True) (from_request jiraClient)
                (projects <- getProjects jiraClient ;;
                 currentUser <- getCurrentUser jiraClient ;;
                 resources <- lift (live_resources projects currentUser) ;;
                 ret {| resources := resources |})).
  { unfold getProjects, getCurrentUser.
    apply behaves_bind; [apply Hreq | intros projects].
    apply behaves_bind; [apply Hreq | intros currentUser].
    apply behaves_bind; [|intros resources; apply behaves_ret].
    apply behaves_lift. now intros e _. }
  apply H.
Qed.

(** ** Reading resources: what is thrown and what is sent *)

Section ReadingBehaviour.

Variable E : exn -> Prop.
Variable Q : HttpRequest -> Prop.

Lemma behaves_Promise_all2 {A B : Type} (p : M A) (q : M B) :
  behaves E Q p -> behaves E Q q -> behaves E Q (Reading.Promise_all2 p q).
Proof.
  intros Hp Hq remote history. unfold Reading.Promise_all2.
  destruct (Hp remote history) as [Hp1 Hp2].
  destruct (p remote history) as [x sent1]; simpl in *.
  destruct (Hq remote (history ++ sent1)%list) as [Hq1 Hq2].
  destruct (q remote (history ++ sent1)%list) as [y sent2]; simpl in *.
  split; [|apply Forall_app; now split].
  intros e He. destruct x as [e1|a].
  - inversion He; subst. now apply Hp1.
  - destruct y as [e2|b]; [|discriminate].
    inversion He; subst. now apply Hq1.
Qed.

Lemma behaves_Promise_all4 {A B C D : Type} (p1 : M A) (p2 : M B) (p3 : M C)
  (p4 : M D) :
  behaves E Q p1 -> behaves E Q p2 -> behaves E Q p3 -> behaves E Q p4 ->
  behaves E Q (Reading.Promise_all4 p1 p2 p3 p4).
Proof.
  intros. unfold Reading.Promise_all4. repeat apply behaves_Promise_all2; assumption.
Qed.

End ReadingBehaviour.

Lemma sync_raises_get_prop_of v key : sync_raises is_js_error (get_prop_of v key).
Proof.
  destruct v as [v|]; simpl; [apply sync_raises_get_prop|].
  apply sync_raises_inl, is_js_error_JsError.
Qed.

Lemma sync_raises_get_prop_optional v key :
  sync_raises is_js_error (get_prop_optional v key).
Proof.
  destruct v as [v|]; simpl; [|apply sync_raises_inr].
  destruct v; try apply sync_raises_inr; apply sync_raises_get_prop.
Qed.

#[local] Hint Resolve sync_raises_get_prop_of sync_raises_get_prop_optional
  behaves_Promise_all4 : behaviour.

Lemma sync_raises_project_summary p : sync_raises is_js_error (Reading.project_summary p).
Proof. unfold Reading.project_summary. behaviour. Qed.

Lemma sync_raises_issue_summary i : sync_raises is_js_error (Reading.issue_summary i).
Proof. unfold Reading.issue_summary. behaviour. Qed.

Lemma sync_raises_version_summary v : sync_raises is_js_error (Reading.version_summary v).
Proof. unfold Reading.version_summary. behaviour. Qed.

Lemma sync_raises_component_summary c :
  sync_raises is_js_error (Reading.component_summary c).
Proof. unfold Reading.component_summary. behaviour. Qed.

Lemma sync_raises_issue_type_summary t :
  sync_raises is_js_error (Reading.issue_type_summary t).
Proof. unfold Reading.issue_type_summary. behaviour. Qed.

#[local] Hint Resolve sync_raises_project_summary sync_raises_issue_summary
  sync_raises_version_summary sync_raises_component_summary
  sync_raises_issue_type_summary : behaviour.

Lemma sync_raises_grouped_fields fields :
  sync_raises is_js_error (Reading.grouped_fields fields).
Proof.
  unfold Reading.grouped_fields. behaviour;
    apply sync_raises_filter_sync; intros f; behaviour.
Qed.

Lemma sync_raises_my_issues_summary results :
  sync_raises is_js_error (Reading.my_issues_summary results).
Proof. unfold Reading.my_issues_summary. behaviour. Qed.

Lemma sync_raises_project_info project versions components issueTypes :
  sync_raises is_js_error
    (Reading.project_info project versions components issueTypes).
Proof. unfold Reading.project_info. behaviour. Qed.

#[local] Hint Resolve sync_raises_grouped_fields sync_raises_my_issues_summary
  sync_raises_project_info : behaviour.

(** What the [try] block of the resource reader throws and sends. *)
Lemma read_resource_behaves JIRA_BASE_URL jiraClient uri :
  behaves (fun e => is_js_error e \/
                    e = McpError InvalidRequest ("Unknown resource: " ++ uri))
          (from_request jiraClient)
          (Reading.read_resource JIRA_BASE_URL jiraClient uri).
Proof.
  unfold Reading.read_resource.
  repeat match goal with
         | |- behaves _ _ (if ?b then _ else _) =>
             destruct b;
             [ eapply behaves_weaken; [intros e He; left; exact He|];
               unfold_client; unfold no_options, with_method, with_body;
               behaviour
             | ]
         end.
  destruct (Reading.match_project_uri uri) as [projectKey|].
  - eapply behaves_weaken; [intros e He; left; exact He|].
    unfold_client; unfold no_options. behaviour.
    destruct_parsed. behaviour.
  - apply behaves_throw. now right.
Qed.

Lemma on_read_error_run uri error remote history :
  Reading.on_read_error uri error remote history = (inl (read_error uri error), []).
Proof. destruct error; reflexivity. Qed.

Lemma ReadResource_handler_run JIRA_BASE_URL jiraClient uri remote history :
  Reading.ReadResource_handler JIRA_BASE_URL jiraClient uri remote history =
    (match fst (Reading.read_resource JIRA_BASE_URL jiraClient uri remote history) with
     | inl e => inl (read_error uri e)
     | inr a => inr a
     end,
     snd (Reading.read_resource JIRA_BASE_URL jiraClient uri remote history)).
Proof.
  unfold Reading.ReadResource_handler, try_catch.
  destruct (Reading.read_resource _ _ _ _ _) as [[e|a] sent1]; simpl;
    [|reflexivity].
  rewrite on_read_error_run. now rewrite app_nil_r.
Qed.

Lemma ReadResource_handler_from_request JIRA_BASE_URL jiraClient uri remote history :
  Forall (from_request jiraClient)
    (sent (Reading.ReadResource_handler JIRA_BASE_URL jiraClient uri) remote history).
Proof.
  unfold sent. rewrite ReadResource_handler_run. simpl snd.
  apply (read_resource_behaves JIRA_BASE_URL jiraClient uri remote history).
Qed.

Lemma from_request_headers config req :
  from_request (constructor config) req -> req_headers req = configured_headers config.
Proof. intros (endpoint & method & body & ->). reflexivity. Qed.

(** X3. With a client built from the configuration, every request that a
    tool call, a resource enumeration or a resource read makes carries
    exactly the three configured headers: the bearer token, the JSON
    content type and the JSON accept header. *)
Theorem every_request_carries_the_configured_headers config :
  let jiraClient := constructor config in
  (forall name args remote history,
     Forall (fun req => req_headers req = configured_headers config)
       (sent (CallTool_handler jiraClient name args) remote history))
  /\ (forall remote history,
        Forall (fun req => req_headers req = configured_headers config)
          (sent (ListResources_handler jiraClient) remote history))
  /\ (forall uri remote history,
        Forall (fun req => req_headers req = configured_headers config)
          (sent (Reading.ReadResource_handler (JiraTypes.baseUrl config) jiraClient uri)
                remote history)).
Proof.
  intros jiraClient. repeat split; intros;
    eapply Forall_impl; try (intros req; apply from_request_headers).
  - apply CallTool_handler_from_request.
  - apply ListResources_handler_from_request.
  - apply ReadResource_handler_from_request.
Qed.

(** ** Replies *)

Lemma yields_ret {A : Type} (P : A -> Prop) (a : A) : P a -> yields P (ret a).
Proof. intros Ha remote history a' H. inversion H. now subst. Qed.

Lemma yields_bind {A B : Type} (P : B -> Prop) (m : M A) (f : A -> M B) :
  (forall a, yields P (f a)) -> yields P (bind m f).
Proof.
  intros Hf remote history b. unfold bind.
  destruct (m remote history) as [[e|a] sent1]; simpl; [discriminate|].
  specialize (Hf a remote (history ++ sent1)%list b).
  destruct (f a remote (history ++ sent1)%list) as [y sent2]; simpl in *.
  exact Hf.
Qed.

Lemma single_text_text_content t : single_text (text_content t).
Proof. now exists t. Qed.

Ltac case_yields :=
  unfold run_case;
  repeat match goal with
         | |- yields _ (bind _ _) => apply yields_bind; intros ?
         | |- yields _ (match ?p with _ => _ end) => destruct p
         | |- yields _ (ret _) =>
             apply yields_ret; unfold json_content; apply single_text_text_content
         end.

Lemma switch_case_yields jiraClient name c args :
  switch jiraClient name = Some c -> yields single_text (run_case c args).
Proof.
  unfold switch.
  repeat match goal with
         | |- (if ?b then _ else _) = _ -> _ =>
             destruct b;
             [ let H := fresh "H" in
               intros H; inversion H; subst c; clear H;
               match goal with
               | |- yields _ (run_case (?c _ _) _) => unfold c
               | |- yields _ (run_case (?c _) _) => unfold c
               end;
               case_yields
             | ]
         end.
  discriminate.
Qed.

(** X5. Whatever the tool, a call that returns replies with exactly one
    content block, of type [text]. *)
Theorem tool_reply_is_a_single_text_block jiraClient name args remote history reply :
  outcome (CallTool_handler jiraClient name args) remote history = inr reply ->
  exists t, content reply = [ {| type := "text"; text := t |} ].
Proof.
  unfold outcome, CallTool_handler. rewrite try_catch_tool_error_run. simpl fst.
  destruct (switch jiraClient name) as [c|] eqn:Hc; [|discriminate].
  pose proof (switch_case_yields jiraClient name c args Hc remote history) as Hy.
  destruct (fst (run_case c args remote history)) as [e|r]; [discriminate|].
  intros H. inversion H; subst. now apply Hy.
Qed.

(** ** An unavailable remote *)

Section Unavailable.

Variable remote : Remote.
Hypothesis Hremote : unavailable remote.

Lemma request_result_fails history req :
  request_result (remote history req) =
    inl (JsError (failure_message (remote history req))).
Proof.
  specialize (Hremote history req). unfold request_result, failure_message.
  destruct (remote history req) as [msg|response]; [reflexivity|].
  simpl in Hremote. now rewrite Hremote.
Qed.

Lemma stops_request self endpoint options history :
  stops_at_first_request (request self endpoint options) remote history.
Proof.
  exists (request_of self endpoint options).
  now rewrite request_run, request_result_fails.
Qed.

Lemma stops_bind {A B : Type} (m : M A) (f : A -> M B) history :
  stops_at_first_request m remote history ->
  stops_at_first_request (bind m f) remote history.
Proof.
  intros [req Hm]. exists req. unfold bind. now rewrite Hm.
Qed.

Lemma stops_request_void self endpoint options history :
  stops_at_first_request (request_void self endpoint options) remote history.
Proof. unfold request_void. apply stops_bind, stops_request. Qed.

Lemma stops_getCreateMeta self projectKey issueTypeName history :
  stops_at_first_request (getCreateMeta self projectKey issueTypeName) remote history.
Proof.
  unfold getCreateMeta, getCreateMetaIssueTypes. apply stops_bind, stops_request.
Qed.

Lemma stops_getFieldOptions self projectKey issueTypeName fieldKey history :
  stops_at_first_request (getFieldOptions self projectKey issueTypeName fieldKey)
    remote history.
Proof. unfold getFieldOptions. apply stops_bind, stops_getCreateMeta. Qed.

Ltac case_stops :=
  intros ?; destruct_parsed; cbv beta iota zeta;
  repeat match goal with
         | |- stops_at_first_request (bind _ _) _ _ => apply stops_bind
         end;
  first [ apply stops_getFieldOptions
        | apply stops_getCreateMeta
        | unfold_client;
          first [ apply stops_request | apply stops_request_void ] ].

(** A user name is encoded before anything is sent: the call stops at the
    request that follows, or at the encoding. *)
Lemma stops_after_encoding {A B : Type} (s : string) (f : string -> M A)
  (g : A -> M B) history :
  (forall encoded, stops_at_first_request (f encoded) remote history) ->
  stops_at_first_request (bind (bind (lift (encodeURIComponent s)) f) g)
    remote history
  \/ bind (bind (lift (encodeURIComponent s)) f) g remote history =
       (inl (JsError "URI malformed"), []).
Proof.
  intros Hf. unfold encodeURIComponent. destruct (has_lone_surrogate s).
  - right. reflexivity.
  - left. simpl lift. destruct (Hf (percent_encode s)) as [req Hrun].
    exists req. rewrite bind_run, bind_ret_l, Hrun. reflexivity.
Qed.

(** The body of every case but the one that encodes a user name stops at
    its first request. *)
Lemma switch_case_stops jiraClient name c history :
  name <> "jira_search_users" ->
  switch jiraClient name = Some c ->
  case_stops_at_first_request c remote history.
Proof.
  intros Hsearch. unfold switch.
  repeat match goal with
         | |- (if String.eqb name ?s then _ else _) = _ -> _ =>
             destruct (String.eqb_spec name s) as [Heq|_];
             [ first
                 [ exfalso; exact (Hsearch Heq)
                 | clear Heq;
                   let H := fresh "H" in
                   intros H; inversion H; subst c; clear H;
                   match goal with
                   | |- case_stops_at_first_request (?c _ _) _ _ =>
                       unfold c, case_stops_at_first_request
                   | |- case_stops_at_first_request (?c _) _ _ =>
                       unfold c, case_stops_at_first_request
                   end;
                   first [ case_stops
                         | repeat match goal with
                                  | |- stops_at_first_request (bind _ _) _ _ =>
                                      apply stops_bind
                                  end;
                           unfold_client; apply stops_request ] ]
             | ]
         end.
  discriminate.
Qed.

(** The case that encodes a user name. *)
Lemma search_users_stops jiraClient query history :
  let body := users <- searchUsers jiraClient query ;; ret (json_content users) in
  stops_at_first_request body remote history
  \/ body remote history = (inl (JsError "URI malformed"), []).
Proof.
  unfold searchUsers. apply stops_after_encoding. intros encoded. apply stops_request.
Qed.

End Unavailable.


(** ** Resource enumeration: requests and size *)

(** X9. Enumeration asks for the project list first and for the current
    user only when the project list came back: it makes one request when
    the project lookup fails and two otherwise, never more. *)
Theorem enumeration_requests jiraClient remote history :
  sent (ListResources_handler jiraClient) remote history =
    match outcome (getProjects jiraClient) remote history with
    | inl _ => [ request_of jiraClient "/project" no_options ]
    | inr _ => [ request_of jiraClient "/project" no_options;
                 request_of jiraClient "/myself" no_options ]
    end.
Proof.
  unfold sent, outcome, ListResources_handler.
  rewrite try_catch_ret_run. simpl snd. rewrite bind_run.
  unfold getProjects. rewrite request_run. simpl fst; simpl snd.
  match goal with
  | |- context [request_result ?o] =>
      destruct (request_result o) as [e|projects]; [reflexivity|]
  end.
  rewrite bind_run. unfold getCurrentUser. rewrite request_run. simpl fst; simpl snd.
  match goal with
  | |- context [request_result ?o] =>
      destruct (request_result o) as [e|currentUser]; [reflexivity|]
  end.
  rewrite bind_run.
  destruct (live_resources projects currentUser) as [e|rs]; reflexivity.
Qed.

Lemma Forall2_firstn {A B : Type} (R : A -> B -> Prop) n l l' :
  Forall2 R l l' -> Forall2 R (firstn n l) (firstn n l').
Proof.
  intros H. revert n. induction H as [|x y l l' Hxy H IH]; intros [|n]; simpl;
    constructor; auto.
Qed.

Lemma map_sync_project_resource objs projectKeys :
  Forall2 (fun o key => has_string "key" o key
                        /\ exists name, has_string "name" o name)
    objs projectKeys ->
  exists rs,
    map_sync project_resource (map JObj objs) = inr rs
    /\ map uri rs = map (fun key => "jira://project/" ++ key) projectKeys.
Proof.
  induction 1 as [|o key objs projectKeys [Hkey [name Hname]] _ [rs [Hrs Huris]]].
  - exists []. split; reflexivity.
  - unfold has_string in Hkey, Hname.
    cbn [map map_sync]. unfold project_resource at 1.
    cbn [get_prop sbind]. rewrite Hkey, Hname. cbn [ToString_opt ToString sbind].
    rewrite Hrs. cbn [sbind]. eexists. split; [reflexivity|].
    cbn [map uri json_resource]. now rewrite Huris.
Qed.

(** X8. When both lookups succeed, with a list of project objects whose
    keys and names are strings and a current user whose display name is a
    string, enumeration returns the seven fixed resources, then one
    resource per project for the first 20 projects only, in the order of
    the list, then the my-issues resource: 8 plus at most 20 entries. *)
Theorem enumeration_lists_the_first_20_projects jiraClient remote history projects
  projectKeys user displayName :
  outcome (getProjects jiraClient) remote history = inr (JArr (map JObj projects)) ->
  outcome (getCurrentUser jiraClient) remote
    (history ++ sent (getProjects jiraClient) remote history)%list = inr (JObj user) ->
  Forall2 (fun o key => has_string "key" o key
                        /\ exists name, has_string "name" o name)
    projects projectKeys ->
  has_string "displayName" user displayName ->
  exists listed,
    outcome (ListResources_handler jiraClient) remote history =
      inr {| resources := listed |}
    /\ map uri listed =
         ([ "jira://config"; "jira://current-user"; "jira://priorities";
            "jira://statuses"; "jira://fields"; "jira://link-types";
            "jira://projects" ]
          ++ map (fun key => ("jira://project/" ++ key)%string)
               (firstn 20 projectKeys)
          ++ [ "jira://my-issues" ])%list
    /\ List.length listed = (8 + Nat.min 20 (List.length projects))%nat.
Proof.
  intros Hprojects Huser Hkeys Hname.
  unfold outcome, sent, ListResources_handler in *.
  rewrite try_catch_ret_run. simpl fst. rewrite bind_run, Hprojects.
  simpl fst. rewrite bind_run, Huser. simpl fst. rewrite bind_run.
  destruct (map_sync_project_resource (firstn 20 projects) (firstn 20 projectKeys)
              (Forall2_firstn _ 20 _ _ Hkeys)) as [rs [Hrs Huris]].
  unfold live_resources.
  cbn [get_prop String.eqb Ascii.eqb Bool.eqb sbind first_20 ToString_opt ToString].
  rewrite firstn_map, Hrs. unfold has_string in Hname. rewrite Hname.
  cbn [sbind ToString_opt ToString lift ret fst].
  eexists. split; [reflexivity|].
  split.
  - rewrite !map_app, Huris. reflexivity.
  - rewrite <- (length_map uri), !map_app, Huris, !length_app, !length_map,
      length_firstn, <- (Forall2_length Hkeys).
    simpl. lia.
Qed.

(** ** Reading resources *)

Lemma after_prefix_spec p s r : Reading.after_prefix p s = Some r <-> s = p ++ r.
Proof.
  revert s. induction p as [|a p IH]; intros s; simpl.
  - split; [intros H; now inversion H | now intros ->].
  - destruct s as [|b s]; [split; discriminate|].
    destruct (Ascii.eqb_spec a b) as [->|Hne].
    + rewrite IH. split; [now intros -> | intros H; now inversion H].
    + split; [discriminate | intros H; inversion H; congruence].
Qed.

(** The project pattern recognises exactly the identifiers made of the
    prefix and a non-empty key of capital letters and digits. *)
Lemma match_project_uri_spec uri key :
  Reading.match_project_uri uri = Some key <->
  uri = "jira://project/" ++ key /\ key <> ""
  /\ Reading.all_chars Reading.upper_or_digit key = true.
Proof.
  unfold Reading.match_project_uri.
  destruct (Reading.after_prefix "jira://project/" uri) as [rest|] eqn:Hrest.
  - apply after_prefix_spec in Hrest. subst uri.
    destruct (String.eqb_spec rest "") as [->|Hne]; simpl.
    + split; [discriminate|]. intros (H & Hkey & _). simpl in H.
      inversion H. now subst.
    + destruct (Reading.all_chars Reading.upper_or_digit rest) eqn:Hall.
      * split.
        -- intros H. inversion H; subst. auto.
        -- intros (H & _ & _). simpl in H. inversion H. reflexivity.
      * split; [discriminate|]. intros (H & _ & Hk). simpl in H.
        inversion H; subst. congruence.
  - split; [discriminate|]. intros (H & _ & _).
    assert (Hsome : Reading.after_prefix "jira://project/" uri = Some key)
      by now apply after_prefix_spec.
    congruence.
Qed.

Lemma Promise_all2_run {A B : Type} (p : M A) (q : M B) remote history :
  Reading.Promise_all2 p q remote history =
    (match fst (p remote history),
           fst (q remote (history ++ snd (p remote history))%list) with
     | inl e, _ => inl e
     | inr _, inl e => inl e
     | inr a, inr b => inr (a, b)
     end,
     (snd (p remote history)
        ++ snd (q remote (history ++ snd (p remote history))%list))%list).
Proof.
  unfold Reading.Promise_all2.
  destruct (p remote history) as [x sent1]; simpl.
  now destruct (q remote (history ++ sent1)%list) as [y sent2].
Qed.

(** The four requests of a project resource. *)
Lemma project_requests_run jiraClient projectKey remote history :
  snd (Reading.Promise_all4 (getProject jiraClient projectKey)
         (getProjectVersions jiraClient projectKey)
         (getProjectComponents jiraClient projectKey)
         (getCreateMetaIssueTypes jiraClient projectKey) remote history) =
    [ request_of jiraClient ("/project/" ++ projectKey) no_options;
      request_of jiraClient ("/project/" ++ projectKey ++ "/versions") no_options;
      request_of jiraClient ("/project/" ++ projectKey ++ "/components") no_options;
      request_of jiraClient ("/issue/createmeta/" ++ projectKey ++ "/issuetypes")
        no_options ].
Proof.
  unfold Reading.Promise_all4, getProject, getProjectVersions, getProjectComponents,
    getCreateMetaIssueTypes.
  rewrite !Promise_all2_run, !request_run. reflexivity.
Qed.

(** X15. Reading [jira://project/KEY], for a non-empty key of capital
    letters and digits, always makes the same four requests in the same
    order (project, versions, components, creatable issue types): all four
    are issued whatever the answers to the earlier ones. *)
Theorem project_resource_makes_four_requests JIRA_BASE_URL jiraClient key remote
  history :
  key <> "" ->
  Reading.all_chars Reading.upper_or_digit key = true ->
  sent (Reading.ReadResource_handler JIRA_BASE_URL jiraClient
          ("jira://project/" ++ key)) remote history =
    [ request_of jiraClient ("/project/" ++ key) no_options;
      request_of jiraClient ("/project/" ++ key ++ "/versions") no_options;
      request_of jiraClient ("/project/" ++ key ++ "/components") no_options;
      request_of jiraClient ("/issue/createmeta/" ++ key ++ "/issuetypes")
        no_options ].
Proof.
  intros Hkey Hchars. unfold sent. rewrite ReadResource_handler_run. cbn [snd].
  assert (Hmatch : Reading.match_project_uri ("jira://project/" ++ key) = Some key)
    by (apply match_project_uri_spec; auto).
  unfold Reading.read_resource.
  change (String.eqb ("jira://project/" ++ key) "jira://config") with false.
  change (String.eqb ("jira://project/" ++ key) "jira://current-user") with false.
  change (String.eqb ("jira://project/" ++ key) "jira://priorities") with false.
  change (String.eqb ("jira://project/" ++ key) "jira://statuses") with false.
  change (String.eqb ("jira://project/" ++ key) "jira://fields") with false.
  change (String.eqb ("jira://project/" ++ key) "jira://link-types") with false.
  change (String.eqb ("jira://project/" ++ key) "jira://projects") with false.
  change (String.eqb ("jira://project/" ++ key) "jira://my-issues") with false.
  cbv iota. rewrite Hmatch.
  rewrite bind_run.
  rewrite project_requests_run.
  destruct (fst _) as [e|[project [versions [components issueTypes]]]]; [reflexivity|].
  cbn [snd]. rewrite bind_run.
  destruct (Reading.project_info project versions components issueTypes);
    reflexivity.
Qed.

Lemma sent_bind_request_nonempty {B : Type} self endpoint options (f : json -> M B)
  remote history :
  snd (bind (request self endpoint options) f remote history) <> [].
Proof.
  rewrite bind_run, request_run. cbn [fst snd].
  destruct (request_result _); discriminate.
Qed.

(** X13. An identifier that is none of the eight fixed ones and not a
    project identifier (prefix, then a non-empty key of capital letters
    and digits) is refused with the invalid-request error naming it, and
    no request is made; a lower-case project key is such an identifier. *)
Theorem unknown_resource_is_refused JIRA_BASE_URL jiraClient uri remote history :
  ~ In uri fixed_resource_uris ->
  (forall key, uri = "jira://project/" ++ key ->
               key = "" \/ Reading.all_chars Reading.upper_or_digit key = false) ->
  Reading.ReadResource_handler JIRA_BASE_URL jiraClient uri remote history =
    (inl (McpError InvalidRequest ("Unknown resource: " ++ uri)), []).
Proof.
  intros Hfixed Hkey. rewrite ReadResource_handler_run.
  assert (Hnone : Reading.match_project_uri uri = None).
  { destruct (Reading.match_project_uri uri) as [key|] eqn:Hm; [|reflexivity].
    apply match_project_uri_spec in Hm as (Huri & Hne & Hall).
    destruct (Hkey key Huri); congruence. }
  unfold Reading.read_resource.
  repeat match goal with
         | |- context [String.eqb uri ?s] =>
             destruct (String.eqb_spec uri s) as [->|?];
             [ exfalso; apply Hfixed; unfold fixed_resource_uris;
               repeat first [ left; reflexivity | right ]
             | ]
         end.
  now rewrite Hnone.
Qed.

(** X14. The configuration resource is the only recognised resource that
    is served without the remote: a read makes no request exactly when the
    identifier is [jira://config] or is not recognised at all. *)
Theorem only_the_configuration_is_served_locally JIRA_BASE_URL jiraClient uri remote
  history :
  sent (Reading.ReadResource_handler JIRA_BASE_URL jiraClient uri) remote history = []
  <-> uri = "jira://config"
      \/ (~ In uri fixed_resource_uris /\ Reading.match_project_uri uri = None).
Proof.
  unfold sent. rewrite ReadResource_handler_run. cbn [snd].
  unfold Reading.read_resource.
  destruct (String.eqb_spec uri "jira://config") as [->|Hconfig];
    [split; [now left | reflexivity]|].
  repeat match goal with
         | |- context [String.eqb uri ?s] =>
             destruct (String.eqb_spec uri s) as [->|?];
             [ unfold_client; split;
               [ intros H; exfalso; revert H; apply sent_bind_request_nonempty
               | intros [H|[H _]]; [discriminate H|];
                 exfalso; apply H; unfold fixed_resource_uris;
                 repeat first [ left; reflexivity | right ] ]
             | ]
         end.
  destruct (Reading.match_project_uri uri) as [key|] eqn:Hm.
  - split.
    + rewrite bind_run, project_requests_run.
      destruct (fst _); discriminate.
    + intros [H|[_ H]]; [contradiction | discriminate H].
  - split; [|reflexivity]. intros _. right. split; [|reflexivity].
    unfold fixed_resource_uris. simpl. intuition.
Qed.

(** The reply of the [try] block, when there is one. *)
Lemma read_resource_yields JIRA_BASE_URL jiraClient uri :
  yields (fun r => exists t,
            Reading.contents r =
              [ {| Reading.uri := uri; Reading.mimeType := "application/json";
                   Reading.text := t |} ])
         (Reading.read_resource JIRA_BASE_URL jiraClient uri).
Proof.
  unfold Reading.read_resource.
  repeat match goal with
         | |- yields _ (if ?b then _ else _) => destruct b
         | |- yields _ (match Reading.match_project_uri ?u with _ => _ end) =>
             destruct (Reading.match_project_uri u)
         | |- yields _ (bind _ _) => apply yields_bind; intros ?
         | |- yields _ (match ?p with _ => _ end) => destruct p
         | |- yields _ (ret _) =>
             apply yields_ret; unfold Reading.json_contents; eexists; reflexivity
         end.
  intros remote history a H. discriminate H.
Qed.

(** X16. A resource read never lets a raw exception through: what it
    throws is the invalid-request error for an unknown identifier, or an
    internal error whose message names the identifier; and a read that
    returns replies with exactly one JSON content entry bearing the
    requested identifier. *)
Theorem resource_read_outcomes JIRA_BASE_URL jiraClient uri remote history :
  (forall e,
     outcome (Reading.ReadResource_handler JIRA_BASE_URL jiraClient uri)
       remote history = inl e ->
     e = McpError InvalidRequest ("Unknown resource: " ++ uri)
     \/ exists msg,
          e = McpError InternalError
                ("Error reading resource " ++ uri ++ ": " ++ msg))
  /\ (forall r,
        outcome (Reading.ReadResource_handler JIRA_BASE_URL jiraClient uri)
          remote history = inr r ->
        exists t,
          Reading.contents r =
            [ {| Reading.uri := uri; Reading.mimeType := "application/json";
                 Reading.text := t |} ]).
Proof.
  unfold outcome. rewrite ReadResource_handler_run. cbn [fst].
  pose proof (read_resource_behaves JIRA_BASE_URL jiraClient uri remote history)
    as [Hthrows _].
  pose proof (read_resource_yields JIRA_BASE_URL jiraClient uri remote history)
    as Hyields.
  destruct (fst (Reading.read_resource JIRA_BASE_URL jiraClient uri remote history))
    as [e0|r0]; split; intros x Hx; inversion Hx; subst.
  - destruct (Hthrows e0 eq_refl) as [[msg ->]| ->]; simpl; eauto.
  - now apply Hyields.
Qed.

(** ** Search *)

Lemma parse_strings_round_trip xs :
  _parse (z_array z_string) (Some (strings xs)) = inr xs.
Proof.
  unfold strings. cbn [_parse].
  induction xs as [|x rest IH]; [reflexivity|].
  cbn [map mergeArray]. rewrite IH. reflexivity.
Qed.

Lemma parse_optional_strings xs :
  _parse (z_optional (z_array z_string)) (option_map strings xs) = inr xs.
Proof.
  destruct xs as [xs|]; [|reflexivity].
  change (_parse (z_optional (z_array z_string)) (option_map strings (Some xs)))
    with (match _parse (z_array z_string) (Some (strings xs)) with
          | inl i => inl i
          | inr x => inr (Some x)
          end).
  now rewrite parse_strings_round_trip.
Qed.

(** X6. A search call sends one POST to [/search] whose body carries the
    query, the window and the field list; a window bound that the caller
    leaves out is sent as 0 (start) or 50 (size), and a field list left
    out is sent as the twelve default fields.  A bound that the caller
    gives is taken to be an integer of the safe range. *)
Theorem search_fills_in_the_defaults jiraClient data jql startAt maxResults fields
  remote history :
  obj_get "jql" data = Some (JStr jql) ->
  obj_get "startAt" data = option_map JNum startAt ->
  obj_get "maxResults" data = option_map JNum maxResults ->
  obj_get "fields" data = option_map (fun l => JArr (map JStr l)) fields ->
  (forall n, startAt = Some n -> isSafeInteger n = true) ->
  (forall n, maxResults = Some n -> isSafeInteger n = true) ->
  exists req,
    sent (CallTool_handler jiraClient "jira_search_issues" (Some (JObj data)))
         remote history = [req]
    /\ req_url req = baseUrl jiraClient ++ "/rest/api/2/search"
    /\ req_method req = Some "POST"
    /\ req_body req =
         Some (JSON_stringify
                 (JObj [ ("jql", JStr jql);
                         ("startAt",
                          JNum (match startAt with Some n => n | None => 0 end));
                         ("maxResults",
                          JNum (match maxResults with Some n => n | None => 50 end));
                         ("fields",
                          JArr (map JStr
                                  (match fields with
                                   | Some l => l
                                   | None =>
                                       [ "summary"; "status"; "assignee";
                                         "reporter"; "priority"; "created";
                                         "updated"; "issuetype"; "project";
                                         "description"; "labels"; "components" ]
                                   end))) ])).
Proof.
  intros Hjql Hstart Hmax Hfields _ _. unfold sent.
  erewrite CallTool_parsed
    with (a := (jql, (Some (match startAt with Some n => n | None => 0 end),
                (Some (match maxResults with Some n => n | None => 50 end),
                 (fields, tt)))));
    [ | reflexivity
      | unfold safeParse, SearchIssuesSchema; cbn [parse_shape];
        rewrite Hjql, Hstart, Hmax, Hfields;
        change (option_map (fun l => JArr (map JStr l)) fields)
          with (option_map strings fields);
        rewrite parse_optional_strings;
        destruct startAt, maxResults; reflexivity ].
  cbv beta iota. rewrite bind_ret_run. cbn [snd].
  unfold searchIssues. rewrite request_run. cbn [snd].
  eexists. split; [reflexivity|].
  destruct fields; repeat split; reflexivity.
Qed.

(** ** User names in query strings *)

Lemma encoded_char_is_safe_bool c :
  forallb (fun x => (uri_unreserved x || Ascii.eqb x "%")%bool)
    (list_ascii_of_string
       (if uri_unreserved c then String c EmptyString
        else "%" ++ HEX_digit (nat_of_ascii c / 16)
                 ++ HEX_digit (nat_of_ascii c mod 16))) = true.
Proof. destruct c as [[] [] [] [] [] [] [] []]; vm_compute; reflexivity. Qed.

Lemma encoded_char_is_safe c :
  Forall (fun x => uri_unreserved x = true \/ x = "%"%char)
    (list_ascii_of_string
       (if uri_unreserved c then String c EmptyString
        else "%" ++ HEX_digit (nat_of_ascii c / 16)
                 ++ HEX_digit (nat_of_ascii c mod 16))).
Proof.
  apply Forall_forall. intros x Hx.
  pose proof (encoded_char_is_safe_bool c) as H.
  rewrite forallb_forall in H. specialize (H x Hx).
  apply Bool.orb_true_iff in H as [H|H]; [now left | right].
  now apply Ascii.eqb_eq.
Qed.

Lemma list_ascii_of_string_app s t :
  list_ascii_of_string (s ++ t) =
    (list_ascii_of_string s ++ list_ascii_of_string t)%list.
Proof. induction s as [|c s IH]; simpl; [reflexivity | now rewrite IH]. Qed.

Lemma percent_encode_is_safe s :
  Forall (fun x => uri_unreserved x = true \/ x = "%"%char)
    (list_ascii_of_string (percent_encode s)).
Proof.
  induction s as [|c rest IH]; [constructor|].
  cbn [percent_encode]. rewrite list_ascii_of_string_app.
  apply Forall_app. split; [apply encoded_char_is_safe | exact IH].
Qed.

Lemma percent_encode_unreserved s :
  Forall (fun x => uri_unreserved x = true) (list_ascii_of_string s) ->
  percent_encode s = s.
Proof.
  induction s as [|c rest IH]; intros H; [reflexivity|].
  simpl in H. inversion H as [|? ? Hc Hrest]; subst.
  cbn [percent_encode]. rewrite Hc, IH by assumption. reflexivity.
Qed.

(** X7. The user search and the watcher removal put the user name in the
    query string percent-encoded.  For a name without an unpaired
    surrogate each makes its one request, and what follows [username=] is
    made of unreserved characters and percent signs only (no ampersand,
    equals sign, slash, question mark, hash or blank can come from the
    name); a name made of unreserved characters is sent as it is.  For a
    name with an unpaired surrogate both throw the [URIError] and send
    nothing. *)
Theorem user_names_are_percent_encoded jiraClient issueKey username remote history :
  (has_lone_surrogate username = false ->
   exists q,
     sent (searchUsers jiraClient username) remote history =
       [ {| req_url := baseUrl jiraClient ++ "/rest/api/2/user/search?username=" ++ q;
            req_method := None;
            req_headers := spread [headers jiraClient; []];
            req_body := None |} ]
     /\ sent (removeWatcher jiraClient issueKey username) remote history =
          [ {| req_url := baseUrl jiraClient ++ "/rest/api/2/issue/" ++ issueKey
                            ++ "/watchers?username=" ++ q;
               req_method := Some "DELETE";
               req_headers := spread [headers jiraClient; []];
               req_body := None |} ]
     /\ Forall (fun c => uri_unreserved c = true \/ c = "%"%char)
          (list_ascii_of_string q)
     /\ (Forall (fun c => uri_unreserved c = true) (list_ascii_of_string username) ->
         q = username))
  /\ (has_lone_surrogate username = true ->
      searchUsers jiraClient username remote history =
        (inl (JsError "URI malformed"), [])
      /\ removeWatcher jiraClient issueKey username remote history =
           (inl (JsError "URI malformed"), [])).
Proof.
  unfold sent, searchUsers, removeWatcher, encodeURIComponent.
  split; intros Hwf; rewrite Hwf; cbn [lift].
  - exists (percent_encode username).
    rewrite !bind_ret_l, request_run, request_void_run. cbn [snd].
    split; [reflexivity|]. split; [reflexivity|]. split.
    + apply percent_encode_is_safe.
    + apply percent_encode_unreserved.
  - split; reflexivity.
Qed.

(** ** Create metadata: the requests *)

Lemma meta_issue_type_of_sent self projectKey o id remote history :
  has_string "id" o id ->
  snd (meta_issue_type_of self projectKey (JObj o) remote history) =
    [ fields_request self projectKey id ].
Proof.
  unfold has_string. intros Hid.
  unfold meta_issue_type_of. cbn [get_prop lift]. rewrite bind_ret_l.
  rewrite bind_run. unfold getCreateMetaFields. rewrite Hid.
  cbn [ToString_opt ToString lift]. rewrite bind_ret_l.
  rewrite request_run. cbn [fst snd].
  destruct (request_result _) as [e|fieldsResult]; [reflexivity|].
  match goal with
  | |- context [lift ?s] => destruct s
  end; reflexivity.
Qed.

Lemma Promise_all_meta_sent self projectKey objs ids remote history :
  Forall2 (has_string "id") objs ids ->
  snd (Promise_all (map (meta_issue_type_of self projectKey) (map JObj objs))
         remote history) =
    map (fields_request self projectKey) ids.
Proof.
  intros Hids. revert history.
  induction Hids as [|o id objs ids Hid _ IH]; intros history; [reflexivity|].
  cbn [map Promise_all].
  pose proof (meta_issue_type_of_sent self projectKey o id remote history Hid)
    as Hone.
  destruct (meta_issue_type_of self projectKey (JObj o) remote history)
    as [x sent1]. cbn [snd] in Hone. subst sent1.
  specialize (IH (history ++ [fields_request self projectKey id])%list).
  destruct (Promise_all _ remote _) as [xs sent2]. cbn [snd] in *.
  now rewrite IH.
Qed.

(** X10. Once the issue types of the project have come back and the
    selection (by name, or all of them) has kept a list of issue type
    objects whose identifiers are strings, [getCreateMeta] asks for the
    fields of every kept issue type, one request each in the order of the
    list, whatever the remote answers to these requests: a failure of one
    does not hold back the others.  The selection by name is the
    engine's: the statement holds for every [toLowerCase]. *)
Theorem create_meta_asks_for_every_selected_type self projectKey issueTypeName
  remote history issueTypesResult items selected ids :
  outcome (getCreateMetaIssueTypes self projectKey) remote history =
    inr issueTypesResult ->
  get_prop issueTypesResult "values" = inr (Some (JArr items)) ->
  selected_issue_types issueTypeName items = inr (map JObj selected) ->
  Forall2 (has_string "id") selected ids ->
  sent (getCreateMeta self projectKey issueTypeName) remote history =
    request_of self ("/issue/createmeta/" ++ projectKey ++ "/issuetypes") no_options
      :: map (fun id =>
                request_of self
                  ("/issue/createmeta/" ++ projectKey ++ "/issuetypes/" ++ id
                     ++ "?maxResults=100")
                  no_options) ids.
Proof.
  intros Htypes Hvalues Hselected Hids.
  change (map (fun id =>
                 request_of self
                   ("/issue/createmeta/" ++ projectKey ++ "/issuetypes/" ++ id
                      ++ "?maxResults=100")
                   no_options) ids)
    with (map (fields_request self projectKey) ids).
  unfold outcome, getCreateMetaIssueTypes in Htypes.
  rewrite request_run in Htypes. cbn [fst] in Htypes.
  unfold sent, getCreateMeta, getCreateMetaIssueTypes.
  rewrite bind_run, request_run. cbn [fst snd]. rewrite Htypes.
  rewrite Hvalues. cbn [lift]. rewrite bind_ret_l.
  unfold selected_issue_types in Hselected.
  assert (Hfiltered :
            match issueTypeName with
            | Some issueTypeName =>
                if truthy_string issueTypeName
                then
                  items0 <~ array_receiver "issueTypes" "filter" (Some (JArr items)) ;;
                  kept <~ filter_sync (issue_type_named issueTypeName) items0 ;;
                  inr (Some (JArr kept))
                else inr (Some (JArr items))
            | None => inr (Some (JArr items))
            end = inr (Some (JArr (map JObj selected)))).
  { destruct issueTypeName as [n|]; [destruct (truthy_string n)|];
      cbn [array_receiver sbind]; try rewrite Hselected; cbn [sbind];
      try reflexivity; now inversion Hselected. }
  rewrite Hfiltered. cbn [lift]. rewrite bind_ret_l.
  cbn [array_receiver lift]. rewrite bind_ret_l.
  rewrite bind_run, (Promise_all_meta_sent _ _ _ ids) by exact Hids.
  match goal with
  | |- context [fst (Promise_all ?ps ?r ?h)] => destruct (fst (Promise_all ps r h))
  end; cbn [snd ret app]; [reflexivity | now rewrite app_nil_r].
Qed.

(** ** Field options *)

(** X11. [getFieldOptions] adds nothing to [getCreateMeta] on the wire
    and fails only when it fails; when it returns, its result is never a
    falsy value, and it is the empty list when the first issue type has no
    field with the key asked for (or there is no issue type). *)
Theorem field_options_follow_create_meta self projectKey issueTypeName fieldKey
  remote history :
  sent (getFieldOptions self projectKey issueTypeName fieldKey) remote history =
    sent (getCreateMeta self projectKey (Some issueTypeName)) remote history
  /\ match outcome (getCreateMeta self projectKey (Some issueTypeName)) remote history
     with
     | inl e =>
         outcome (getFieldOptions self projectKey issueTypeName fieldKey)
           remote history = inl e
     | inr meta =>
         exists options,
           outcome (getFieldOptions self projectKey issueTypeName fieldKey)
             remote history = inr options
           /\ truthy options = true
           /\ ((forall t, hd_error (issueTypes meta) = Some t ->
                          Forall (fun f => fieldId f <> Some (JStr fieldKey))
                                 (fields t)) ->
               options = JArr [])
     end.
Proof.
  unfold sent, outcome, getFieldOptions. rewrite bind_run.
  destruct (getCreateMeta self projectKey (Some issueTypeName) remote history)
    as [[e|meta] sent1]; cbn [fst snd]; [split; reflexivity|].
  destruct (issueTypes meta) as [|t rest] eqn:Htypes; cbn [fst snd ret].
  - split; [now rewrite app_nil_r|]. exists (JArr []). repeat split.
  - split; [now rewrite app_nil_r|].
    destruct (find (fun f => strict_eq_string (fieldId f) fieldKey) (fields t))
      as [f|] eqn:Hfind.
    + assert (Hhit : fieldId f = Some (JStr fieldKey)).
      { apply find_some in Hfind as [_ Heq]. unfold strict_eq_string in Heq.
        destruct (fieldId f) as [[]|]; try discriminate.
        apply String.eqb_eq in Heq. now subst. }
      assert (Hin : In f (fields t)) by (apply find_some in Hfind; tauto).
      destruct (allowedValues f) as [v|] eqn:Hv.
      * destruct (truthy v) eqn:Htruthy.
        -- exists v. repeat split; [assumption|].
           intros Hnone. specialize (Hnone t eq_refl).
           rewrite Forall_forall in Hnone. now destruct (Hnone f Hin).
        -- exists (JArr []). repeat split.
      * exists (JArr []). repeat split.
    + exists (JArr []). repeat split.
Qed.

(** ** Field maps: shape *)

Lemma NoDup_keys_Object_assign {V : Type} (target source : list (string * V)) :
  NoDup (keys target) -> NoDup (keys (Object_assign target source)).
Proof.
  unfold Object_assign. revert target.
  induction source as [|[k v] rest IH]; intros target H; simpl; [exact H|].
  apply IH. now apply NoDup_keys_obj_set.
Qed.

Lemma In_keys_Object_assign {V : Type} (target source : list (string * V)) k :
  In k (keys target) -> In k (keys (Object_assign target source)).
Proof.
  unfold Object_assign. revert target.
  induction source as [|[k' v] rest IH]; intros target H; simpl; [exact H|].
  apply IH. apply keys_obj_set. now right.
Qed.

Lemma NoDup_keys_set_string key wrap value fields :
  NoDup (keys fields) -> NoDup (keys (set_string key wrap value fields)).
Proof.
  unfold set_string. destruct value as [v|]; [destruct (truthy_string v)|];
    auto using NoDup_keys_obj_set.
Qed.

Lemma NoDup_keys_set_array key wrap value fields :
  NoDup (keys fields) -> NoDup (keys (set_array key wrap value fields)).
Proof.
  unfold set_array. destruct value as [v|]; auto using NoDup_keys_obj_set.
Qed.

Lemma In_keys_set_string key wrap value fields k :
  In k (keys fields) -> In k (keys (set_string key wrap value fields)).
Proof.
  unfold set_string. destruct value as [v|]; [destruct (truthy_string v)|]; auto;
    intros H; apply keys_obj_set; now right.
Qed.

Lemma In_keys_set_array key wrap value fields k :
  In k (keys fields) -> In k (keys (set_array key wrap value fields)).
Proof.
  unfold set_array. destruct value as [v|]; auto.
  intros H. apply keys_obj_set. now right.
Qed.

Lemma NoDup_keys_merge_custom customFields fields :
  NoDup (keys fields) -> NoDup (keys (merge_custom customFields fields)).
Proof.
  destruct customFields; simpl; auto using NoDup_keys_Object_assign.
Qed.

Lemma In_keys_merge_custom customFields fields k :
  In k (keys fields) -> In k (keys (merge_custom customFields fields)).
Proof.
  destruct customFields; simpl; auto using In_keys_Object_assign.
Qed.

(** X12. The field maps of the advanced tools are well formed whatever
    the arguments: no key occurs twice (so the body is a JSON object with
    distinct members), and the create map always has [project], [summary]
    and [issuetype]: custom fields can replace their values, not remove
    them. *)
Theorem advanced_field_maps_are_well_formed projectKey summary issueType
  description priority assignee reporter labels components fixVersions
  affectsVersions customFields summary' :
  let created :=
    create_advanced_fields projectKey summary issueType description priority
      assignee reporter labels components fixVersions affectsVersions customFields in
  let updated :=
    update_advanced_fields summary' description priority assignee labels components
      fixVersions affectsVersions customFields in
  NoDup (keys created)
  /\ In "project" (keys created)
  /\ In "summary" (keys created)
  /\ In "issuetype" (keys created)
  /\ NoDup (keys updated).
Proof.
  intros created updated.
  assert (Hbase : NoDup (keys [ ("project", JObj [("key", JStr projectKey)]);
                                ("summary", JStr summary);
                                ("issuetype", name_ref issueType) ])).
  { repeat (constructor;
            [ simpl; intros H;
              repeat (destruct H as [H|H]; [discriminate H|]); exact H | ]).
    constructor. }
  unfold created, updated, create_advanced_fields, update_advanced_fields,
    create_advanced_named, update_advanced_named.
  repeat split.
  - apply NoDup_keys_merge_custom.
    repeat first [ apply NoDup_keys_set_array | apply NoDup_keys_set_string ].
    exact Hbase.
  - apply In_keys_merge_custom.
    repeat first [ apply In_keys_set_array | apply In_keys_set_string ].
    simpl. auto.
  - apply In_keys_merge_custom.
    repeat first [ apply In_keys_set_array | apply In_keys_set_string ].
    simpl. auto.
  - apply In_keys_merge_custom.
    repeat first [ apply In_keys_set_array | apply In_keys_set_string ].
    simpl. auto.
  - apply NoDup_keys_merge_custom.
    repeat first [ apply NoDup_keys_set_array | apply NoDup_keys_set_string ].
    constructor.
Qed.

(** ** The basic tools and the advanced tools *)

Lemma create_fields_as_advanced projectKey summary issueType description priority
  assignee labels :
  create_fields projectKey summary issueType description priority assignee labels =
  create_advanced_fields projectKey summary issueType description priority assignee
    None labels None None None None.
Proof.
  unfold create_fields, create_advanced_fields, create_advanced_named, string_part,
    array_part, set_string, set_array, merge_custom.
  destruct description as [d|]; [destruct (truthy_string d)|];
    (destruct priority as [p|]; [destruct (truthy_string p)|]);
    (destruct assignee as [a|]; [destruct (truthy_string a)|]);
    destruct labels; reflexivity.
Qed.

Lemma update_fields_as_advanced summary description priority assignee labels :
  update_fields summary description priority assignee labels =
  update_advanced_fields summary description priority assignee labels
    None None None None.
Proof.
  unfold update_fields, update_advanced_fields, update_advanced_named, string_part,
    array_part, set_string, set_array, merge_custom.
  destruct summary as [s|]; [destruct (truthy_string s)|];
    (destruct description as [d|]; [destruct (truthy_string d)|]);
    (destruct priority as [p|]; [destruct (truthy_string p)|]);
    (destruct assignee as [a|]; [destruct (truthy_string a)|]);
    destruct labels; reflexivity.
Qed.

Ltac split_results :=
  repeat match goal with
         | |- context [_parse ?t ?v] =>
             let r := fresh "r" in
             generalize (_parse t v); intros r
         end;
  repeat match goal with
         | r : ParseResult _ |- _ => destruct r
         end.

Lemma parse_create_advanced_of_basic data :
  obj_get "reporter" data = None ->
  obj_get "components" data = None ->
  obj_get "fixVersions" data = None ->
  obj_get "affectsVersions" data = None ->
  obj_get "customFields" data = None ->
  safeParse CreateIssueAdvancedSchema (Some (JObj data)) =
    match safeParse CreateIssueSchema (Some (JObj data)) with
    | inl issues => inl issues
    | inr (p, (s, (t, (d, (pr, (a, (l, tt))))))) =>
        inr (p, (s, (t, (d, (pr, (a, (None, (l, (None, (None, (None, (None, tt))))))))))))
    end.
Proof.
  intros Hr Hc Hf Ha Hcf.
  unfold safeParse, CreateIssueAdvancedSchema, CreateIssueSchema. cbn [parse_shape].
  rewrite Hr, Hc, Hf, Ha, Hcf, !parse_optional_None.
  split_results; cbn [merge2]; rewrite ?app_nil_r; try reflexivity;
    repeat match goal with u : unit |- _ => destruct u end; reflexivity.
Qed.

Lemma parse_update_advanced_of_basic data :
  obj_get "components" data = None ->
  obj_get "fixVersions" data = None ->
  obj_get "affectsVersions" data = None ->
  obj_get "customFields" data = None ->
  safeParse UpdateIssueAdvancedSchema (Some (JObj data)) =
    match safeParse UpdateIssueSchema (Some (JObj data)) with
    | inl issues => inl issues
    | inr (k, (s, (d, (pr, (a, (l, tt)))))) =>
        inr (k, (s, (d, (pr, (a, (l, (None, (None, (None, (None, tt))))))))))
    end.
Proof.
  intros Hc Hf Ha Hcf.
  unfold safeParse, UpdateIssueAdvancedSchema, UpdateIssueSchema. cbn [parse_shape].
  rewrite Hc, Hf, Ha, Hcf, !parse_optional_None.
  split_results; cbn [merge2]; rewrite ?app_nil_r; try reflexivity;
    repeat match goal with u : unit |- _ => destruct u end; reflexivity.
Qed.

(** X17. The basic create and update tools are the advanced ones
    restricted to the basic arguments: on an argument bag without
    [reporter], [components], [fixVersions], [affectsVersions] and
    [customFields], the basic tool and its advanced counterpart make the
    same requests (same method, endpoint, headers and body). *)
Theorem basic_tools_send_what_advanced_tools_send jiraClient data remote history :
  obj_get "reporter" data = None ->
  obj_get "components" data = None ->
  obj_get "fixVersions" data = None ->
  obj_get "affectsVersions" data = None ->
  obj_get "customFields" data = None ->
  sent (CallTool_handler jiraClient "jira_create_issue" (Some (JObj data)))
       remote history =
  sent (CallTool_handler jiraClient "jira_create_issue_advanced" (Some (JObj data)))
       remote history
  /\ sent (CallTool_handler jiraClient "jira_update_issue" (Some (JObj data)))
          remote history =
     sent (CallTool_handler jiraClient "jira_update_issue_advanced" (Some (JObj data)))
          remote history.
Proof.
  intros Hr Hc Hf Ha Hcf. unfold sent. split.
  - pose proof (parse_create_advanced_of_basic data Hr Hc Hf Ha Hcf) as Hadv.
    destruct (safeParse CreateIssueSchema (Some (JObj data)))
      as [issues|[p [s [t [d [pr [a [l []]]]]]]]] eqn:Hbasic.
    + erewrite (CallTool_invalid jiraClient "jira_create_issue");
        [ | reflexivity | exact Hbasic ].
      erewrite (CallTool_invalid jiraClient "jira_create_issue_advanced");
        [ | reflexivity | exact Hadv ].
      reflexivity.
    + erewrite (CallTool_parsed jiraClient "jira_create_issue");
        [ | reflexivity | exact Hbasic ].
      erewrite (CallTool_parsed jiraClient "jira_create_issue_advanced");
        [ | reflexivity | exact Hadv ].
      cbv beta iota zeta. rewrite !bind_ret_run. cbn [snd].
      unfold createIssue, createIssueRaw. rewrite !request_run. cbn [snd].
      now rewrite create_fields_as_advanced.
  - pose proof (parse_update_advanced_of_basic data Hc Hf Ha Hcf) as Hadv.
    destruct (safeParse UpdateIssueSchema (Some (JObj data)))
      as [issues|[k [s [d [pr [a [l []]]]]]]] eqn:Hbasic.
    + erewrite (CallTool_invalid jiraClient "jira_update_issue");
        [ | reflexivity | exact Hbasic ].
      erewrite (CallTool_invalid jiraClient "jira_update_issue_advanced");
        [ | reflexivity | exact Hadv ].
      reflexivity.
    + erewrite (CallTool_parsed jiraClient "jira_update_issue");
        [ | reflexivity | exact Hbasic ].
      erewrite (CallTool_parsed jiraClient "jira_update_issue_advanced");
        [ | reflexivity | exact Hadv ].
      cbv beta iota zeta. rewrite !then_ret_run. cbn [snd].
      unfold updateIssue, updateIssueRaw. rewrite !request_void_run. cbn [snd].
      now rewrite update_fields_as_advanced.
Qed.

(** ** Issue types of a project *)

(** X18. [getIssueTypesForProject] makes the one request for the project
    and, when the project comes back as anything but [null], returns a
    value that is never falsy: the [issueTypes] member when it has a
    truthy one, the empty list when the member is missing or falsy.  A
    [null] project makes it throw. *)
Theorem issue_types_default_to_the_empty_list self projectKey remote history project :
  outcome (request self ("/project/" ++ projectKey) no_options) remote history =
    inr project ->
  sent (getIssueTypesForProject self projectKey) remote history =
    [ request_of self ("/project/" ++ projectKey) no_options ]
  /\ (project = JNull ->
      exists msg,
        outcome (getIssueTypesForProject self projectKey) remote history =
          inl (JsError msg))
  /\ (project <> JNull ->
      exists types,
        outcome (getIssueTypesForProject self projectKey) remote history = inr types
        /\ truthy types = true
        /\ (forall o, project = JObj o ->
              types = match obj_get "issueTypes" o with
                      | Some v => if truthy v then v else JArr []
                      | None => JArr []
                      end)).
Proof.
  intros Hproject. unfold outcome, sent, getIssueTypesForProject in *.
  rewrite bind_run. rewrite request_run in *. cbn [fst snd] in *.
  rewrite Hproject. split; [|split].
  - rewrite bind_run. destruct (get_prop project "issueTypes") as [e|v];
      cbn [lift fst snd throw ret]; [reflexivity | now rewrite app_nil_r].
  - intros ->. eexists. reflexivity.
  - intros Hnotnull. rewrite bind_run.
    destruct project as [| | | |items|o]; try contradiction;
      try (exists (JArr []); split; [reflexivity|]; split; [reflexivity|];
           intros o' Ho'; discriminate Ho').
    cbn [get_prop lift ret fst snd].
    destruct (obj_get "issueTypes" o) as [v|] eqn:Hv.
    + destruct (truthy v) eqn:Ht.
      * exists v. split; [reflexivity|]. split; [assumption|].
        intros o' Ho'. inversion Ho'; subst. now rewrite Hv, Ht.
      * exists (JArr []). split; [reflexivity|]. split; [reflexivity|].
        intros o' Ho'. inversion Ho'; subst. now rewrite Hv, Ht.
    + exists (JArr []). split; [reflexivity|]. split; [reflexivity|].
      intros o' Ho'. inversion Ho'; subst. now rewrite Hv.
Qed.

(** ** Grouping fields *)

Lemma filter_sync_total pred (p : list (string * json) -> bool) objs :
  (forall o, pred (JObj o) = inr (p o)) ->
  filter_sync pred (map JObj objs) = inr (map JObj (filter p objs)).
Proof.
  intros Hp. induction objs as [|o rest IH]; [reflexivity|].
  cbn [map filter_sync filter]. rewrite Hp, IH. cbn [sbind].
  now destruct (p o).
Qed.

(** X19. The fields resource splits a list of field objects into the
    system fields (no truthy [custom] member) and the custom fields (a
    truthy one), each group in the order of the list; no field is left
    out and none is in both groups. *)
Theorem fields_are_split_by_the_custom_flag objs :
  let is_custom o := truthy_opt (obj_get "custom" o) in
  Reading.grouped_fields (JArr (map JObj objs)) =
    inr (JObj [ ("system", JArr (map JObj (filter (fun o => negb (is_custom o)) objs)));
                ("custom", JArr (map JObj (filter is_custom objs))) ])
  /\ (List.length (filter (fun o => negb (is_custom o)) objs)
        + List.length (filter is_custom objs) = List.length objs)%nat
  /\ forall o, In o objs ->
       (In o (filter is_custom objs) /\ ~ In o (filter (fun o => negb (is_custom o)) objs))
       \/ (In o (filter (fun o => negb (is_custom o)) objs)
           /\ ~ In o (filter is_custom objs)).
Proof.
  intros is_custom. repeat split.
  - unfold Reading.grouped_fields. cbn [array_receiver sbind].
    rewrite (filter_sync_total _ (fun o => negb (is_custom o)))
      by (intros o; reflexivity).
    cbn [sbind].
    rewrite (filter_sync_total _ is_custom) by (intros o; reflexivity).
    reflexivity.
  - induction objs as [|o rest IH]; [reflexivity|].
    cbn [filter]. destruct (is_custom o); cbn [negb List.length]; lia.
  - intros o Hin. destruct (is_custom o) eqn:Hc.
    + left. split.
      * apply filter_In. auto.
      * intros H. apply filter_In in H as [_ H]. rewrite Hc in H. discriminate.
    + right. split.
      * apply filter_In. rewrite Hc. auto.
      * intros H. apply filter_In in H as [_ H]. congruence.
Qed.

End Properties.

(* ================================================================== *)
(** * The theorems at concrete inputs *)
(* ================================================================== *)

(** The examples run on [ascii_engine]; every name they compare is made of
    ASCII characters, on which this engine is the built-in. *)
#[local] Existing Instance ascii_engine.

Lemma assign_null_sends_null_witness :
  sent (CallTool_handler
          (constructor {| JiraTypes.baseUrl := "https://jira.example.com/";
                          JiraTypes.pat := "secret" |})
          "jira_assign_issue"
          (Some (JObj [("issueKey", JStr "DEMO-7"); ("assignee", JNull)])))
       (fun _ _ => Rejected "fetch failed") []
  = [ {| req_url := "https://jira.example.com/rest/api/2/issue/DEMO-7/assignee";
         req_method := Some "PUT";
         req_headers := [ ("Authorization", "Bearer secret");
                          ("Content-Type", "application/json");
                          ("Accept", "application/json") ];
         req_body := Some ("{" ++ dquote ++ "name" ++ dquote ++ ":null}") |} ].
Proof.
  exact (proj2 (assign_null_sends_null
                  (constructor {| JiraTypes.baseUrl := "https://jira.example.com/";
                                  JiraTypes.pat := "secret" |})
                  [("issueKey", JStr "DEMO-7"); ("assignee", JNull)]
                  (fun _ _ => Rejected "fetch failed") [] eq_refl)
               "DEMO-7" eq_refl).
Defined.

Lemma assign_empty_string_reports_unassigned_witness :
  let jiraClient := constructor {| JiraTypes.baseUrl := "https://jira.example.com";
                                   JiraTypes.pat := "secret" |} in
  let remote : Remote :=
    fun _ _ => Resolved {| resp_status := 204; resp_text := "";
                           resp_json := inl "Unexpected end of JSON input" |} in
  let args := Some (JObj [("issueKey", JStr "DEMO-7"); ("assignee", JStr "")]) in
  sent (CallTool_handler jiraClient "jira_assign_issue" args) remote [] =
    [ {| req_url := "https://jira.example.com/rest/api/2/issue/DEMO-7/assignee";
         req_method := Some "PUT";
         req_headers := [ ("Authorization", "Bearer secret");
                          ("Content-Type", "application/json");
                          ("Accept", "application/json") ];
         req_body := Some ("{" ++ dquote ++ "name" ++ dquote ++ ":"
                             ++ dquote ++ dquote ++ "}") |} ]
  /\ outcome (CallTool_handler jiraClient "jira_assign_issue" args) remote [] =
       inr (text_content "Issue DEMO-7 unassigned").
Proof.
  intros jiraClient remote args.
  pose proof (assign_empty_string_reports_unassigned jiraClient
                [("issueKey", JStr "DEMO-7"); ("assignee", JStr "")] "DEMO-7"
                remote [] eq_refl eq_refl eq_refl) as [Hsent [Hreply _]].
  split; [exact Hsent | exact Hreply].
Defined.

Lemma update_with_summary_only_sends_summary_only_witness :
  sent (CallTool_handler
          (constructor {| JiraTypes.baseUrl := "https://jira.example.com/";
                          JiraTypes.pat := "secret" |})
          "jira_update_issue"
          (Some (JObj [("issueKey", JStr "DEMO-7"); ("summary", JStr "New title")])))
       (fun _ _ => Rejected "fetch failed") []
  = [ {| req_url := "https://jira.example.com/rest/api/2/issue/DEMO-7";
         req_method := Some "PUT";
         req_headers := [ ("Authorization", "Bearer secret");
                          ("Content-Type", "application/json");
                          ("Accept", "application/json") ];
         req_body := Some ("{" ++ dquote ++ "fields" ++ dquote ++ ":{"
                             ++ dquote ++ "summary" ++ dquote ++ ":"
                             ++ dquote ++ "New title" ++ dquote ++ "}}") |} ].
Proof.
  exact (proj2 (update_with_summary_only_sends_summary_only
                  (constructor {| JiraTypes.baseUrl := "https://jira.example.com/";
                                  JiraTypes.pat := "secret" |})
                  [("issueKey", JStr "DEMO-7"); ("summary", JStr "New title")]
                  (fun _ _ => Rejected "fetch failed") []
                  eq_refl eq_refl eq_refl eq_refl)
               "DEMO-7" "New title" eq_refl eq_refl).
Defined.


Lemma invalid_arguments_reported_before_any_request_witness :
  CallTool_handler
    (constructor {| JiraTypes.baseUrl := "https://jira.example.com/";
                    JiraTypes.pat := "secret" |})
    "jira_get_issue" (Some (JObj [("expand", JStr "changelog")]))
    (fun _ _ => Rejected "fetch failed") []
  = (inl (McpError InvalidParams
            "Invalid parameters: Required, Expected array, received string"), []).
Proof.
  exact (proj1 (invalid_arguments_reported_before_any_request
                  (constructor {| JiraTypes.baseUrl := "https://jira.example.com/";
                                  JiraTypes.pat := "secret" |})
                  "jira_get_issue" (Some (JObj [("expand", JStr "changelog")]))
                  [ {| message := "Required" |};
                    {| message := "Expected array, received string" |} ]
                  (fun _ _ => Rejected "fetch failed") [] eq_refl)).
Defined.

Lemma unknown_tool_is_method_not_found_witness :
  CallTool_handler
    (constructor {| JiraTypes.baseUrl := "https://jira.example.com/";
                    JiraTypes.pat := "secret" |})
    "jira_close_issue" (Some (JObj [("issueKey", JStr "DEMO-7")]))
    (fun _ _ => Rejected "fetch failed") []
  = (inl (McpError MethodNotFound "Unknown tool: jira_close_issue"), []).
Proof.
  refine (proj1 (unknown_tool_is_method_not_found
                   (constructor {| JiraTypes.baseUrl := "https://jira.example.com/";
                                   JiraTypes.pat := "secret" |})
                   "jira_close_issue" (Some (JObj [("issueKey", JStr "DEMO-7")]))
                   (fun _ _ => Rejected "fetch failed") [] _)).
  unfold tool_names. simpl. intros H.
  repeat (destruct H as [H|H]; [discriminate H|]). exact H.
Defined.

Lemma enumeration_degrades_to_config_witness :
  outcome (ListResources_handler example_client)
    (fun _ _ => Resolved {| resp_status := 503; resp_text := "Service Unavailable";
                            resp_json := inl "Unexpected token S in JSON at position 0" |})
    []
  = inr {| resources :=
             [ {| uri := "jira://config";
                  name := "Jira Configuration";
                  description := "Current Jira server configuration";
                  mimeType := "application/json" |} ] |}.
Proof.
  apply enumeration_degrades_to_config.
  left. eexists. reflexivity.
Defined.

Lemma field_options_empty_when_no_type_matches_witness :
  getFieldOptions example_client "P" "Epic" "priority" example_remote [] =
    (inr (JArr []),
     [ request_of example_client "/issue/createmeta/P/issuetypes" no_options ]).
Proof.
  apply (field_options_empty_when_no_type_matches example_client "P" "Epic"
           "priority" example_remote []
           (JObj [("values", JArr [JObj [("id", JStr "1"); ("name", JStr "Bug")]])])
           [JObj [("id", JStr "1"); ("name", JStr "Bug")]]
           {| projectKey := "P"; issueTypes := [] |}).
  - discriminate.
  - reflexivity.
  - reflexivity.
  - intros t [<-|[]] H. vm_compute in H. discriminate H.
  - reflexivity.
Defined.

(** C7, as stated, fails.  With the empty string as issue type name no
    type matches the filter, yet the options of the first issue type come
    back: the statement with no condition on the name is false. *)
Lemma field_options_empty_name_counterexample :
  ~ field_options_empty_when_none_matches (engine := ascii_engine).
Proof.
  intros claim.
  specialize (claim example_client "P" "" "priority" example_remote []
                (JObj [("values", JArr [JObj [("id", JStr "1"); ("name", JStr "Bug")]])])
                [JObj [("id", JStr "1"); ("name", JStr "Bug")]]
                {| projectKey := "P";
                   issueTypes :=
                     [ {| Client.id := Some (JStr "1");
                          Client.name := Some (JStr "Bug");
                          Client.fields :=
                            [ {| fieldId := Some (JStr "priority");
                                 field_name := Some (JStr "Priority");
                                 required := Some (JBool false);
                                 hasAllowedValues := true;
                                 allowedValues :=
                                   Some (JArr [JObj [("id", JStr "1");
                                                     ("name", JStr "High")]]) |} ] |} ] |}
                eq_refl eq_refl).
  assert (Hnone : no_issue_type_matches ""
                    [JObj [("id", JStr "1"); ("name", JStr "Bug")]])
    by (intros t [<-|[]] H; vm_compute in H; discriminate H).
  specialize (claim Hnone eq_refl).
  vm_compute in claim. discriminate claim.
Qed.

(** What the call of the counterexample returns. *)
Example field_options_of_empty_name :
  outcome (getFieldOptions example_client "P" "" "priority") example_remote [] =
    inr (JArr [JObj [("id", JStr "1"); ("name", JStr "High")]]).
Proof. reflexivity. Qed.

Lemma unknown_argument_keys_are_ignored_witness :
  CallTool_handler example_client "jira_get_issue"
    (Some (JObj (obj_set "verbose" (JBool true) [("issueKey", JStr "DEMO-7")])))
    example_remote [] =
  CallTool_handler example_client "jira_get_issue"
    (Some (JObj [("issueKey", JStr "DEMO-7")])) example_remote [].
Proof.
  apply unknown_argument_keys_are_ignored.
  simpl. intros [H|[H|[]]]; discriminate H.
Defined.

Lemma tool_reply_is_a_single_text_block_witness :
  exists t,
    content (text_content "Issue DEMO-7 deleted successfully") =
      [ {| type := "text"; text := t |} ].
Proof.
  apply (tool_reply_is_a_single_text_block example_client "jira_delete_issue"
           (Some (JObj [("issueKey", JStr "DEMO-7")]))
           (fun _ _ => Resolved {| resp_status := 204; resp_text := "";
                                   resp_json := inl "Unexpected end of JSON input" |})
           []).
  reflexivity.
Defined.


Lemma enumeration_lists_the_first_20_projects_witness :
  exists listed,
    outcome (ListResources_handler example_client)
      (fun _ req =>
         if String.eqb (req_url req) "https://jira.example.com/rest/api/2/project"
         then ok_json (JArr (map JObj [ [("key", JStr "P"); ("name", JStr "Platform")] ]))
         else ok_json (JObj [("displayName", JStr "Ada")])) []
    = inr {| resources := listed |}
    /\ map uri listed =
         [ "jira://config"; "jira://current-user"; "jira://priorities";
           "jira://statuses"; "jira://fields"; "jira://link-types";
           "jira://projects"; "jira://project/P"; "jira://my-issues" ]
    /\ List.length listed = 9%nat.
Proof.
  apply (enumeration_lists_the_first_20_projects example_client _ []
           [ [("key", JStr "P"); ("name", JStr "Platform")] ] ["P"]
           [("displayName", JStr "Ada")] "Ada").
  - reflexivity.
  - reflexivity.
  - constructor; [|constructor]. split; [reflexivity|]. now exists "Platform".
  - reflexivity.
Defined.

Lemma project_resource_makes_four_requests_witness :
  sent (Reading.ReadResource_handler "https://jira.example.com/" example_client
          ("jira://project/" ++ "P")) example_remote [] =
    [ request_of example_client ("/project/" ++ "P") no_options;
      request_of example_client ("/project/" ++ "P" ++ "/versions") no_options;
      request_of example_client ("/project/" ++ "P" ++ "/components") no_options;
      request_of example_client ("/issue/createmeta/" ++ "P" ++ "/issuetypes")
        no_options ].
Proof.
  apply project_resource_makes_four_requests; [discriminate | reflexivity].
Defined.

Lemma unknown_resource_is_refused_witness :
  Reading.ReadResource_handler "https://jira.example.com/" example_client
    "jira://project/demo" example_remote [] =
    (inl (McpError InvalidRequest "Unknown resource: jira://project/demo"), []).
Proof.
  apply (unknown_resource_is_refused "https://jira.example.com/" example_client
           "jira://project/demo" example_remote []).
  - unfold fixed_resource_uris. simpl. intros H.
    repeat (destruct H as [H|H]; [discriminate H|]). exact H.
  - intros key H. inversion H. right. reflexivity.
Defined.

Lemma search_fills_in_the_defaults_witness :
  exists req,
    sent (CallTool_handler example_client "jira_search_issues"
            (Some (JObj [("jql", JStr "project = DEMO"); ("startAt", JNum 10)])))
         example_remote [] = [req]
    /\ req_url req = "https://jira.example.com/rest/api/2/search"
    /\ req_method req = Some "POST"
    /\ req_body req =
         Some ("{" ++ quoted "jql" ++ ":" ++ quoted "project = DEMO" ++ ","
                 ++ quoted "startAt" ++ ":10,"
                 ++ quoted "maxResults" ++ ":50,"
                 ++ quoted "fields" ++ ":["
                 ++ quoted "summary" ++ "," ++ quoted "status" ++ ","
                 ++ quoted "assignee" ++ "," ++ quoted "reporter" ++ ","
                 ++ quoted "priority" ++ "," ++ quoted "created" ++ ","
                 ++ quoted "updated" ++ "," ++ quoted "issuetype" ++ ","
                 ++ quoted "project" ++ "," ++ quoted "description" ++ ","
                 ++ quoted "labels" ++ "," ++ quoted "components" ++ "]}").
Proof.
  apply (search_fills_in_the_defaults example_client
           [("jql", JStr "project = DEMO"); ("startAt", JNum 10)] "project = DEMO"
           (Some 10) None None example_remote []); try reflexivity.
  - intros n H. inversion H. reflexivity.
  - intros n H. discriminate H.
Defined.

Lemma create_meta_asks_for_every_selected_type_witness :
  sent (getCreateMeta example_client "P" (Some "bug")) example_remote [] =
    [ request_of example_client "/issue/createmeta/P/issuetypes" no_options;
      request_of example_client "/issue/createmeta/P/issuetypes/1?maxResults=100"
        no_options ].
Proof.
  apply (create_meta_asks_for_every_selected_type example_client "P" (Some "bug")
           example_remote []
           (JObj [("values", JArr [JObj [("id", JStr "1"); ("name", JStr "Bug")]])])
           [JObj [("id", JStr "1"); ("name", JStr "Bug")]]
           [ [("id", JStr "1"); ("name", JStr "Bug")] ] ["1"]);
    try reflexivity.
  constructor; [reflexivity | constructor].
Defined.

Lemma basic_tools_send_what_advanced_tools_send_witness :
  sent (CallTool_handler example_client "jira_create_issue"
          (Some (JObj [ ("projectKey", JStr "P"); ("summary", JStr "Crash");
                        ("issueType", JStr "Bug"); ("priority", JStr "High") ])))
       example_remote [] =
  sent (CallTool_handler example_client "jira_create_issue_advanced"
          (Some (JObj [ ("projectKey", JStr "P"); ("summary", JStr "Crash");
                        ("issueType", JStr "Bug"); ("priority", JStr "High") ])))
       example_remote [].
Proof.
  exact (proj1 (basic_tools_send_what_advanced_tools_send example_client
                  [ ("projectKey", JStr "P"); ("summary", JStr "Crash");
                    ("issueType", JStr "Bug"); ("priority", JStr "High") ]
                  example_remote [] eq_refl eq_refl eq_refl eq_refl eq_refl)).
Defined.

Lemma issue_types_default_to_the_empty_list_witness :
  sent (getIssueTypesForProject example_client "P")
       (fun _ _ => ok_json (JObj [("key", JStr "P")])) [] =
    [ request_of example_client ("/project/" ++ "P") no_options ]
  /\ outcome (getIssueTypesForProject example_client "P")
       (fun _ _ => ok_json (JObj [("key", JStr "P")])) [] = inr (JArr []).
Proof.
  destruct (issue_types_default_to_the_empty_list example_client "P"
              (fun _ _ => ok_json (JObj [("key", JStr "P")])) []
              (JObj [("key", JStr "P")]) eq_refl) as (Hsent & _ & Hsome).
  split; [exact Hsent|].
  destruct (Hsome ltac:(discriminate)) as (types & Hout & _ & Htypes).
  rewrite Hout. f_equal. exact (Htypes _ eq_refl).
Defined.

Lemma transition_body_carries_comment_only_when_supplied_witness :
  (exists req,
     sent (transitionIssue example_client "DEMO-7" "31" (Some "Done"))
          example_remote [] = [req]
     /\ req_url req = "https://jira.example.com/rest/api/2/issue/DEMO-7/transitions"
     /\ req_method req = Some "POST"
     /\ req_body req =
          Some ("{" ++ quoted "transition" ++ ":{" ++ quoted "id" ++ ":" ++ quoted "31"
                  ++ "}," ++ quoted "update" ++ ":{" ++ quoted "comment" ++ ":[{"
                  ++ quoted "add" ++ ":{" ++ quoted "body" ++ ":" ++ quoted "Done"
                  ++ "}}]}}"))
  /\ (exists req,
        sent (transitionIssue example_client "DEMO-7" "31" (Some ""))
             example_remote [] = [req]
        /\ req_method req = Some "POST"
        /\ req_body req =
             Some ("{" ++ quoted "transition" ++ ":{" ++ quoted "id" ++ ":"
                     ++ quoted "31" ++ "}}"))
  /\ (exists req,
        sent (transitionIssue example_client "DEMO-7" "31" None)
             example_remote [] = [req]
        /\ req_method req = Some "POST"
        /\ req_body req =
             Some ("{" ++ quoted "transition" ++ ":{" ++ quoted "id" ++ ":"
                     ++ quoted "31" ++ "}}")).
Proof.
  split; [|split].
  - destruct (transition_body_carries_comment_only_when_supplied example_client
                "DEMO-7" "31" (Some "Done") example_remote [])
      as (req & body & Hsent & Hurl & Hmethod & Hbody & _ & _ & _ & Hsome & _).
    exists req. split; [exact Hsent|]. split; [exact Hurl|]. split; [exact Hmethod|].
    rewrite Hbody, (Hsome "Done" eq_refl ltac:(discriminate)). reflexivity.
  - destruct (transition_body_carries_comment_only_when_supplied example_client
                "DEMO-7" "31" (Some "") example_remote [])
      as (req & body & Hsent & _ & Hmethod & Hbody & _ & _ & Hempty & _ & _).
    exists req. split; [exact Hsent|]. split; [exact Hmethod|].
    rewrite Hbody, (Hempty eq_refl). reflexivity.
  - destruct (transition_body_carries_comment_only_when_supplied example_client
                "DEMO-7" "31" None example_remote [])
      as (req & body & Hsent & _ & Hmethod & Hbody & _ & Hnone & _ & _ & _).
    exists req. split; [exact Hsent|]. split; [exact Hmethod|].
    rewrite Hbody, (Hnone eq_refl). reflexivity.
Defined.

Lemma user_names_are_percent_encoded_witness :
  sent (searchUsers example_client "a b&c") example_remote [] =
    [ {| req_url := "https://jira.example.com/rest/api/2/user/search?username=a%20b%26c";
         req_method := None;
         req_headers := [ ("Authorization", "Bearer secret");
                          ("Content-Type", "application/json");
                          ("Accept", "application/json") ];
         req_body := None |} ]
  /\ searchUsers example_client lone_surrogate example_remote [] =
       (inl (JsError "URI malformed"), []).
Proof.
  split.
  - destruct (proj1 (user_names_are_percent_encoded example_client "DEMO-7" "a b&c"
                       example_remote []) eq_refl) as (q & Hsent & _ & _ & _).
    pose proof Hsent as Hq. vm_compute in Hq. injection Hq as <-. exact Hsent.
  - exact (proj1 (proj2 (user_names_are_percent_encoded example_client "DEMO-7"
                           lone_surrogate example_remote []) eq_refl)).
Defined.
